(** * Bank-mail assistant backend: record store, analytics and response cache

    A shallow embedding of [backend/app/storage.py],
    [backend/app/api/analytics_routes.py] and
    [backend/app/services/cache_service.py], followed by the properties of
    the specification that were checked against it.

    Conventions of the embedding:
    - a Python [int] is a [Z]; a [str] is a [string] (non-ASCII text is its
      UTF-8 bytes); an [Optional[T]] is an [option T];
    - a naive [datetime] is the number of microseconds since
      0001-01-01T00:00:00, a [timedelta] is a number of microseconds; both
      are range-checked the way Python does, [None] standing for the
      [OverflowError] Python raises;
    - a [dict] whose iteration order is observed is an insertion-ordered
      association list ([Py.dict]); the cache table, whose order is never
      observed, is a [gmap];
    - every call of [datetime.now()] is an explicit argument of the function
      that makes it;
    - a raised exception is [None] in the [option] monad. *)

From Stdlib Require Import ZArith String Ascii List Sorted Permutation Floats.
From stdpp Require Import base option list gmap strings.

Local Open Scope Z_scope.

(** A [datetime] and a [timedelta] are counts of microseconds. *)
Abbreviation datetime := Z (only parsing).
Abbreviation timedelta := Z (only parsing).

(** ** Python built-ins used by the code *)

Module Py.

(** *** Truthiness *)

Definition truthy_str (s : string) : bool :=
  match s with EmptyString => false | _ => true end.
Definition truthy_list {A} (l : list A) : bool :=
  match l with [] => false | _ => true end.
(** [bool(x)] of a float is [x != 0.0]; NaN is truthy. *)
Definition truthy_float (x : float) : bool := negb (PrimFloat.eqb x 0%float).
Definition truthy_opt {A} (f : A → bool) (o : option A) : bool :=
  match o with Some a => f a | None => false end.

(** *** [str.strip()]

    [isspace] is [str.isspace] of one character, given by its code point:
    the characters of the ASCII range and U+0085, U+00A0, U+1680,
    U+2000 to U+200A, U+2028, U+2029, U+202F, U+205F and U+3000.
    A [str] is held as its UTF-8 bytes, so [strip] decodes the character at
    an end before it tests it. [char1], [char2] and [char3] are the code
    points of the characters of one, two and three bytes; the characters of
    four bytes, from U+10000 on, have no whitespace among them. *)

Definition isspace (cp : Z) : bool :=
  ((9 <=? cp) && (cp <=? 13)) || ((28 <=? cp) && (cp <=? 32))
  || (cp =? 133) || (cp =? 160) || (cp =? 5760)
  || ((8192 <=? cp) && (cp <=? 8202))
  || (cp =? 8232) || (cp =? 8233) || (cp =? 8239) || (cp =? 8287) || (cp =? 12288).

Definition byte (c : ascii) : Z := Z.of_N (N_of_ascii c).

Definition continuation (b : Z) : bool := (128 <=? b) && (b <? 192).

Definition char1 (a : ascii) : option Z :=
  if byte a <? 128 then Some (byte a) else None.

Definition char2 (a b : ascii) : option Z :=
  if (194 <=? byte a) && (byte a <? 224) && continuation (byte b)
  then Some ((byte a - 192) * 64 + (byte b - 128))
  else None.

Definition char3 (a b c : ascii) : option Z :=
  let cp := (byte a - 224) * 4096 + (byte b - 128) * 64 + (byte c - 128) in
  if (224 <=? byte a) && (byte a <? 240) && continuation (byte b)
     && continuation (byte c) && (2048 <=? cp)
  then Some cp
  else None.

Definition space (char : option Z) : bool :=
  match char with Some cp => isspace cp | None => false end.

(** [lstrip] drops the whitespace characters [s] starts with. *)
Fixpoint lstrip (s : string) : string :=
  match s with
  | EmptyString => EmptyString
  | String a s1 =>
      if space (char1 a) then lstrip s1
      else
        match s1 with
        | EmptyString => s
        | String b s2 =>
            if space (char2 a b) then lstrip s2
            else
              match s2 with
              | EmptyString => s
              | String c s3 => if space (char3 a b c) then lstrip s3 else s
              end
        end
  end.

(** [s] consists of whitespace characters only. *)
Definition all_space (s : string) : bool :=
  match lstrip s with EmptyString => true | _ => false end.

(** [rstrip] drops the longest end of [s] that consists of whitespace
    characters only. *)
Fixpoint rstrip (s : string) : string :=
  match s with
  | EmptyString => EmptyString
  | String a s' => if all_space s then EmptyString else String a (rstrip s')
  end.

Definition strip (s : string) : string := rstrip (lstrip s).

(** *** Slicing [l[:n]]; a negative [n] counts from the end *)

Definition slice_to {A} (l : list A) (n : Z) : list A :=
  if 0 <=? n then take (Z.to_nat n) l
  else take (Z.to_nat (Z.of_nat (length l) + n)) l.

(** *** Slicing [l[a:b]]; negative bounds count from the end, bounds
outside the list are clamped, and an empty range gives the empty list *)

Definition slice_bound (n i : Z) : Z :=
  if i <? 0 then Z.max (i + n) 0 else Z.min i n.

Definition slice {A} (l : list A) (a b : Z) : list A :=
  let n := Z.of_nat (length l) in
  let lo := slice_bound n a in
  let hi := slice_bound n b in
  take (Z.to_nat (hi - lo)) (drop (Z.to_nat lo) l).

(** *** [str.startswith] and [sep.join] *)

Definition startswith (s p : string) : bool := String.prefix p s.

Definition newline : string := String (ascii_of_N 10) EmptyString.

Definition join (sep : string) (lines : list string) : string :=
  String.concat sep lines.

(** *** Ordering of sort keys ([__lt__] on [int], [datetime] and [str]) *)

Class Ord (K : Type) := {
  lt : K → K → bool;
  lt_irrefl : ∀ a, lt a a = false;
  lt_trans : ∀ a b c, lt a b = true → lt b c = true → lt a c = true;
  lt_total : ∀ a b, lt a b = false → lt b a = false → a = b
}.

Lemma string_compare_refl (s : string) : String.compare s s = Eq.
Proof.
  induction s as [|c s IH]; simpl; [done|].
  unfold Ascii.compare. by rewrite N.compare_refl.
Qed.

Lemma string_compare_trans (a b c : string) :
  String.compare a b = Lt → String.compare b c = Lt → String.compare a c = Lt.
Proof.
  revert b c. induction a as [|x a IH]; intros [|y b] [|z c]; simpl; try done.
  unfold Ascii.compare.
  destruct (N.compare_spec (N_of_ascii x) (N_of_ascii y)) as [Hxy|Hxy|Hxy];
    destruct (N.compare_spec (N_of_ascii y) (N_of_ascii z)) as [Hyz|Hyz|Hyz];
    try done; intros Hab Hbc.
  - rewrite Hxy, Hyz, N.compare_refl. eauto.
  - rewrite Hxy. by apply N.compare_lt_iff in Hyz as ->.
  - rewrite <- Hyz. by apply N.compare_lt_iff in Hxy as ->.
  - assert (N_of_ascii x < N_of_ascii z)%N as Hxz by lia.
    by apply N.compare_lt_iff in Hxz as ->.
Qed.

#[global] Program Instance Ord_int : Ord Z := {| lt := Z.ltb |}.
Next Obligation. intros a. apply Z.ltb_irrefl. Qed.
Next Obligation. intros a b c. rewrite !Z.ltb_lt. lia. Qed.
Next Obligation. intros a b. rewrite !Z.ltb_ge. lia. Qed.

#[global] Program Instance Ord_str : Ord string := {| lt := String.ltb |}.
Next Obligation.
  intros a. unfold String.ltb. by rewrite string_compare_refl.
Qed.
Next Obligation.
  intros a b c. unfold String.ltb.
  destruct (String.compare a b) eqn:Hab; try done.
  destruct (String.compare b c) eqn:Hbc; try done.
  by rewrite (string_compare_trans a b c).
Qed.
Next Obligation.
  intros a b. unfold String.ltb. rewrite (String.compare_antisym b a).
  destruct (String.compare a b) eqn:Hab; try done.
  intros _ _. by apply String.compare_eq_iff.
Qed.

(** *** [sorted(l, key=..., reverse=...)]

    Python's sort is stable and compares keys with [<] only; any stable
    sort computes the same list, here a stable insertion sort. With
    [reverse=True] CPython reverses the list, sorts it ascending and
    reverses the result, which keeps equal keys in their original order. *)

Section Sorted.
Context {A K : Type} `{Ord K} (key : A → K).

Fixpoint insort (x : A) (l : list A) : list A :=
  match l with
  | [] => [x]
  | y :: l' => if lt (key y) (key x) then y :: insort x l' else x :: y :: l'
  end.

Definition list_sort (l : list A) : list A := foldr insort [] l.

Definition sorted (reverse : bool) (l : list A) : list A :=
  if reverse then rev (list_sort (rev l)) else list_sort l.
End Sorted.

(** *** [dict], in insertion order *)

Definition dict (K V : Type) : Type := list (K * V).

Section Dict.
Context {K V : Type} `{EqDecision K}.

Fixpoint get (d : dict K V) (k : K) : option V :=
  match d with
  | [] => None
  | (k', v) :: d' => if decide (k' = k) then Some v else get d' k
  end.

Definition get_default (d : dict K V) (k : K) (dflt : V) : V :=
  default dflt (get d k).

(** [d[k] = v]: an existing key keeps its position, a new key goes last. *)
Fixpoint set (d : dict K V) (k : K) (v : V) : dict K V :=
  match d with
  | [] => [(k, v)]
  | (k', v') :: d' =>
      if decide (k' = k) then (k', v) :: d' else (k', v') :: set d' k v
  end.

Fixpoint del (d : dict K V) (k : K) : dict K V :=
  match d with
  | [] => []
  | (k', v') :: d' => if decide (k' = k) then d' else (k', v') :: del d' k
  end.

Definition contains (d : dict K V) (k : K) : bool := bool_decide (is_Some (get d k)).
Definition keys (d : dict K V) : list K := d.*1.
Definition values (d : dict K V) : list V := d.*2.
Definition items (d : dict K V) : list (K * V) := d.
End Dict.

(** *** [datetime] and [timedelta] *)


Definition US_PER_HOUR : Z := 3600000000.
Definition US_PER_DAY : Z := 86400000000.
(** [timedelta.max.days] and [date.max.toordinal()]. *)
Definition MAX_DELTA_DAYS : Z := 999999999.
Definition MAXORDINAL : Z := 3652059.

Definition timedelta_in_range (us : Z) : bool :=
  (- MAX_DELTA_DAYS * US_PER_DAY <=? us) && (us <? (MAX_DELTA_DAYS + 1) * US_PER_DAY).

Definition timedelta_of_days (days : Z) : option timedelta :=
  let us := days * US_PER_DAY in
  if timedelta_in_range us then Some us else None.

Definition timedelta_of_hours (hours : Z) : option timedelta :=
  let us := hours * US_PER_HOUR in
  if timedelta_in_range us then Some us else None.

Definition datetime_in_range (t : Z) : bool :=
  (0 <=? t) && (t <? MAXORDINAL * US_PER_DAY).

Definition datetime_add (t : datetime) (d : timedelta) : option datetime :=
  if datetime_in_range (t + d) then Some (t + d) else None.

Definition datetime_sub (t : datetime) (d : timedelta) : option datetime :=
  if datetime_in_range (t - d) then Some (t - d) else None.

(** [datetime.date().isoformat()]: the proleptic Gregorian date of the day
    the instant falls in, as [YYYY-MM-DD] (CPython's [_ord2ymd]). *)

Definition digit (n : Z) : ascii := ascii_of_N (48 + Z.to_N (n mod 10)).

Definition pad2 (n : Z) : string :=
  String (digit (n / 10)) (String (digit n) EmptyString).

Definition pad4 (n : Z) : string :=
  String (digit (n / 1000)) (String (digit (n / 100)) (pad2 n)).

Definition days_in_month (leap : bool) (m : Z) : Z :=
  if m =? 2 then (if leap then 29 else 28)
  else if (m =? 4) || (m =? 6) || (m =? 9) || (m =? 11) then 30 else 31.

Definition days_before_month (leap : bool) (m : Z) : Z :=
  foldr Z.add 0 (map (days_in_month leap) (map Z.of_nat (seq 1 (Z.to_nat (m - 1))))).

Definition ord2ymd (ordinal : Z) : Z * Z * Z :=
  let n := ordinal - 1 in
  let n400 := n / 146097 in let n := n mod 146097 in
  let n100 := n / 36524 in let n := n mod 36524 in
  let n4 := n / 1461 in let n := n mod 1461 in
  let n1 := n / 365 in let n := n mod 365 in
  let year := n400 * 400 + 1 + n100 * 100 + n4 * 4 + n1 in
  if (n1 =? 4) || (n100 =? 4) then (year - 1, 12, 31)
  else
    let leapyear := (n1 =? 3) && (negb (n4 =? 24) || (n100 =? 3)) in
    let month := Z.shiftr (n + 50) 5 in
    let preceding := days_before_month leapyear month in
    if n <? preceding
    then (year, month - 1,
          n - (preceding - days_in_month leapyear (month - 1)) + 1)
    else (year, month, n - preceding + 1).

Definition date_isoformat (t : datetime) : string :=
  let '(y, m, d) := ord2ymd (t / US_PER_DAY + 1) in
  (pad4 y ++ "-" ++ pad2 m ++ "-" ++ pad2 d)%string.

(** [datetime.isoformat()]: the date, [T], the time of day, and the
    microseconds when they are not zero. *)
Definition pad6 (n : Z) : string :=
  (pad2 (n / 10000) ++ pad2 (n / 100) ++ pad2 n)%string.

Definition datetime_isoformat (t : datetime) : string :=
  let us := t mod US_PER_DAY in
  let hh := us / US_PER_HOUR in
  let mm := us / 60000000 mod 60 in
  let ss := us / 1000000 mod 60 in
  let ff := us mod 1000000 in
  (date_isoformat t ++ "T" ++ pad2 hh ++ ":" ++ pad2 mm ++ ":" ++ pad2 ss
     ++ (if (ff =? 0)%Z then EmptyString else "." ++ pad6 ff))%string.

(** *** [sum] and [round(x, 2)] on floats (IEEE 754 binary64)

    [sum] adds from left to right starting from the integer [0] (Python 3.12
and later compensate the rounding errors of the additions, which can change
the last bits of a sum that is not exact).
    [round(x, 2)] returns the double nearest to the decimal obtained by
    rounding the exact value of [x] half-to-even at two places; infinities
    and NaN are returned unchanged. *)

Definition sum_float (l : list float) : float :=
  fold_left PrimFloat.add l 0%float.

Definition float_of_int (n : Z) : float :=
  SF2Prim (binary_normalize prec emax n 0 false).

Definition round_half_even (num den : Z) : Z :=
  let q := num / den in
  let r := num mod den in
  if 2 * r <? den then q
  else if den <? 2 * r then q + 1
  else if Z.even q then q else q + 1.

Definition round2 (x : float) : float :=
  match Prim2SF x with
  | S754_finite s m e =>
      let n :=
        if 0 <=? e then Zpos m * 2 ^ e * 100
        else round_half_even (Zpos m * 100) (2 ^ (- e)) in
      if n =? 0 then x * 0%float
      else SF2Prim (SFdiv prec emax
                      (S754_finite s (Z.to_pos n) 0) (S754_finite false 100 0))
  | _ => x
  end.

End Py.

Import Py (dict).

(** ** Records of the store ([storage.py]) *)

Module Context.
Record t := mk {
  id : Z;
  name : string;
  context_text : string;
  description : option string;
  created_at : datetime;
  updated_at : datetime
}.

Definition set_name (v : string) (c : t) : t :=
  mk (id c) v (context_text c) (description c) (created_at c) (updated_at c).
Definition set_context_text (v : string) (c : t) : t :=
  mk (id c) (name c) v (description c) (created_at c) (updated_at c).
Definition set_description (v : option string) (c : t) : t :=
  mk (id c) (name c) (context_text c) v (created_at c) (updated_at c).
Definition set_updated_at (v : datetime) (c : t) : t :=
  mk (id c) (name c) (context_text c) (description c) (created_at c) v.
End Context.

Module Thread.
Record t := mk {
  id : Z;
  subject : string;
  company_context_id : option Z;
  extra_directives : option (list string);
  custom_prompt : option string;
  created_at : datetime;
  updated_at : datetime
}.

Definition set_extra_directives (v : option (list string)) (th : t) : t :=
  mk (id th) (subject th) (company_context_id th) v (custom_prompt th)
     (created_at th) (updated_at th).
Definition set_custom_prompt (v : option string) (th : t) : t :=
  mk (id th) (subject th) (company_context_id th) (extra_directives th) v
     (created_at th) (updated_at th).
Definition set_updated_at (v : datetime) (th : t) : t :=
  mk (id th) (subject th) (company_context_id th) (extra_directives th)
     (custom_prompt th) (created_at th) v.
End Thread.

Module Message.
(** [message_type] is a plain [str] in the code; the store never checks it. *)
Record t := mk {
  id : Z;
  thread_id : Z;
  message_type : string;
  subject : string;
  body : string;
  sender_name : option string;
  sender_position : option string;
  generation_time_seconds : option float;
  created_at : datetime
}.
End Message.

(** ** The in-memory store ([InMemoryStorage]) *)

Module Storage.

Record InMemoryStorage := mk {
  contexts : dict Z Context.t;
  threads : dict Z Thread.t;
  messages : dict Z Message.t;
  _context_counter : Z;
  _thread_counter : Z;
  _message_counter : Z
}.

(** The store of [__init__] before the mock data is added. *)
Definition empty : InMemoryStorage := mk [] [] [] 1 1 1.

Definition with_threads (ths : dict Z Thread.t) (self : InMemoryStorage) :=
  mk (contexts self) ths (messages self)
     (_context_counter self) (_thread_counter self) (_message_counter self).

(** *** Contexts *)

Definition create_context (self : InMemoryStorage) (now_created now_updated : datetime)
    (name context_text : string) (description : option string)
  : InMemoryStorage * Context.t :=
  let context_id := _context_counter self in
  let context :=
    Context.mk context_id name context_text description now_created now_updated in
  (mk (Py.set (contexts self) context_id context) (threads self) (messages self)
      (context_id + 1) (_thread_counter self) (_message_counter self),
   context).

Definition get_context (self : InMemoryStorage) (context_id : Z) : option Context.t :=
  Py.get (contexts self) context_id.

Definition delete_context (self : InMemoryStorage) (context_id : Z)
  : InMemoryStorage * bool :=
  if Py.contains (contexts self) context_id
  then (mk (Py.del (contexts self) context_id) (threads self) (messages self)
           (_context_counter self) (_thread_counter self) (_message_counter self),
        true)
  else (self, false).

(** *** Threads *)

Definition create_thread (self : InMemoryStorage) (now_created now_updated : datetime)
    (subject : string) (company_context_id : option Z)
    (extra_directives : option (list string)) (custom_prompt : option string)
  : InMemoryStorage * Thread.t :=
  let thread_id := _thread_counter self in
  let thread :=
    Thread.mk thread_id subject company_context_id extra_directives custom_prompt
              now_created now_updated in
  (mk (contexts self) (Py.set (threads self) thread_id thread) (messages self)
      (_context_counter self) (thread_id + 1) (_message_counter self),
   thread).

Definition get_thread (self : InMemoryStorage) (thread_id : Z) : option Thread.t :=
  Py.get (threads self) thread_id.

(** [None] for an argument means that the argument was not passed (or was
    passed as [None]); the result is [None] when the thread does not exist. *)
Definition update_thread_directives (self : InMemoryStorage) (now : datetime)
    (thread_id : Z) (extra_directives : option (list string))
    (custom_prompt : option string)
  : InMemoryStorage * option Thread.t :=
  match Py.get (threads self) thread_id with
  | None => (self, None)
  | Some thread =>
      let thread :=
        match extra_directives with
        | Some ds =>
            Thread.set_extra_directives
              (if Py.truthy_list ds then Some ds else None) thread
        | None => thread
        end in
      let thread :=
        match custom_prompt with
        | Some p =>
            Thread.set_custom_prompt
              (if Py.truthy_str p && Py.truthy_str (Py.strip p)
               then Some (Py.strip p) else None) thread
        | None => thread
        end in
      let thread := Thread.set_updated_at now thread in
      (with_threads (Py.set (threads self) thread_id thread) self, Some thread)
  end.

(** *** Messages *)

Definition add_message (self : InMemoryStorage) (now_created now_updated : datetime)
    (thread_id : Z) (message_type subject body : string)
    (sender_name sender_position : option string)
    (generation_time_seconds : option float)
  : InMemoryStorage * Message.t :=
  let message_id := _message_counter self in
  let message :=
    Message.mk message_id thread_id message_type subject body sender_name
               sender_position generation_time_seconds now_created in
  let msgs := Py.set (messages self) message_id message in
  let ths :=
    match Py.get (threads self) thread_id with
    | Some thread =>
        Py.set (threads self) thread_id (Thread.set_updated_at now_updated thread)
    | None => threads self
    end in
  (mk (contexts self) ths msgs
      (_context_counter self) (_thread_counter self) (message_id + 1),
   message).

Definition get_thread_messages (self : InMemoryStorage) (thread_id : Z)
  : list Message.t :=
  let messages :=
    List.filter (λ msg, Message.thread_id msg =? thread_id) (Py.values (messages self)) in
  Py.sorted Message.created_at false messages.

Definition in_period (start_date end_date t : datetime) : bool :=
  (start_date <=? t) && (t <=? end_date).

Definition get_messages_in_period (self : InMemoryStorage)
    (start_date end_date : datetime) : list Message.t :=
  List.filter (λ msg, in_period start_date end_date (Message.created_at msg))
              (Py.values (messages self)).

Definition get_threads_in_period (self : InMemoryStorage)
    (start_date end_date : datetime) : list Thread.t :=
  List.filter (λ thread, in_period start_date end_date (Thread.created_at thread))
              (Py.values (threads self)).

(** *** The remaining operations of the store *)

Definition with_contexts (cs : dict Z Context.t) (self : InMemoryStorage) :=
  mk cs (threads self) (messages self)
     (_context_counter self) (_thread_counter self) (_message_counter self).

Definition get_all_contexts (self : InMemoryStorage) (skip limit : Z)
  : list Context.t :=
  let contexts := Py.values (contexts self) in
  Py.slice contexts skip (skip + limit).

(** [None] for an argument means that the argument was not passed (or was
passed as [None]); the result is [None] when the context does not exist. *)
Definition update_context (self : InMemoryStorage) (now : datetime)
    (context_id : Z) (name context_text description : option string)
  : InMemoryStorage * option Context.t :=
  match Py.get (contexts self) context_id with
  | None => (self, None)
  | Some context =>
      let context :=
        match name with Some v => Context.set_name v context | None => context end in
      let context :=
        match context_text with
        | Some v => Context.set_context_text v context
        | None => context
        end in
      let context :=
        match description with
        | Some v => Context.set_description (Some v) context
        | None => context
        end in
      let context := Context.set_updated_at now context in
      (with_contexts (Py.set (contexts self) context_id context) self, Some context)
  end.

Definition get_all_threads (self : InMemoryStorage) (skip limit : Z)
  : list Thread.t :=
  let threads := Py.sorted Thread.updated_at true (Py.values (threads self)) in
  Py.slice threads skip (skip + limit).

End Storage.

(** ** The analytics routes ([analytics_routes.py]) *)

Module Analytics.
Import Storage.

(** [end_date = datetime.now(); start_date = end_date - timedelta(days=days)];
    [None] when Python raises [OverflowError]. *)
Definition period (now : datetime) (days : Z) : option (datetime * datetime) :=
  delta ← Py.timedelta_of_days days;
  start_date ← Py.datetime_sub now delta;
  Some (start_date, now).

(** *** [get_overview] *)

Record Overview := mkOverview {
  period_days : Z;
  total_threads : Z;
  total_messages : Z;
  incoming_messages : Z;
  outgoing_messages : Z;
  threads_with_directives : Z;
  avg_response_time_seconds : float
}.

Definition len {A} (l : list A) : Z := Z.of_nat (length l).

Definition has_type (ty : string) (m : Message.t) : bool :=
  String.eqb (Message.message_type m) ty.

(** The comprehension of [generation_times]: the third test is only
    evaluated when the second one is truthy. *)
Definition generation_times (messages : list Message.t) : list float :=
  omap (λ m,
          if has_type "outgoing" m then
            match Message.generation_time_seconds m with
            | Some g =>
                if Py.truthy_float g && PrimFloat.ltb 0%float g then Some g else None
            | None => None
            end
          else None) messages.

Definition mean_rounded (times : list float) : float :=
  if Py.truthy_list times
  then Py.round2 (PrimFloat.div (Py.sum_float times) (Py.float_of_int (len times)))
  else 0%float.

Definition overview_of (days : Z) (threads : list Thread.t) (messages : list Message.t)
  : Overview :=
  let total_threads := len threads in
  let total_messages := len messages in
  let incoming_count := len (List.filter (has_type "incoming") messages) in
  let outgoing_count := len (List.filter (has_type "outgoing") messages) in
  let threads_with_directives :=
    len (List.filter
           (λ t, Py.truthy_opt Py.truthy_list (Thread.extra_directives t)) threads) in
  let avg_response_time_seconds := mean_rounded (generation_times messages) in
  mkOverview days total_threads total_messages incoming_count outgoing_count
             threads_with_directives avg_response_time_seconds.

Definition get_overview (storage : InMemoryStorage) (now : datetime) (days : Z)
  : option Overview :=
  '(start_date, end_date) ← period now days;
  let threads := get_threads_in_period storage start_date end_date in
  let messages := get_messages_in_period storage start_date end_date in
  Some (overview_of days threads messages).

(** *** [get_threads_by_context] *)







(** *** [get_threads_growth] *)

Record GrowthRow := mkGrowthRow { date : string; daily : Z; cumulative : Z }.

Record Growth := mkGrowth {
  g_data : list GrowthRow;
  g_period_days : Z
}.

Definition count_by_date (threads : list Thread.t) : dict string Z :=
  fold_left
    (λ by_date thread,
       let date_str := Py.date_isoformat (Thread.created_at thread) in
       Py.set by_date date_str (Py.get_default by_date date_str 0 + 1))
    threads [].

(** The loop over [sorted(by_date.keys())]; [by_date[date_str]] raises
    [KeyError] on a missing key. *)
Fixpoint growth_loop (by_date : dict string Z) (dates : list string)
    (cumulative : Z) (data : list GrowthRow) : option (list GrowthRow) :=
  match dates with
  | [] => Some data
  | date_str :: dates' =>
      count ← Py.get by_date date_str;
      let cumulative := cumulative + count in
      growth_loop by_date dates' cumulative
                  (data ++ [mkGrowthRow date_str count cumulative])
  end.

Definition growth_of (threads : list Thread.t) : option (list GrowthRow) :=
  let by_date := count_by_date threads in
  growth_loop by_date (Py.sorted id false (Py.keys by_date)) 0 [].

Definition get_threads_growth (storage : InMemoryStorage) (now : datetime) (days : Z)
  : option Growth :=
  '(start_date, end_date) ← period now days;
  let threads := get_threads_in_period storage start_date end_date in
  data ← growth_of threads;
  Some (mkGrowth data days).

(** *** [get_top_threads] *)

Record ThreadRow := mkThreadRow {
  id : Z;
  subject : string;
  message_count : Z;
  created_at : string;
  updated_at : string
}.

Record TopThreads := mkTopThreads {
  tt_data : list ThreadRow;
  tt_limit : Z;
  tt_period_days : Z
}.

Definition thread_row (storage : InMemoryStorage) (thread : Thread.t) : ThreadRow :=
  let messages := get_thread_messages storage (Thread.id thread) in
  mkThreadRow (Thread.id thread) (Thread.subject thread) (len messages)
              (Py.datetime_isoformat (Thread.created_at thread))
              (Py.datetime_isoformat (Thread.updated_at thread)).

Definition top_of (storage : InMemoryStorage) (limit : Z) (threads : list Thread.t)
  : list ThreadRow :=
  let thread_data := map (thread_row storage) threads in
  Py.slice_to (Py.sorted message_count true thread_data) limit.

Definition get_top_threads (storage : InMemoryStorage) (now : datetime)
    (limit days : Z) : option TopThreads :=
  '(start_date, end_date) ← period now days;
  let threads := get_threads_in_period storage start_date end_date in
  Some (mkTopThreads (top_of storage limit threads) limit days).

(** *** [get_messages_by_day] *)

Record DayRow := mkDayRow { day_date : string; day_incoming : Z; day_outgoing : Z }.

Record ByDay := mkByDay {
  bd_data : list DayRow;
  bd_period_days : Z
}.

(** [row[message_type] += 1] on a row with the keys [date], [incoming] and
[outgoing]: a [KeyError] for another key, a [TypeError] for [date]. *)
Definition bump_row (row : DayRow) (message_type : string) : option DayRow :=
  if String.eqb message_type "incoming"
  then Some (mkDayRow (day_date row) (day_incoming row + 1) (day_outgoing row))
  else if String.eqb message_type "outgoing"
  then Some (mkDayRow (day_date row) (day_incoming row) (day_outgoing row + 1))
  else None.

(** One iteration of the loop over the messages. *)
Definition by_day_step (by_date : dict string DayRow) (msg : Message.t)
  : option (dict string DayRow) :=
  let date_str := Py.date_isoformat (Message.created_at msg) in
  let by_date :=
    if Py.contains by_date date_str then by_date
    else Py.set by_date date_str (mkDayRow date_str 0 0) in
  row ← Py.get by_date date_str;
  row ← bump_row row (Message.message_type msg);
  Some (Py.set by_date date_str row).

Fixpoint by_day_loop (by_date : dict string DayRow) (messages : list Message.t)
  : option (dict string DayRow) :=
  match messages with
  | [] => Some by_date
  | msg :: messages' =>
      by_date ← by_day_step by_date msg;
      by_day_loop by_date messages'
  end.

Definition by_day_of (messages : list Message.t) : option (list DayRow) :=
  by_date ← by_day_loop [] messages;
  Some (Py.sorted day_date false (Py.values by_date)).

Definition get_messages_by_day (storage : InMemoryStorage) (now : datetime) (days : Z)
  : option ByDay :=
  '(start_date, end_date) ← period now days;
  let messages := get_messages_in_period storage start_date end_date in
  data ← by_day_of messages;
  Some (mkByDay data days).

(** *** [get_directives_usage] *)

(** A number of the result: [round(0, 2)] is the integer [0], the rounded
quotient is a float. *)
Inductive number := Int (n : Z) | Float (x : float).

Record DirectivesUsage := mkDirectivesUsage {
  du_total_threads : Z;
  du_threads_with_directives : Z;
  du_threads_with_custom_prompt : Z;
  directives_usage_percentage : number;
  du_period_days : Z
}.

Definition usage_of (days : Z) (threads : list Thread.t) : DirectivesUsage :=
  let total_threads := len threads in
  let threads_with_directives :=
    len (List.filter
           (λ t, Py.truthy_opt Py.truthy_list (Thread.extra_directives t)) threads) in
  let threads_with_custom_prompt :=
    len (List.filter
           (λ t, Py.truthy_opt Py.truthy_str (Thread.custom_prompt t)) threads) in
  let usage_percentage :=
    if 0 <? total_threads
    then Float (Py.round2
                  (PrimFloat.mul
                     (PrimFloat.div (Py.float_of_int threads_with_directives)
                                    (Py.float_of_int total_threads))
                     100%float))
    else Int 0 in
  mkDirectivesUsage total_threads threads_with_directives threads_with_custom_prompt
                    usage_percentage days.

Definition get_directives_usage (storage : InMemoryStorage) (now : datetime) (days : Z)
  : option DirectivesUsage :=
  '(start_date, end_date) ← period now days;
  let threads := get_threads_in_period storage start_date end_date in
  Some (usage_of days threads).

End Analytics.

(** ** The response cache ([cache_service.py]) *)

Module Cache.

Section CacheService.
(** [Any] is the type of the cached values and of the key arguments.
    [json_dumps] is [json.dumps(args, sort_keys=True, ensure_ascii=False)],
    which raises on an argument that is not serialisable, and
    [sha256_hexdigest] is [hashlib.sha256(...).hexdigest()] of the UTF-8
    encoding. *)
Context {Any : Type}.
Variable json_dumps : list Any → option string.
Variable sha256_hexdigest : string → string.

Record CacheService := mk {
  _enabled : bool;
  _cache : gmap string (Any * datetime);
  _ttl_analysis : Z;
  _ttl_generation : Z
}.

(** [CacheService()] *)
Definition init : CacheService := mk false ∅ 24 12.

Definition with_cache (c : gmap string (Any * datetime)) (self : CacheService) :=
  mk (_enabled self) c (_ttl_analysis self) (_ttl_generation self).

Definition _generate_key (prefix : string) (args : list Any) : option string :=
  key_data ← json_dumps args;
  let key_hash := sha256_hexdigest key_data in
  Some ("bizmail:" ++ prefix ++ ":" ++ key_hash)%string.

(** [get]; the [try ... except Exception] turns a failure of the key
    derivation into a miss. *)
Definition get (self : CacheService) (now : datetime)
    (prefix : string) (args : list Any) : CacheService * option Any :=
  if negb (_enabled self) then (self, None)
  else
    match _generate_key prefix args with
    | Some key =>
        match _cache self !! key with
        | Some (value, expiry) =>
            if now <? expiry then (self, Some value)
            else (with_cache (delete key (_cache self)) self, None)
        | None => (self, None)
        end
    | None => (self, None)
    end.

(** [set]; a failure of the key derivation or of the computation of the
    expiry is caught and the call returns [False] without writing. *)
Definition set (self : CacheService) (now : datetime)
    (prefix : string) (value : Any) (ttl_hours : Z) (args : list Any)
  : CacheService * bool :=
  if negb (_enabled self) then (self, false)
  else
    match
      key ← _generate_key prefix args;
      delta ← Py.timedelta_of_hours ttl_hours;
      expiry ← Py.datetime_add now delta;
      Some (with_cache (<[key := (value, expiry)]> (_cache self)) self)
    with
    | Some self' => (self', true)
    | None => (self, false)
    end.

Definition is_enabled (self : CacheService) : bool := _enabled self.
End CacheService.

Arguments CacheService : clear implicits.
Arguments init : clear implicits.

Section Wrappers.
(** [of_str] makes a [str] an argument of the key; [json_dumps_sorted] is
[json.dumps(directives, sort_keys=True)], called by the wrappers outside of
every [try]. *)
Context {Any : Type}.
Variable json_dumps : list Any → option string.
Variable sha256_hexdigest : string → string.
Variable of_str : string → Any.
Variable json_dumps_sorted : list Any → option string.

(** [x or ""] and [x or []] *)
Definition or_empty_str (x : option string) : string :=
  match x with
  | Some s => if Py.truthy_str s then s else EmptyString
  | None => EmptyString
  end.

Definition or_empty_list (x : option (list Any)) : list Any :=
  match x with
  | Some l => if Py.truthy_list l then l else []
  | None => []
  end.

Definition get_analysis (self : CacheService Any) (now : datetime)
    (subject body company_context : string) : CacheService Any * option Any :=
  get json_dumps sha256_hexdigest self now "analysis"
      [of_str subject; of_str body; of_str company_context].

Definition set_analysis (self : CacheService Any) (now : datetime)
    (subject body company_context : string) (result : Any)
  : CacheService Any * bool :=
  set json_dumps sha256_hexdigest self now "analysis" result (_ttl_analysis self)
      [of_str subject; of_str body; of_str company_context].

(** The arguments of the key of a generation; [None] when the
serialisation of the directives raises. *)
Definition generation_args (source_subject source_body company_context
      parameters_hash : string) (thread_history : option string)
    (extra_directives : option (list Any)) (custom_prompt : option string)
  : option (list Any) :=
  directives ← json_dumps_sorted (or_empty_list extra_directives);
  Some [of_str source_subject; of_str source_body; of_str company_context;
        of_str parameters_hash; of_str (or_empty_str thread_history);
        of_str directives; of_str (or_empty_str custom_prompt)].

(** The outer [None] is an exception that leaves the wrapper. *)
Definition get_generation (self : CacheService Any) (now : datetime)
    (source_subject source_body company_context parameters_hash : string)
    (thread_history : option string) (extra_directives : option (list Any))
    (custom_prompt : option string)
  : option (CacheService Any * option Any) :=
  args ← generation_args source_subject source_body company_context parameters_hash
                         thread_history extra_directives custom_prompt;
  Some (get json_dumps sha256_hexdigest self now "generation" args).

Definition set_generation (self : CacheService Any) (now : datetime)
    (source_subject source_body company_context parameters_hash : string)
    (result : Any)
    (thread_history : option string) (extra_directives : option (list Any))
    (custom_prompt : option string)
  : option (CacheService Any * bool) :=
  args ← generation_args source_subject source_body company_context parameters_hash
                         thread_history extra_directives custom_prompt;
  Some (set json_dumps sha256_hexdigest self now "generation" result
            (_ttl_generation self) args).

Definition clear_pattern (self : CacheService Any) (pattern : string)
  : CacheService Any * Z :=
  if negb (_enabled self) then (self, 0)
  else
    let keys_to_delete :=
      List.filter (λ k, Py.startswith k ("bizmail:" ++ pattern)%string)
                  (map_to_list (_cache self)).*1 in
    (with_cache (fold_left (λ cache key, delete key cache) keys_to_delete (_cache self))
                self,
     Z.of_nat (length keys_to_delete)).
End Wrappers.

End Cache.

(** ** The services ([thread_service.py], [context_service.py]) *)

Module ThreadService.

Definition get_thread_directives (thread : Thread.t)
  : option (list string) * option string :=
  (Thread.extra_directives thread, Thread.custom_prompt thread).

(** The four lines of one message. *)
Definition message_lines (msg : Message.t) : list string :=
  let msg_type :=
    if String.eqb (Message.message_type msg) "incoming"
    then "Входящее письмо" else "Исходящее письмо" in
  let sender_info :=
    match Message.sender_name msg with
    | Some name =>
        if Py.truthy_str name then
          (" от " ++ name
             ++ match Message.sender_position msg with
                | Some position =>
                    if Py.truthy_str position then " (" ++ position ++ ")"
                    else EmptyString
                | None => EmptyString
                end)%string
        else EmptyString
    | None => EmptyString
    end in
  [(Py.newline ++ msg_type ++ sender_info ++ ":")%string;
   ("Тема: " ++ Message.subject msg)%string;
   ("Текст: " ++ Message.body msg)%string;
   "---"%string].

Definition format_thread_history (messages : list Message.t) : string :=
  if negb (Py.truthy_list messages) then EmptyString
  else
    let history_lines :=
      fold_left (λ lines msg, lines ++ message_lines msg) messages
                ["История переписки:"%string] in
    Py.join Py.newline history_lines.

End ThreadService.

Module ContextService.

Definition get_context_text (storage : Storage.InMemoryStorage) (context_id : Z)
  : option string :=
  match Storage.get_context storage context_id with
  | Some context => Some (Context.context_text context)
  | None => None
  end.

End ContextService.

(** * Notions used to state the properties *)

(** ** Whitespace at the ends of a string *)

(** The UTF-8 bytes of the character with code point [cp]. *)
Definition utf8 (cp : Z) : string :=
  let b (n : Z) := ascii_of_N (Z.to_N n) in
  if cp <? 128 then String (b cp) EmptyString
  else if cp <? 2048 then
    String (b (192 + cp / 64)) (String (b (128 + cp mod 64)) EmptyString)
  else if cp <? 65536 then
    String (b (224 + cp / 4096))
      (String (b (128 + cp / 64 mod 64)) (String (b (128 + cp mod 64)) EmptyString))
  else
    String (b (240 + cp / 262144))
      (String (b (128 + cp / 4096 mod 64))
         (String (b (128 + cp / 64 mod 64)) (String (b (128 + cp mod 64)) EmptyString))).

(** [s] is empty or consists of whitespace characters only. *)
Inductive blank : string → Prop :=
| blank_nil : blank EmptyString
| blank_cons (cp : Z) (s : string) :
    Py.isspace cp = true → blank s → blank (utf8 cp ++ s).

(** [s] has no whitespace character at its start or at its end. *)
Definition trimmed (s : string) : Prop :=
  ∀ cp t, Py.isspace cp = true → s ≠ (utf8 cp ++ t)%string ∧ s ≠ (t ++ utf8 cp)%string.

(** The rest of [s] after the whitespace character it starts with. *)
Definition skip_space (s : string) : option string :=
  match s with
  | EmptyString => None
  | String a s1 =>
      if Py.space (Py.char1 a) then Some s1
      else
        match s1 with
        | EmptyString => None
        | String b s2 =>
            if Py.space (Py.char2 a b) then Some s2
            else
              match s2 with
              | EmptyString => None
              | String c s3 => if Py.space (Py.char3 a b c) then Some s3 else None
              end
        end
  end.

(** ** Rounding to two decimals *)


(** The double nearest to [n / 100], for [n > 0], with the sign given: the
quotient of IEEE 754 of the integers [n] and [100]; and the zero of that
sign for [n = 0]. *)
Definition hundredths (negative : bool) (n : Z) : float :=
  SF2Prim (if n =? 0 then S754_zero negative
           else SFdiv prec emax (S754_finite negative (Z.to_pos n) 0)
                                (S754_finite false 100 0)).


(** ** Sort keys *)

Section SortKeys.
Context {A K : Type} `{Py.Ord K} (key : A → K).

(** [a] may stand before [b] in an ascending list. *)
Definition key_le (a b : A) : Prop := Py.lt (key b) (key a) = false.

(** Equality of keys, decided with [<] alone. *)
Definition key_eqb (k1 k2 : K) : bool := negb (Py.lt k1 k2) && negb (Py.lt k2 k1).
End SortKeys.

(** ** Counting into a [dict]

The loops [d[k] = d.get(k, 0) + 1] of [get_threads_by_context] and
[get_threads_growth]. *)

Section Tally.
Context {K : Type} `{EqDecision K}.
Implicit Types (d : dict K Z) (k : K) (l : list K).

Definition tally_step d k : dict K Z := Py.set d k (Py.get_default d k 0 + 1).

Definition occurrences k l : Z :=
  Analytics.len (List.filter (λ x, bool_decide (x = k)) l).

End Tally.

(** ** Overview *)

(** A message of neither type. *)
Definition other_type (m : Message.t) : bool :=
  negb (Analytics.has_type "incoming" m) && negb (Analytics.has_type "outgoing" m).


(** ** Threads by context *)






(** ** Threads growth *)

(** The rows the loop of [get_threads_growth] appends for the dates [dates],
starting from the running total [c]. *)
Fixpoint running_rows (by_date : dict string Z) (dates : list string) (c : Z)
  : list Analytics.GrowthRow :=
  match dates with
  | [] => []
  | date_str :: dates' =>
      let count := Py.get_default by_date date_str 0 in
      Analytics.mkGrowthRow date_str count (c + count)
        :: running_rows by_date dates' (c + count)
  end.

Definition sum_daily (rows : list Analytics.GrowthRow) : Z :=
  foldr Z.add 0 (map Analytics.daily rows).

Definition thread_date (th : Thread.t) : string :=
  Py.date_isoformat (Thread.created_at th).

(** ** Messages by day *)

Definition message_date (m : Message.t) : string :=
  Py.date_isoformat (Message.created_at m).

(** The number of messages of type [ty] created on the date [d]. *)
Definition count_on (ty d : string) (messages : list Message.t) : Z :=
  Analytics.len
    (List.filter (λ m, Analytics.has_type ty m && bool_decide (message_date m = d))
                 messages).

(** The row of the date [k] after the loop of [get_messages_by_day] has run
over [messages] from the table [by_date]. *)
Definition row_after (by_date : dict string Analytics.DayRow)
    (messages : list Message.t) (k : string) : option Analytics.DayRow :=
  match Py.get by_date k with
  | Some row =>
      Some (Analytics.mkDayRow (Analytics.day_date row)
              (Analytics.day_incoming row + count_on "incoming" k messages)
              (Analytics.day_outgoing row + count_on "outgoing" k messages))
  | None =>
      if decide (k ∈ map message_date messages)
      then Some (Analytics.mkDayRow k (count_on "incoming" k messages)
                                    (count_on "outgoing" k messages))
      else None
  end.

(** The number of messages the rows account for. *)
Definition rows_total (rows : list Analytics.DayRow) : Z :=
  foldr (λ row acc, Analytics.day_incoming row + Analytics.day_outgoing row + acc) 0 rows.

(** ** The transcript of a thread *)

Definition history_header : string := "История переписки:".

(** The message with another type, and without a position. *)
Definition with_type (ty : string) (m : Message.t) : Message.t :=
  Message.mk (Message.id m) (Message.thread_id m) ty (Message.subject m)
             (Message.body m) (Message.sender_name m) (Message.sender_position m)
             (Message.generation_time_seconds m) (Message.created_at m).

Definition without_position (m : Message.t) : Message.t :=
  Message.mk (Message.id m) (Message.thread_id m) (Message.message_type m)
             (Message.subject m) (Message.body m) (Message.sender_name m) None
             (Message.generation_time_seconds m) (Message.created_at m).

(** ** The store as a state machine *)

(** A call of one of the operations of the store that change it, with the
clock readings the call makes. *)
Inductive call :=
| CreateContext (now_created now_updated : datetime) (name context_text : string)
    (description : option string)
| UpdateContext (now : datetime) (context_id : Z)
    (name context_text description : option string)
| DeleteContext (context_id : Z)
| CreateThread (now_created now_updated : datetime) (subject : string)
    (company_context_id : option Z) (extra_directives : option (list string))
    (custom_prompt : option string)
| UpdateThreadDirectives (now : datetime) (thread_id : Z)
    (extra_directives : option (list string)) (custom_prompt : option string)
| AddMessage (now_created now_updated : datetime) (thread_id : Z)
    (message_type subject body : string) (sender_name sender_position : option string)
    (generation_time_seconds : option float).

(** The store after the call. *)
Definition exec (st : Storage.InMemoryStorage) (c : call) : Storage.InMemoryStorage :=
  match c with
  | CreateContext n1 n2 name text description =>
      (Storage.create_context st n1 n2 name text description).1
  | UpdateContext now cid name text description =>
      (Storage.update_context st now cid name text description).1
  | DeleteContext cid => (Storage.delete_context st cid).1
  | CreateThread n1 n2 subject cid ds p =>
      (Storage.create_thread st n1 n2 subject cid ds p).1
  | UpdateThreadDirectives now tid ds p =>
      (Storage.update_thread_directives st now tid ds p).1
  | AddMessage n1 n2 tid ty subject body sn sp g =>
      (Storage.add_message st n1 n2 tid ty subject body sn sp g).1
  end.

Definition run (calls : list call) (st : Storage.InMemoryStorage)
  : Storage.InMemoryStorage :=
  fold_left exec calls st.

(** The keys of a table are distinct, every record is stored under its own
id, and every id is below the counter that gives the next id. *)
Definition keyed_below {V : Type} (ident : V → Z) (counter : Z) (d : dict Z V) : Prop :=
  List.NoDup (Py.keys d)
  ∧ Forall (λ kv, kv.1 < counter ∧ ident kv.2 = kv.1) (Py.items d).

Definition store_ok (st : Storage.InMemoryStorage) : Prop :=
  keyed_below Context.id (Storage._context_counter st) (Storage.contexts st)
  ∧ keyed_below Thread.id (Storage._thread_counter st) (Storage.threads st)
  ∧ keyed_below Message.id (Storage._message_counter st) (Storage.messages st).

(** No counter of [st] is above the same counter of [st']. *)
Definition counters_le (st st' : Storage.InMemoryStorage) : Prop :=
  Storage._context_counter st ≤ Storage._context_counter st'
  ∧ Storage._thread_counter st ≤ Storage._thread_counter st'
  ∧ Storage._message_counter st ≤ Storage._message_counter st'.

(** * Stores and caches of the examples *)

(** A store that holds one message of type [draft], created on the eighth day. *)
Definition draft_store : Storage.InMemoryStorage :=
  (Storage.add_message Storage.empty (7 * Py.US_PER_DAY) (7 * Py.US_PER_DAY)
     1 "draft" "s" "b" None None None).1.

(** The three messages of the scenario, stored on the eighth day. *)
Definition scenario_store : Storage.InMemoryStorage :=
  let t := 7 * Py.US_PER_DAY in
  let st := Storage.empty in
  let st := (Storage.add_message st t t 1 "incoming" "s" "b" None None None).1 in
  let st := (Storage.add_message st (t + 1) (t + 1) 1 "outgoing" "s" "b" None None
               (Some 2%float)).1 in
  (Storage.add_message st (t + 2) (t + 2) 1 "outgoing" "s" "b" None None
     (Some 4%float)).1.


(** A store with one thread whose context was deleted after the thread was
created, all on the eighth day. *)
Definition deleted_context_store : Storage.InMemoryStorage :=
  let t := 7 * Py.US_PER_DAY in
  let st := (Storage.create_context Storage.empty t t "IT" "text" None).1 in
  let st := (Storage.create_thread st t t "subject" (Some 1) None None).1 in
  (Storage.delete_context st 1).1.


(** Noon of 2024-01-04. *)
Definition growth_scenario_now : Z := 738888 * Py.US_PER_DAY + 12 * Py.US_PER_HOUR.

(** Three threads, created three, two and one day before
[growth_scenario_now], as in the scenario of the specification. *)
Definition growth_scenario_store : Storage.InMemoryStorage :=
  let t := growth_scenario_now in
  let st := Storage.empty in
  let st := (Storage.create_thread st (t - 3 * Py.US_PER_DAY) (t - 3 * Py.US_PER_DAY)
               "a" None None None).1 in
  let st := (Storage.create_thread st (t - 2 * Py.US_PER_DAY) (t - 2 * Py.US_PER_DAY)
               "b" None None None).1 in
  (Storage.create_thread st (t - 1 * Py.US_PER_DAY) (t - 1 * Py.US_PER_DAY)
     "c" None None None).1.

(** Two threads without messages, created on the eighth day. *)
Definition two_threads_store : Storage.InMemoryStorage :=
  let t := 7 * Py.US_PER_DAY in
  let st := (Storage.create_thread Storage.empty t t "a" None None None).1 in
  (Storage.create_thread st t t "b" None None None).1.

(** Three threads on the eighth day with 1, 2 and 2 messages. *)
Definition three_threads_store : Storage.InMemoryStorage :=
  let t := 7 * Py.US_PER_DAY in
  let st := (Storage.create_thread Storage.empty t t "a" None None None).1 in
  let st := (Storage.create_thread st t t "b" None None None).1 in
  let st := (Storage.create_thread st t t "c" None None None).1 in
  let st := (Storage.add_message st t t 1 "incoming" "s" "b" None None None).1 in
  let st := (Storage.add_message st t t 3 "incoming" "s" "b" None None None).1 in
  let st := (Storage.add_message st t t 2 "incoming" "s" "b" None None None).1 in
  let st := (Storage.add_message st t t 3 "outgoing" "s" "b" None None None).1 in
  (Storage.add_message st t t 2 "outgoing" "s" "b" None None None).1.

(** Stand-ins for [json.dumps] and the digest on arguments that are
strings, for the examples. *)
Definition example_json_dumps (args : list string) : option string :=
  let quote := String (ascii_of_N 34) EmptyString in
  Some ("[" ++ String.concat ", " (map (λ a, quote ++ a ++ quote)%string args) ++ "]")%string.

Definition example_digest (data : string) : string := data.

Definition enabled_cache : Cache.CacheService string := Cache.mk true ∅ 24 12.

(** * Properties *)

(** ** Facts about the Python built-ins *)

Section SortedFacts.
Context {A K : Type} `{Py.Ord K} (key : A → K).

Lemma key_eqb_eq (k1 k2 : K) : key_eqb k1 k2 = true ↔ k1 = k2.
Proof.
  unfold key_eqb. split.
  - intros [H1 H2]%andb_true_iff.
    apply negb_true_iff in H1, H2. by apply Py.lt_total.
  - intros ->. by rewrite Py.lt_irrefl.
Qed.

Lemma key_le_trans (a b c : A) : key_le key a b → key_le key b c → key_le key a c.
Proof.
  unfold key_le. intros Hab Hbc.
  destruct (Py.lt (key c) (key a)) eqn:Hca; [|done].
  destruct (Py.lt (key a) (key b)) eqn:Hlt.
  - by rewrite (Py.lt_trans _ _ _ Hca Hlt) in Hbc.
  - rewrite <- (Py.lt_total _ _ Hlt Hab) in Hbc. congruence.
Qed.

Lemma insort_perm (x : A) (l : list A) : Permutation (Py.insort key x l) (x :: l).
Proof.
  induction l as [|y l IH]; simpl; [done|].
  destruct (Py.lt (key y) (key x)); [|done].
  rewrite IH. apply perm_swap.
Qed.

Lemma list_sort_perm (l : list A) : Permutation (Py.list_sort key l) l.
Proof.
  induction l as [|x l IH]; simpl; [done|].
  rewrite insort_perm. by constructor.
Qed.

Lemma sorted_perm (reverse : bool) (l : list A) :
  Permutation (Py.sorted key reverse l) l.
Proof.
  destruct reverse; simpl; [|apply list_sort_perm].
  rewrite <- Permutation_rev, list_sort_perm. symmetry. apply Permutation_rev.
Qed.

Lemma insort_sorted (x : A) (l : list A) :
  StronglySorted (key_le key) l → StronglySorted (key_le key) (Py.insort key x l).
Proof.
  induction 1 as [|y l Hl IH Hy]; simpl.
  - repeat constructor.
  - destruct (Py.lt (key y) (key x)) eqn:Hyx.
    + constructor; [done|].
      rewrite insort_perm. constructor; [|done].
      unfold key_le. destruct (Py.lt (key x) (key y)) eqn:Hxy; [|done].
      pose proof (Py.lt_trans _ _ _ Hxy Hyx) as Hxx.
      by rewrite Py.lt_irrefl in Hxx.
    + constructor; [by constructor|].
      constructor; [done|].
      eapply Forall_impl; [exact Hy|].
      intros z Hz. by apply key_le_trans with y.
Qed.

Lemma list_sort_sorted (l : list A) : StronglySorted (key_le key) (Py.list_sort key l).
Proof.
  induction l as [|x l IH]; simpl; [constructor|by apply insort_sorted].
Qed.

Lemma StronglySorted_snoc (R : A → A → Prop) (l : list A) (x : A) :
  StronglySorted R l → Forall (λ y, R y x) l → StronglySorted R (l ++ [x]).
Proof.
  induction 1 as [|y l Hl IH Hy]; simpl; intros Hx.
  - repeat constructor.
  - inversion_clear Hx as [|? ? Hyx Hlx]. constructor; [by apply IH|].
    apply Forall_app. split; [done|by constructor].
Qed.

Lemma StronglySorted_rev (R : A → A → Prop) (l : list A) :
  StronglySorted R l → StronglySorted (flip R) (rev l).
Proof.
  induction 1 as [|x l Hl IH Hx]; simpl; [constructor|].
  apply StronglySorted_snoc; [done|].
  apply List.Forall_forall. intros y Hy%in_rev.
  rewrite List.Forall_forall in Hx. by apply Hx.
Qed.

(** With [reverse=True] the keys descend. *)
Lemma sorted_reverse_sorted (l : list A) :
  StronglySorted (flip (key_le key)) (Py.sorted key true l).
Proof. apply StronglySorted_rev, list_sort_sorted. Qed.

(** Stability: the elements of one key keep their relative order. *)
Lemma insort_stable (k : K) (x : A) (l : list A) :
  List.filter (λ a, key_eqb (key a) k) (Py.insort key x l)
  = List.filter (λ a, key_eqb (key a) k) (x :: l).
Proof.
  induction l as [|y l IH]; [done|].
  cbn [Py.insort]. destruct (Py.lt (key y) (key x)) eqn:Hyx; [|done].
  cbn [List.filter] in *. rewrite IH.
  destruct (key_eqb (key x) k) eqn:Hx; [|done].
  destruct (key_eqb (key y) k) eqn:Hy; [|done].
  apply key_eqb_eq in Hx, Hy. rewrite Hx, Hy, Py.lt_irrefl in Hyx. done.
Qed.

Lemma list_sort_stable (k : K) (l : list A) :
  List.filter (λ a, key_eqb (key a) k) (Py.list_sort key l)
  = List.filter (λ a, key_eqb (key a) k) l.
Proof.
  induction l as [|x l IH]; [done|].
  cbn [Py.list_sort foldr]. fold (Py.list_sort key l).
  rewrite insort_stable. cbn [List.filter]. by rewrite IH.
Qed.

End SortedFacts.

Section SortedStable.
Context {A K : Type} `{Py.Ord K} (key : A → K).

Lemma filter_rev' (f : A → bool) (l : list A) :
  List.filter f (rev l) = rev (List.filter f l).
Proof.
  induction l as [|x l IH]; [done|].
  simpl. rewrite List.filter_app, IH. simpl.
  destruct (f x); simpl; [done|by rewrite app_nil_r].
Qed.

Lemma sorted_stable (reverse : bool) (k : K) (l : list A) :
  List.filter (λ a, key_eqb (key a) k) (Py.sorted key reverse l)
  = List.filter (λ a, key_eqb (key a) k) l.
Proof.
  destruct reverse; simpl; [|apply list_sort_stable].
  by rewrite filter_rev', list_sort_stable, filter_rev', rev_involutive.
Qed.
End SortedStable.

Section DictFacts.
Context {K V : Type} `{EqDecision K}.
Implicit Types (d : dict K V) (k : K) (v : V).

Lemma get_set_eq d k v : Py.get (Py.set d k v) k = Some v.
Proof.
  induction d as [|[k' v'] d IH]; simpl.
  - by rewrite decide_True.
  - destruct (decide (k' = k)) as [->|Hne]; simpl.
    + by rewrite decide_True.
    + by rewrite decide_False.
Qed.

Lemma get_set_ne d k k' v : k ≠ k' → Py.get (Py.set d k v) k' = Py.get d k'.
Proof.
  intros Hne. induction d as [|[k0 v0] d IH]; simpl.
  - by rewrite decide_False.
  - destruct (decide (k0 = k)) as [->|Hne0]; simpl.
    + by rewrite !decide_False.
    + by rewrite IH.
Qed.

Lemma keys_set_present d k v :
  is_Some (Py.get d k) → Py.keys (Py.set d k v) = Py.keys d.
Proof.
  unfold Py.keys. induction d as [|[k0 v0] d IH]; simpl.
  - by intros [? ?].
  - destruct (decide (k0 = k)) as [->|Hne]; simpl; [done|].
    intros Hk. f_equal. by apply IH.
Qed.

Lemma keys_set_absent d k v :
  Py.get d k = None → Py.keys (Py.set d k v) = Py.keys d ++ [k].
Proof.
  unfold Py.keys. induction d as [|[k0 v0] d IH]; simpl; [done|].
  destruct (decide (k0 = k)) as [->|Hne]; simpl; [done|].
  intros Hk. f_equal. by apply IH.
Qed.

Lemma get_None_keys d k : Py.get d k = None ↔ ¬ In k (Py.keys d).
Proof.
  unfold Py.keys. induction d as [|[k0 v0] d IH]; simpl; [tauto|].
  destruct (decide (k0 = k)) as [->|Hne]; [split; [done|tauto]|].
  rewrite IH. tauto.
Qed.

Lemma get_Some_In d k v : Py.get d k = Some v → In (k, v) d.
Proof.
  induction d as [|[k0 v0] d IH]; simpl; [done|].
  destruct (decide (k0 = k)) as [->|Hne]; [intros [= ->]; by left|].
  intros Hk. right. by apply IH.
Qed.

Lemma keys_set_NoDup d k v :
  List.NoDup (Py.keys d) → List.NoDup (Py.keys (Py.set d k v)).
Proof.
  intros Hnd. destruct (Py.get d k) as [v0|] eqn:Hk.
  - by rewrite keys_set_present.
  - rewrite keys_set_absent by done.
    apply NoDup_ListNoDup, NoDup_app. apply NoDup_ListNoDup in Hnd.
    split; [done|]. split; [|apply NoDup_singleton].
    intros x Hx ->%list_elem_of_singleton.
    apply get_None_keys in Hk. by apply Hk, list_elem_of_In.
Qed.
End DictFacts.

(** ** The record store *)

(** [create_thread] stores its arguments as they are. *)
Lemma create_thread_stores_arguments (st : Storage.InMemoryStorage) (nc nu : datetime)
    (subject : string) (cid : option Z) (ds : option (list string)) (p : option string) :
  let '(st', th) := Storage.create_thread st nc nu subject cid ds p in
  Storage.get_thread st' (Thread.id th) = Some th
  ∧ Thread.extra_directives th = ds
  ∧ Thread.custom_prompt th = p.
Proof. simpl. unfold Storage.get_thread. simpl. by rewrite get_set_eq. Qed.

(** C1, evaluated on the code: creating a thread with the empty list of
    directives and a prompt of three spaces stores the empty list and the
    three spaces, not absent values. *)
Theorem create_thread_does_not_normalize :
  let '(st', th) :=
    Storage.create_thread Storage.empty 0 0 "subject" None (Some []) (Some "   ") in
  Storage.get_thread st' 1 = Some th
  ∧ Thread.extra_directives th = Some []
  ∧ Thread.custom_prompt th = Some "   ".
Proof. by vm_compute. Qed.

Lemma StronglySorted_weaken {A} (R R' : A → A → Prop) (l : list A) :
  (∀ a b, R a b → R' a b) → StronglySorted R l → StronglySorted R' l.
Proof.
  intros HR. induction 1 as [|x l Hl IH Hx]; constructor; [done|].
  eapply Forall_impl; [exact Hx|]. intros y. apply HR.
Qed.

(** ** [str.strip] *)

Lemma string_app_assoc (a b c : string) : ((a ++ b) ++ c = a ++ (b ++ c))%string.
Proof.
  induction a as [|x a IH]; [done|].
  change (String x ((a ++ b) ++ c) = String x (a ++ b ++ c))%string.
  by rewrite IH.
Qed.

Lemma string_app_nil_r (a : string) : (a ++ EmptyString)%string = a.
Proof.
  induction a as [|x a IH]; [done|].
  change (String x (a ++ EmptyString) = String x a)%string. by rewrite IH.
Qed.

Lemma string_app_cons (x : ascii) (a b : string) :
  (String x a ++ b)%string = String x (a ++ b).
Proof. done. Qed.

Lemma string_app_nil_l (b : string) : (EmptyString ++ b)%string = b.
Proof. done. Qed.

Lemma lstrip_unfold (s : string) :
  Py.lstrip s = match skip_space s with Some r => Py.lstrip r | None => s end.
Proof.
  destruct s as [|a [|b [|c s]]]; simpl; try done.
  - by destruct (Py.space (Py.char1 a)).
  - destruct (Py.space (Py.char1 a)); [done|]. by destruct (Py.space (Py.char2 a b)).
  - destruct (Py.space (Py.char1 a)); [done|]. destruct (Py.space (Py.char2 a b)); [done|].
    by destruct (Py.space (Py.char3 a b c)).
Qed.

Lemma skip_space_length (s r : string) :
  skip_space s = Some r → (String.length r < String.length s)%nat.
Proof.
  destruct s as [|a [|b [|c s]]]; simpl; try done.
  - destruct (Py.space (Py.char1 a)); [|done]. intros [= <-]. simpl. lia.
  - destruct (Py.space (Py.char1 a)); [intros [= <-]; simpl; lia|].
    destruct (Py.space (Py.char2 a b)); [|done]. intros [= <-]. simpl. lia.
  - destruct (Py.space (Py.char1 a)); [intros [= <-]; simpl; lia|].
    destruct (Py.space (Py.char2 a b)); [intros [= <-]; simpl; lia|].
    destruct (Py.space (Py.char3 a b c)); [|done]. intros [= <-]. simpl. lia.
Qed.

Lemma byte_range (a : ascii) : 0 ≤ Py.byte a < 256.
Proof.
  unfold Py.byte. pose proof (N_ascii_bounded a). lia.
Qed.

Lemma ascii_of_byte (a : ascii) : ascii_of_N (Z.to_N (Py.byte a)) = a.
Proof. unfold Py.byte. rewrite N2Z.id. apply ascii_N_embedding. Qed.

Lemma byte_of_ascii (n : Z) : 0 ≤ n < 256 → Py.byte (ascii_of_N (Z.to_N n)) = n.
Proof.
  intros Hn. unfold Py.byte. rewrite N_ascii_embedding by lia. lia.
Qed.

Lemma utf8_char1 (a : ascii) (cp : Z) :
  Py.char1 a = Some cp → utf8 cp = String a EmptyString.
Proof.
  unfold Py.char1. destruct (Z.ltb_spec (Py.byte a) 128) as [Hlt|]; [|done].
  intros [= <-]. unfold utf8. destruct (Z.ltb_spec (Py.byte a) 128); [|lia].
  by rewrite ascii_of_byte.
Qed.

Lemma utf8_char2 (a b : ascii) (cp : Z) :
  Py.char2 a b = Some cp → utf8 cp = String a (String b EmptyString).
Proof.
  unfold Py.char2, Py.continuation.
  pose proof (byte_range a). pose proof (byte_range b).
  destruct (Z.leb_spec 194 (Py.byte a)); [|done].
  destruct (Z.ltb_spec (Py.byte a) 224); [|done].
  destruct (Z.leb_spec 128 (Py.byte b)); [|done].
  destruct (Z.ltb_spec (Py.byte b) 192); [|done].
  simpl. intros [= <-]. unfold utf8.
  set (cp := (Py.byte a - 192) * 64 + (Py.byte b - 128)).
  assert (Hq : cp / 64 = Py.byte a - 192) by (unfold cp; Z.div_mod_to_equations; lia).
  assert (Hr : cp mod 64 = Py.byte b - 128) by (unfold cp; Z.div_mod_to_equations; lia).
  destruct (Z.ltb_spec cp 128); [unfold cp in *; lia|].
  destruct (Z.ltb_spec cp 2048); [|unfold cp in *; lia].
  rewrite Hq, Hr.
  replace (192 + (Py.byte a - 192)) with (Py.byte a) by lia.
  replace (128 + (Py.byte b - 128)) with (Py.byte b) by lia.
  by rewrite !ascii_of_byte.
Qed.

Lemma utf8_char3 (a b c : ascii) (cp : Z) :
  Py.char3 a b c = Some cp → utf8 cp = String a (String b (String c EmptyString)).
Proof.
  unfold Py.char3, Py.continuation.
  pose proof (byte_range a). pose proof (byte_range b). pose proof (byte_range c).
  set (n := (Py.byte a - 224) * 4096 + (Py.byte b - 128) * 64 + (Py.byte c - 128)).
  destruct (Z.leb_spec 224 (Py.byte a)); [|done].
  destruct (Z.ltb_spec (Py.byte a) 240); [|done].
  destruct (Z.leb_spec 128 (Py.byte b)); [|done].
  destruct (Z.ltb_spec (Py.byte b) 192); [|done].
  destruct (Z.leb_spec 128 (Py.byte c)); [|done].
  destruct (Z.ltb_spec (Py.byte c) 192); [|done].
  destruct (Z.leb_spec 2048 n); [|done].
  simpl. intros [= <-]. unfold utf8.
  assert (Hq : n / 4096 = Py.byte a - 224) by (unfold n; Z.div_mod_to_equations; lia).
  assert (Hm : n / 64 mod 64 = Py.byte b - 128) by (unfold n; Z.div_mod_to_equations; lia).
  assert (Hr : n mod 64 = Py.byte c - 128) by (unfold n; Z.div_mod_to_equations; lia).
  destruct (Z.ltb_spec n 128); [lia|].
  destruct (Z.ltb_spec n 2048); [lia|].
  destruct (Z.ltb_spec n 65536); [|unfold n in *; lia].
  rewrite Hq, Hm, Hr.
  replace (224 + (Py.byte a - 224)) with (Py.byte a) by lia.
  replace (128 + (Py.byte b - 128)) with (Py.byte b) by lia.
  replace (128 + (Py.byte c - 128)) with (Py.byte c) by lia.
  by rewrite !ascii_of_byte.
Qed.

Lemma space_Some (char : option Z) :
  Py.space char = true → ∃ cp, char = Some cp ∧ Py.isspace cp = true.
Proof. destruct char as [cp|]; [|done]. intros Hcp. by exists cp. Qed.

(** What [skip_space] drops is the encoding of a whitespace character. *)
Lemma skip_space_Some (s r : string) :
  skip_space s = Some r → ∃ cp, Py.isspace cp = true ∧ s = (utf8 cp ++ r)%string.
Proof.
  destruct s as [|a s1]; [done|]. simpl.
  destruct (Py.space (Py.char1 a)) eqn:H1.
  { intros [= <-]. apply space_Some in H1 as (cp & Hc & Hcp).
    exists cp. split; [done|]. by rewrite (utf8_char1 a cp). }
  destruct s1 as [|b s2]; [done|].
  destruct (Py.space (Py.char2 a b)) eqn:H2.
  { intros [= <-]. apply space_Some in H2 as (cp & Hc & Hcp).
    exists cp. split; [done|]. by rewrite (utf8_char2 a b cp). }
  destruct s2 as [|c s3]; [done|].
  destruct (Py.space (Py.char3 a b c)) eqn:H3; [|done].
  intros [= <-]. apply space_Some in H3 as (cp & Hc & Hcp).
  exists cp. split; [done|]. by rewrite (utf8_char3 a b c cp).
Qed.

Lemma isspace_cases (cp : Z) :
  Py.isspace cp = true →
  cp ∈ [9; 10; 11; 12; 13; 28; 29; 30; 31; 32; 133; 160; 5760; 8192; 8193; 8194; 8195;
        8196; 8197; 8198; 8199; 8200; 8201; 8202; 8232; 8233; 8239; 8287; 12288].
Proof.
  unfold Py.isspace. rewrite !orb_true_iff, !andb_true_iff, !Z.leb_le, !Z.eqb_eq.
  intros H. rewrite !elem_of_cons, elem_of_nil. lia.
Qed.

(** [skip_space] drops the encoding of every whitespace character. *)
Lemma skip_space_utf8 (cp : Z) (t : string) :
  Py.isspace cp = true → skip_space (utf8 cp ++ t) = Some t.
Proof.
  intros H%isspace_cases. rewrite !elem_of_cons, elem_of_nil in H.
  repeat (destruct H as [->|H]; [by vm_compute|]). done.
Qed.

Lemma utf8_not_empty (cp : Z) (t : string) : (t ++ utf8 cp)%string ≠ EmptyString.
Proof.
  destruct t; [|done]. unfold utf8.
  by destruct (cp <? 128), (cp <? 2048), (cp <? 65536).
Qed.

Lemma blank_app (a b : string) : blank a → blank b → blank (a ++ b).
Proof.
  induction 1 as [|cp s Hcp Hs IH]; intros Hb; [done|].
  rewrite string_app_assoc. constructor; [done|by apply IH].
Qed.

Lemma lstrip_app_blank (l t : string) : blank l → Py.lstrip (l ++ t) = Py.lstrip t.
Proof.
  induction 1 as [|cp s Hcp Hs IH]; [done|].
  by rewrite string_app_assoc, lstrip_unfold, skip_space_utf8.
Qed.

(** [lstrip] splits a string into whitespace and a rest that does not start
with a whitespace character. *)
Lemma lstrip_spec (s : string) :
  ∃ l, blank l ∧ s = (l ++ Py.lstrip s)%string ∧ skip_space (Py.lstrip s) = None.
Proof.
  remember (String.length s) as n eqn:Hn. revert s Hn.
  induction n as [n IH] using lt_wf_ind. intros s ->.
  rewrite lstrip_unfold. destruct (skip_space s) as [r|] eqn:Hs.
  - destruct (IH _ (skip_space_length _ _ Hs) r eq_refl) as (l & Hl & Hr & Hnone).
    apply skip_space_Some in Hs as (cp & Hcp & ->).
    exists (utf8 cp ++ l)%string. split_and!; [by constructor| |done].
    by rewrite string_app_assoc, <- Hr.
  - exists EmptyString. split_and!; [constructor|done|done].
Qed.

Lemma all_space_blank (s : string) : Py.all_space s = true ↔ blank s.
Proof.
  unfold Py.all_space. split.
  - destruct (lstrip_spec s) as (l & Hl & Hs & _).
    destruct (Py.lstrip s); [|done]. intros _.
    rewrite Hs, string_app_nil_r. done.
  - intros Hb. pose proof (lstrip_app_blank s EmptyString Hb) as H.
    rewrite string_app_nil_r in H. by rewrite H.
Qed.

Lemma rstrip_unfold (a : ascii) (s : string) :
  Py.rstrip (String a s)
  = if Py.all_space (String a s) then EmptyString else String a (Py.rstrip s).
Proof. done. Qed.

(** [rstrip] splits a string into a start that does not end with a
whitespace character and whitespace. *)
Lemma rstrip_spec (s : string) :
  ∃ r, blank r ∧ s = (Py.rstrip s ++ r)%string
       ∧ ∀ cp t, Py.isspace cp = true → Py.rstrip s ≠ (t ++ utf8 cp)%string.
Proof.
  induction s as [|a s (r & Hr & Hs & Hend)].
  - exists EmptyString. split_and!; [constructor|done|].
    intros cp t _ Heq. by apply (utf8_not_empty cp t).
  - rewrite rstrip_unfold. destruct (Py.all_space (String a s)) eqn:Hall.
    + exists (String a s). split_and!; [by apply all_space_blank|done|].
      intros cp t _ Heq. by apply (utf8_not_empty cp t).
    + exists r. split_and!; [done|by rewrite string_app_cons, <- Hs|].
      intros cp [|x t] Hcp Heq.
      * rewrite string_app_nil_l in Heq.
        assert (Py.all_space (String a s) = true); [|congruence].
        apply all_space_blank. rewrite Hs, <- string_app_cons, Heq.
        by constructor.
      * rewrite string_app_cons in Heq. injection Heq as _ Heq.
        by apply (Hend cp t).
Qed.

(** [strip] takes whitespace, and nothing else, from both ends, and what it
leaves has no whitespace character at either end. *)
Lemma strip_spec (s : string) :
  ∃ l r, blank l ∧ blank r ∧ s = (l ++ Py.strip s ++ r)%string ∧ trimmed (Py.strip s).
Proof.
  unfold Py.strip.
  destruct (lstrip_spec s) as (l & Hl & Hs & Hstart).
  destruct (rstrip_spec (Py.lstrip s)) as (r & Hr & Hq & Hend).
  exists l, r. split_and!; [done|done|by rewrite <- Hq|].
  intros cp t Hcp. split; [|by apply Hend].
  intros Heq. rewrite Hq, Heq, string_app_assoc, skip_space_utf8 in Hstart; done.
Qed.

(** [strip] leaves nothing exactly of the strings that are whitespace only. *)
Lemma strip_blank (s : string) : Py.strip s = EmptyString ↔ blank s.
Proof.
  split.
  - intros Hq. destruct (strip_spec s) as (l & r & Hl & Hr & Hs & _).
    rewrite Hq in Hs. rewrite Hs. by apply blank_app.
  - intros Hb. unfold Py.strip.
    apply all_space_blank in Hb. unfold Py.all_space in Hb.
    by destruct (Py.lstrip s).
Qed.

(** Whitespace beyond the ASCII range: a NO-BREAK SPACE alone leaves
nothing, an EM SPACE and a NO-BREAK SPACE around [hi] are dropped, and a
ZERO WIDTH SPACE, which is no whitespace for Python, is kept. *)
Lemma strip_examples :
  Py.strip (utf8 160) = EmptyString
  ∧ Py.strip (utf8 8195 ++ "hi" ++ utf8 160) = "hi"%string
  ∧ Py.strip "  a b  " = "a b"%string
  ∧ Py.strip (" " ++ utf8 8203 ++ " ") = utf8 8203.
Proof. by vm_compute. Qed.

Lemma strip_truthy (s : string) :
  Py.truthy_str s && Py.truthy_str (Py.strip s) = Py.truthy_str (Py.strip s).
Proof. by destruct s. Qed.

(** C9: on an existing thread, [update_thread_directives] returns the updated
    thread and stores it under the same id; an argument that is [None] leaves
    its field as it was, a set field is cleared only by the empty list
    (directives) or by a string that is empty or consists of whitespace
    characters only, so that nothing is left of it after [strip] (prompt),
    and nothing but [extra_directives], [custom_prompt] and [updated_at]
    changes, in this thread or anywhere else in the store. *)
Theorem update_thread_directives_frame (st : Storage.InMemoryStorage) (now : datetime)
    (tid : Z) (ds : option (list string)) (p : option string) (th : Thread.t) :
  Storage.get_thread st tid = Some th →
  ∃ th',
    Storage.update_thread_directives st now tid ds p
    = (Storage.with_threads (Py.set (Storage.threads st) tid th') st, Some th')
    ∧ Thread.extra_directives th'
      = match ds with
        | None => Thread.extra_directives th
        | Some [] => None
        | Some l => Some l
        end
    ∧ Thread.custom_prompt th'
      = match p with
        | None => Thread.custom_prompt th
        | Some s => if decide (Py.strip s = EmptyString) then None else Some (Py.strip s)
        end
    ∧ (is_Some (Thread.extra_directives th) →
       Thread.extra_directives th' = None → ds = Some [])
    ∧ (is_Some (Thread.custom_prompt th) →
       Thread.custom_prompt th' = None →
       ∃ s, p = Some s ∧ Py.strip s = EmptyString ∧ blank s)
    ∧ Thread.updated_at th' = now
    ∧ Thread.id th' = Thread.id th
    ∧ Thread.subject th' = Thread.subject th
    ∧ Thread.company_context_id th' = Thread.company_context_id th
    ∧ Thread.created_at th' = Thread.created_at th
    ∧ (∀ tid', tid' ≠ tid →
         Py.get (Py.set (Storage.threads st) tid th') tid' = Storage.get_thread st tid')
    ∧ Py.keys (Py.set (Storage.threads st) tid th') = Py.keys (Storage.threads st).
Proof.
  intros Hth. unfold Storage.update_thread_directives, Storage.get_thread in *.
  rewrite Hth. eexists. split; [reflexivity|].
  assert (Hds : match ds with
                | Some l => Thread.extra_directives
                              (Thread.set_extra_directives
                                 (if Py.truthy_list l then Some l else None) th)
                | None => Thread.extra_directives th
                end = match ds with
                      | None => Thread.extra_directives th
                      | Some [] => None
                      | Some l => Some l
                      end) by (by destruct ds as [[|]|]).
  assert (Hp : ∀ s, (if Py.truthy_str s && Py.truthy_str (Py.strip s)
                     then Some (Py.strip s) else None)
                    = if decide (Py.strip s = EmptyString) then None else Some (Py.strip s)).
  { intros s. rewrite strip_truthy. destruct (Py.strip s); by simpl. }
  split_and!.
  - destruct ds as [l|], p as [s|]; simpl; try done; by destruct l.
  - destruct ds as [l|], p as [s|]; simpl; by rewrite ?Hp.
  - intros [l0 Hl0]. destruct ds as [l|], p as [s|]; simpl; rewrite ?Hl0; try done;
      by destruct l.
  - intros [s0 Hs0]. destruct ds as [l|], p as [s|]; simpl; rewrite ?Hs0, ?Hp; try done;
      intros Hc; exists s; (split; [done|]);
      (destruct (decide (Py.strip s = EmptyString)) as [He|]; [|done]);
      (split; [done|by apply strip_blank]).
  - by destruct ds, p.
  - by destruct ds, p.
  - by destruct ds, p.
  - by destruct ds, p.
  - by destruct ds, p.
  - intros tid' Hne. apply get_set_ne. congruence.
  - apply keys_set_present. by rewrite Hth.
Qed.

(** The thread with id 1 of a one-thread store keeps its directives and its
prompt when it is updated with no argument, and loses its prompt when it is
updated with a prompt of one NO-BREAK SPACE. *)
Lemma update_thread_directives_frame_witness :
  let st := (Storage.create_thread Storage.empty 0 0 "subject" None
               (Some ["formal"%string]) (Some "urgent"%string)).1 in
  (∃ th', Storage.update_thread_directives st 5 1 None None
          = (Storage.with_threads (Py.set (Storage.threads st) 1 th') st, Some th')
          ∧ Thread.extra_directives th' = Some ["formal"%string]
          ∧ Thread.custom_prompt th' = Some "urgent"%string
          ∧ Thread.updated_at th' = 5)
  ∧ (∃ th', Storage.update_thread_directives st 5 1 None (Some (utf8 160))
            = (Storage.with_threads (Py.set (Storage.threads st) 1 th') st, Some th')
            ∧ Thread.extra_directives th' = Some ["formal"%string]
            ∧ Thread.custom_prompt th' = None).
Proof.
  intros st. split.
  - destruct (update_thread_directives_frame st 5 1 None None
                (Thread.mk 1 "subject" None (Some ["formal"%string])
                           (Some "urgent"%string) 0 0) eq_refl)
      as (th' & Heq & Hd & Hp & _ & _ & Hu & _).
    exists th'. split_and!; done.
  - destruct (update_thread_directives_frame st 5 1 None (Some (utf8 160))
                (Thread.mk 1 "subject" None (Some ["formal"%string])
                           (Some "urgent"%string) 0 0) eq_refl)
      as (th' & Heq & Hd & Hp & _).
    exists th'. split_and!; [done|done|].
    rewrite Hp. by vm_compute.
Defined.

Lemma filter_filter_andb {A} (f g : A → bool) (l : list A) :
  List.filter f (List.filter g l) = List.filter (λ x, f x && g x) l.
Proof.
  induction l as [|x l IH]; [done|].
  simpl. destruct (g x); simpl; rewrite ?andb_true_r, ?andb_false_r, ?IH; done.
Qed.

Lemma filter_none {A} (f : A → bool) (l : list A) :
  (∀ x, In x l → f x = false) → List.filter f l = [].
Proof.
  induction l as [|x l IH]; [done|]. intros Hall.
  simpl. rewrite (Hall x) by (by left). apply IH. intros y Hy. apply Hall. by right.
Qed.

Lemma key_eqb_int (a b : Z) : key_eqb a b = (a =? b).
Proof.
  unfold key_eqb. simpl.
  destruct (Z.eqb_spec a b), (Z.ltb_spec a b), (Z.ltb_spec b a); simpl; lia.
Qed.

(** C8: [add_message] is total; it stores the message it returns under the
    current value of the message counter whether or not the thread exists;
    the thread of the
    message, when it exists, gets [updated_at] set to the second clock
    reading and keeps every other field; every other thread, the set of
    thread ids and the contexts are unchanged. *)
Theorem add_message_accepts_dangling_thread (st : Storage.InMemoryStorage)
    (now_created now_updated : datetime) (tid : Z) (ty subject body : string)
    (sender_name sender_position : option string) (gen : option float) :
  let '(st', msg) :=
    Storage.add_message st now_created now_updated tid ty subject body
                        sender_name sender_position gen in
  msg = Message.mk (Storage._message_counter st) tid ty subject body
                   sender_name sender_position gen now_created
  ∧ Py.get (Storage.messages st') (Message.id msg) = Some msg
  ∧ Storage.get_thread st' tid
    = Thread.set_updated_at now_updated <$> Storage.get_thread st tid
  ∧ (∀ th, Storage.get_thread st tid = Some th →
       ∃ th', Storage.get_thread st' tid = Some th'
              ∧ Thread.updated_at th' = now_updated
              ∧ Thread.id th' = Thread.id th
              ∧ Thread.subject th' = Thread.subject th
              ∧ Thread.company_context_id th' = Thread.company_context_id th
              ∧ Thread.extra_directives th' = Thread.extra_directives th
              ∧ Thread.custom_prompt th' = Thread.custom_prompt th
              ∧ Thread.created_at th' = Thread.created_at th)
  ∧ (Storage.get_thread st tid = None → Storage.threads st' = Storage.threads st)
  ∧ (∀ tid', tid' ≠ tid → Storage.get_thread st' tid' = Storage.get_thread st tid')
  ∧ Py.keys (Storage.threads st') = Py.keys (Storage.threads st)
  ∧ Storage.contexts st' = Storage.contexts st.
Proof.
  unfold Storage.add_message, Storage.get_thread. simpl.
  split_and!; try done.
  - apply get_set_eq.
  - destruct (Py.get (Storage.threads st) tid) as [th|] eqn:Hth; simpl; [|done].
    apply get_set_eq.
  - intros th Hth. rewrite Hth. eexists. split; [apply get_set_eq|done].
  - by intros ->.
  - intros tid' Hne.
    destruct (Py.get (Storage.threads st) tid) as [th|] eqn:Hth; [|done].
    apply get_set_ne. congruence.
  - destruct (Py.get (Storage.threads st) tid) as [th|] eqn:Hth; [|done].
    apply keys_set_present. by rewrite Hth.
Qed.

(** A message for thread 7 in the store that has no thread at all. *)
Example add_message_orphan :
  let '(st', msg) :=
    Storage.add_message Storage.empty 10 11 7 "incoming" "s" "b" None None None in
  Storage.get_thread_messages st' 7 = [msg] ∧ Storage.threads st' = [].
Proof. by vm_compute. Qed.

(** C10: [get_thread_messages] is total; for any id, of an existing thread or
    not, its result holds exactly the stored messages whose [thread_id] is the
    argument (each as often as it is stored), in ascending [created_at]
    order, messages of one [created_at] in the order of the store; it is
    empty when no message has that [thread_id]. *)
Theorem get_thread_messages_exact_and_sorted (st : Storage.InMemoryStorage) (tid : Z) :
  Permutation (Storage.get_thread_messages st tid)
              (List.filter (λ m, Message.thread_id m =? tid)
                           (Py.values (Storage.messages st)))
  ∧ (∀ m, In m (Storage.get_thread_messages st tid)
          ↔ In m (Py.values (Storage.messages st)) ∧ Message.thread_id m = tid)
  ∧ StronglySorted (λ a b, Message.created_at a ≤ Message.created_at b)
                   (Storage.get_thread_messages st tid)
  ∧ (∀ t, List.filter (λ m, Message.created_at m =? t)
                      (Storage.get_thread_messages st tid)
          = List.filter (λ m, (Message.created_at m =? t) && (Message.thread_id m =? tid))
                        (Py.values (Storage.messages st)))
  ∧ ((∀ m, In m (Py.values (Storage.messages st)) → Message.thread_id m ≠ tid) →
     Storage.get_thread_messages st tid = []).
Proof.
  unfold Storage.get_thread_messages.
  set (ms := List.filter _ _).
  assert (Hperm : Permutation (Py.sorted Message.created_at false ms) ms)
    by apply sorted_perm.
  split_and!.
  - done.
  - intros m. split.
    + intros Hin. eapply Permutation_in in Hin; [|exact Hperm].
      apply filter_In in Hin as [? ?%Z.eqb_eq]. done.
    + intros [Hin Htid]. eapply Permutation_in; [symmetry; exact Hperm|].
      apply filter_In. split; [done|]. by apply Z.eqb_eq.
  - eapply StronglySorted_weaken; [|apply (list_sort_sorted Message.created_at)].
    intros a b. unfold key_le. simpl. intros ?%Z.ltb_ge. done.
  - intros t.
    transitivity (List.filter (λ m, key_eqb (Message.created_at m) t)
                              (Py.sorted Message.created_at false ms)).
    { apply filter_ext. intros m. symmetry. apply key_eqb_int. }
    rewrite sorted_stable. unfold ms. rewrite filter_filter_andb.
    apply filter_ext. intros m. by rewrite key_eqb_int.
  - intros Hnone. assert (ms = []) as ->; [|done].
    apply filter_none. intros m Hm. apply Z.eqb_neq. by apply Hnone.
Qed.

(** ** The analytics routes *)

Section Period.
Import Analytics.

(** The window of an analytics route: which [days] Python accepts. *)
Lemma period_Some (now days start_date end_date : Z) :
  period now days = Some (start_date, end_date) ↔
  Py.timedelta_in_range (days * Py.US_PER_DAY) = true
  ∧ Py.datetime_in_range (now - days * Py.US_PER_DAY) = true
  ∧ start_date = now - days * Py.US_PER_DAY ∧ end_date = now.
Proof.
  unfold period, Py.timedelta_of_days, Py.datetime_sub.
  destruct (Py.timedelta_in_range _); simpl; [|by intuition].
  destruct (Py.datetime_in_range _); simpl; [|by intuition].
  split; [by intros [= <- <-]|by intros (_ & _ & -> & ->)].
Qed.

Lemma get_overview_Some (st : Storage.InMemoryStorage) (now days s e : Z) :
  period now days = Some (s, e) →
  get_overview st now days
  = Some (overview_of days (Storage.get_threads_in_period st s e)
                           (Storage.get_messages_in_period st s e)).
Proof. unfold get_overview. by intros ->. Qed.

Lemma len_by_type (messages : list Message.t) :
  len messages
  = len (List.filter (has_type "incoming") messages)
    + len (List.filter (has_type "outgoing") messages)
    + len (List.filter other_type messages).
Proof.
  unfold len. induction messages as [|m l IH]; [done|].
  simpl. unfold other_type, has_type in *.
  destruct (String.eqb_spec (Message.message_type m) "incoming") as [Hi|Hi];
    destruct (String.eqb_spec (Message.message_type m) "outgoing") as [Ho|Ho];
    simpl; try lia.
  congruence.
Qed.
End Period.

(** C7, as stated, fails on a message whose type is neither [incoming] nor
    [outgoing], which [add_message] accepts: the overview of [draft_store]
    counts one message in total, none incoming and none outgoing. *)
Lemma overview_total_counterexample :
  (λ o, (Analytics.total_messages o, Analytics.incoming_messages o,
         Analytics.outgoing_messages o))
    <$> Analytics.get_overview draft_store (8 * Py.US_PER_DAY) 7
  = Some (1, 0, 0)
  ∧ 1 ≠ 0 + 0.
Proof. split; [by vm_compute|lia]. Qed.

(** C7, amended: for every window Python accepts, [get_overview] returns a
    result whose [total_messages] is the number of messages in the period,
    whose [incoming_messages] and [outgoing_messages] count the messages of
    these two types, and [total_messages] is their sum plus the number of
    messages of any other type; it is their sum when every message in the
    period is of one of the two types. *)
Theorem overview_total_messages (st : Storage.InMemoryStorage) (now days s e : Z) :
  Analytics.period now days = Some (s, e) →
  ∃ o, Analytics.get_overview st now days = Some o
    ∧ Analytics.total_messages o
      = Analytics.len (Storage.get_messages_in_period st s e)
    ∧ Analytics.incoming_messages o
      = Analytics.len (List.filter (λ m, String.eqb (Message.message_type m) "incoming")
                                   (Storage.get_messages_in_period st s e))
    ∧ Analytics.outgoing_messages o
      = Analytics.len (List.filter (λ m, String.eqb (Message.message_type m) "outgoing")
                                   (Storage.get_messages_in_period st s e))
    ∧ Analytics.total_messages o
      = Analytics.incoming_messages o + Analytics.outgoing_messages o
        + Analytics.len (List.filter other_type (Storage.get_messages_in_period st s e))
    ∧ ((∀ m, In m (Storage.get_messages_in_period st s e) →
             Message.message_type m = "incoming"%string
             ∨ Message.message_type m = "outgoing"%string) →
       Analytics.total_messages o
       = Analytics.incoming_messages o + Analytics.outgoing_messages o).
Proof.
  intros Hp. eexists. split; [by apply get_overview_Some|].
  simpl. split_and!; try done.
  - apply len_by_type.
  - intros Hall. rewrite (len_by_type (Storage.get_messages_in_period st s e)) at 1.
    rewrite (filter_none other_type); [unfold Analytics.len; simpl; lia|].
    intros m Hm. unfold other_type, Analytics.has_type.
    destruct (Hall m Hm) as [-> | ->]; done.
Qed.

(** A week ending at instant [8 * US_PER_DAY], on the store with one
    incoming and one outgoing message. *)
Lemma overview_total_messages_witness :
  let st1 := (Storage.add_message Storage.empty (7 * Py.US_PER_DAY) (7 * Py.US_PER_DAY)
                1 "incoming" "s" "b" None None None).1 in
  let st2 := (Storage.add_message st1 (7 * Py.US_PER_DAY + 1) (7 * Py.US_PER_DAY + 1)
                1 "outgoing" "s" "b" None None (Some 2%float)).1 in
  ∃ o, Analytics.get_overview st2 (8 * Py.US_PER_DAY) 7 = Some o
       ∧ Analytics.total_messages o = 2
       ∧ Analytics.incoming_messages o = 1
       ∧ Analytics.outgoing_messages o = 1.
Proof.
  destruct (overview_total_messages
              (Storage.add_message
                 (Storage.add_message Storage.empty (7 * Py.US_PER_DAY) (7 * Py.US_PER_DAY)
                    1 "incoming" "s" "b" None None None).1
                 (7 * Py.US_PER_DAY + 1) (7 * Py.US_PER_DAY + 1)
                 1 "outgoing" "s" "b" None None (Some 2%float)).1
              (8 * Py.US_PER_DAY) 7 (1 * Py.US_PER_DAY) (8 * Py.US_PER_DAY) eq_refl)
    as (o & Ho & Ht & Hi & Hout & _).
  exists o. split_and!; [done| | |].
  - rewrite Ht. by vm_compute.
  - rewrite Hi. by vm_compute.
  - rewrite Hout. by vm_compute.
Defined.



(** *** [round(x, 2)] *)





(** For the integers up to 10000 the double of [hundredths] is the quotient
of the primitive division of the integer by 100. *)
Lemma hundredths_quotient (n : Z) :
  0 < n ≤ 10000 → hundredths false n = (Py.float_of_int n / 100)%float.
Proof.
  intros Hn.
  assert (Hall : forallb (λ k, PrimFloat.Leibniz.eqb
                                 (hundredths false (Z.of_nat k))
                                 (Py.float_of_int (Z.of_nat k) / 100)%float)
                         (seq 1 (Z.to_nat 10000)) = true) by (by vm_compute).
  rewrite forallb_forall in Hall.
  specialize (Hall (Z.to_nat n)). rewrite Z2Nat.id in Hall by lia.
  apply FloatAxioms.Leibniz.eqb_spec, Hall, in_seq. lia.
Qed.



(** ** Counting into a [dict] *)

Section TallyFacts.
Context {K : Type} `{EqDecision K}.
Implicit Types (d : dict K Z) (k : K) (l : list K).

Lemma occurrences_nonneg k l : 0 ≤ occurrences k l.
Proof. unfold occurrences, Analytics.len. lia. Qed.

Lemma occurrences_pos k l : In k l → 1 ≤ occurrences k l.
Proof.
  unfold occurrences, Analytics.len. induction l as [|x l IH]; [done|].
  intros [->|Hin]; simpl.
  - rewrite bool_decide_true by done. simpl. lia.
  - destruct (bool_decide (x = k)); simpl; specialize (IH Hin); lia.
Qed.

Lemma occurrences_zero k l : ¬ In k l → occurrences k l = 0.
Proof.
  intros Hnin. unfold occurrences. rewrite filter_none; [done|].
  intros x Hx. apply bool_decide_eq_false. by intros ->.
Qed.

Lemma tally_get d l k :
  Py.get (fold_left tally_step l d) k
  = match Py.get d k with
    | Some n => Some (n + occurrences k l)
    | None => if decide (k ∈ l) then Some (occurrences k l) else None
    end.
Proof.
  revert d. induction l as [|x l IH]; intros d.
  - simpl. unfold occurrences, Analytics.len. simpl.
    destruct (Py.get d k) as [n|]; [f_equal; lia|].
    destruct (decide (k ∈ [])) as [Hin|]; [by apply not_elem_of_nil in Hin|done].
  - cbn [fold_left]. rewrite IH. unfold tally_step at 1, Py.get_default.
    assert (Hocc : occurrences k (x :: l)
                   = (if bool_decide (x = k) then 1 else 0) + occurrences k l).
    { unfold occurrences, Analytics.len. simpl.
      destruct (bool_decide (x = k)); simpl; lia. }
    destruct (decide (x = k)) as [->|Hne].
    + rewrite get_set_eq, Hocc, bool_decide_true by done.
      destruct (Py.get d k) as [n|]; simpl; [f_equal; lia|].
      rewrite decide_True by apply list_elem_of_here. f_equal.
    + rewrite get_set_ne, Hocc, bool_decide_false by done.
      destruct (Py.get d k) as [n|]; [done|].
      destruct (decide (k ∈ l)) as [Hin|Hnin].
      * rewrite decide_True by (by apply list_elem_of_further). done.
      * rewrite decide_False; [done|].
        intros [?|?]%elem_of_cons; done.
Qed.

Lemma tally_keys_NoDup d l :
  List.NoDup (Py.keys d) → List.NoDup (Py.keys (fold_left tally_step l d)).
Proof.
  revert d. induction l as [|x l IH]; intros d Hd; [done|].
  cbn [fold_left]. apply IH. by apply keys_set_NoDup.
Qed.



Lemma In_keys_get d k : In k (Py.keys d) ↔ is_Some (Py.get d k).
Proof.
  destruct (Py.get d k) as [v|] eqn:Hk.
  - split; [by eauto|]. intros _.
    apply get_Some_In in Hk. unfold Py.keys.
    apply list_elem_of_In, list_elem_of_fmap. exists (k, v).
    split; [done|]. by apply list_elem_of_In.
  - split; [|by intros [? ?]]. intros Hin. by apply get_None_keys in Hk.
Qed.

(** The table of a count from the empty table. *)
Lemma tally_spec l k :
  Py.get (fold_left tally_step l []) k
  = if decide (k ∈ l) then Some (occurrences k l) else None.
Proof. by rewrite tally_get. Qed.

Lemma tally_keys l k : In k (Py.keys (fold_left tally_step l [])) ↔ In k l.
Proof.
  rewrite In_keys_get, tally_spec, <- list_elem_of_In.
  destruct (decide (k ∈ l)); split; try done; try (by eauto); by intros [? ?].
Qed.
End TallyFacts.

Lemma NoDup_keys_In_get {K V : Type} `{EqDecision K} (d : dict K V) (k : K) (v : V) :
  List.NoDup (Py.keys d) → In (k, v) d → Py.get d k = Some v.
Proof.
  unfold Py.keys. induction d as [|[k0 v0] d IH]; simpl; [done|].
  intros Hnd [[= -> ->]|Hin]; [by rewrite decide_True|].
  inversion_clear Hnd as [|? ? Hk0 Hd].
  destruct (decide (k0 = k)) as [->|Hne]; [|by apply IH].
  exfalso. apply Hk0. apply list_elem_of_In, list_elem_of_fmap.
  exists (k, v). split; [done|by apply list_elem_of_In].
Qed.

(** ** Threads by context *)










(** ** Threads growth *)

Lemma growth_loop_spec (by_date : dict string Z) (dates : list string) (c : Z)
    (data : list Analytics.GrowthRow) :
  (∀ k, In k dates → is_Some (Py.get by_date k)) →
  Analytics.growth_loop by_date dates c data
  = Some (data ++ running_rows by_date dates c).
Proof.
  revert c data. induction dates as [|k ks IH]; intros c data Hks; simpl.
  - by rewrite app_nil_r.
  - destruct (Hks k) as [n Hn]; [by left|].
    rewrite Hn. simpl. rewrite IH by (intros k' Hk'; apply Hks; by right).
    unfold Py.get_default. rewrite Hn. simpl. by rewrite <- app_assoc.
Qed.

Lemma running_rows_dates (by_date : dict string Z) (dates : list string) (c : Z) :
  map Analytics.date (running_rows by_date dates c) = dates.
Proof.
  revert c. induction dates as [|k ks IH]; intros c; simpl; [done|]. by rewrite IH.
Qed.

Lemma running_rows_daily (by_date : dict string Z) (dates : list string) (c : Z)
    (row : Analytics.GrowthRow) :
  In row (running_rows by_date dates c) →
  Analytics.daily row = Py.get_default by_date (Analytics.date row) 0
  ∧ In (Analytics.date row) dates.
Proof.
  revert c. induction dates as [|k ks IH]; intros c; simpl; [done|].
  intros [<-|Hin]; simpl; [by auto|].
  destruct (IH _ Hin). by auto.
Qed.

Lemma running_rows_cumulative (by_date : dict string Z) (dates : list string) (c : Z)
    (i : nat) (row : Analytics.GrowthRow) :
  running_rows by_date dates c !! i = Some row →
  Analytics.cumulative row
  = c + sum_daily (take (S i) (running_rows by_date dates c)).
Proof.
  revert c i. induction dates as [|k ks IH]; intros c i; [done|].
  destruct i as [|i]; simpl.
  - intros [= <-]. unfold sum_daily. simpl. lia.
  - intros Hrow. rewrite (IH _ _ Hrow). unfold sum_daily. simpl. lia.
Qed.

Lemma running_rows_monotone (by_date : dict string Z) (dates : list string) (c : Z) :
  (∀ k, In k dates → 0 ≤ Py.get_default by_date k 0) →
  Forall (λ x, c ≤ x) (map Analytics.cumulative (running_rows by_date dates c))
  ∧ StronglySorted Z.le (map Analytics.cumulative (running_rows by_date dates c)).
Proof.
  revert c. induction dates as [|k ks IH]; intros c Hnn; simpl.
  - split; constructor.
  - assert (0 ≤ Py.get_default by_date k 0) as Hk by (apply Hnn; by left).
    destruct (IH (c + Py.get_default by_date k 0)) as [Hall Hs].
    { intros k' Hk'. apply Hnn. by right. }
    split.
    + constructor; [lia|]. eapply Forall_impl; [exact Hall|].
      intros x Hx. simpl in Hx. lia.
    + by constructor.
Qed.

(** A sorted list of distinct strings is strictly ascending. *)
Lemma sorted_keys_strict (l : list string) :
  List.NoDup l →
  StronglySorted (λ a b, String.ltb a b = true) (Py.sorted id false l).
Proof.
  intros Hnd.
  assert (Hnd' : List.NoDup (Py.sorted id false l)).
  { apply NoDup_ListNoDup. rewrite (sorted_perm id false l). by apply NoDup_ListNoDup. }
  pose proof (list_sort_sorted id l) as Hs.
  change (Py.list_sort id l) with (Py.sorted id false l) in Hs.
  induction Hs as [|x l' Hl' IH Hx]; constructor.
  - apply IH. by inversion Hnd'.
  - inversion_clear Hnd' as [|? ? Hnx _].
    rewrite List.Forall_forall in Hx |- *. intros y Hy.
    specialize (Hx y Hy). unfold key_le in Hx. simpl in Hx.
    destruct (String.ltb x y) eqn:Hxy; [done|].
    exfalso. apply Hnx. by rewrite (@Py.lt_total string Py.Ord_str x y Hxy Hx).
Qed.

Lemma count_by_date_tally (threads : list Thread.t) :
  Analytics.count_by_date threads = fold_left tally_step (map thread_date threads) [].
Proof.
  unfold Analytics.count_by_date. generalize (@nil (string * Z)).
  induction threads as [|th ths IH]; intros d; [done|]. simpl. by rewrite IH.
Qed.

Lemma occurrences_map {A} (f : A → string) (k : string) (l : list A) :
  occurrences k (map f l) = Analytics.len (List.filter (λ x, bool_decide (f x = k)) l).
Proof.
  unfold occurrences, Analytics.len. f_equal.
  induction l as [|x l IH]; [done|]. simpl.
  destruct (bool_decide (f x = k)); simpl; by rewrite IH.
Qed.

Lemma growth_of_spec (threads : list Thread.t) :
  Analytics.growth_of threads
  = Some (running_rows (Analytics.count_by_date threads)
            (Py.sorted id false (Py.keys (Analytics.count_by_date threads))) 0).
Proof.
  unfold Analytics.growth_of. rewrite growth_loop_spec; [done|].
  intros k Hk. apply In_keys_get.
  eapply Permutation_in; [apply (sorted_perm id false)|exact Hk].
Qed.

(** C5: for every window Python accepts, the rows of [get_threads_growth]
have strictly ascending date strings; a date has a row exactly when some
thread of the period was created on it, and [daily] of the row is the number
of these threads, at least 1; [cumulative] of a row is the sum of [daily]
over the rows up to and including it, and does not decrease along the
rows. *)
Theorem threads_growth_cumulative (st : Storage.InMemoryStorage) (now days s e : Z) :
  Analytics.period now days = Some (s, e) →
  ∃ r, Analytics.get_threads_growth st now days = Some r
    ∧ StronglySorted (λ a b, String.ltb a b = true)
                     (map Analytics.date (Analytics.g_data r))
    ∧ (∀ d, In d (map Analytics.date (Analytics.g_data r)) ↔
            ∃ th, In th (Storage.get_threads_in_period st s e) ∧ thread_date th = d)
    ∧ (∀ row, In row (Analytics.g_data r) →
              Analytics.daily row
              = Analytics.len
                  (List.filter (λ th, bool_decide (thread_date th = Analytics.date row))
                               (Storage.get_threads_in_period st s e))
              ∧ 1 ≤ Analytics.daily row)
    ∧ (∀ i row, Analytics.g_data r !! i = Some row →
                Analytics.cumulative row
                = sum_daily (take (S i) (Analytics.g_data r)))
    ∧ StronglySorted Z.le (map Analytics.cumulative (Analytics.g_data r)).
Proof.
  intros Hp. unfold Analytics.get_threads_growth. rewrite Hp. simpl.
  set (ths := Storage.get_threads_in_period st s e).
  rewrite growth_of_spec. simpl. eexists. split; [reflexivity|]. simpl.
  rewrite count_by_date_tally.
  set (d := fold_left tally_step (map thread_date ths) []).
  set (ks := Py.sorted id false (Py.keys d)).
  assert (Hnd : List.NoDup (Py.keys d)) by (apply tally_keys_NoDup; constructor).
  assert (Hks : ∀ k, In k ks ↔ In k (map thread_date ths)).
  { intros k. unfold ks. rewrite <- (tally_keys (map thread_date ths) k). fold d.
    split; apply Permutation_in; [|symmetry]; apply (sorted_perm id false). }
  assert (Hget : ∀ k, In k ks →
            Py.get_default d k 0 = occurrences k (map thread_date ths)
            ∧ 1 ≤ occurrences k (map thread_date ths)).
  { intros k Hk%Hks. unfold Py.get_default, d. rewrite tally_spec.
    rewrite decide_True by (by apply list_elem_of_In).
    split; [done|by apply occurrences_pos]. }
  split_and!.
  - rewrite running_rows_dates. by apply sorted_keys_strict.
  - intros k. rewrite running_rows_dates. fold ks.
    etransitivity; [apply Hks|]. rewrite in_map_iff.
    split; [intros (th & Hd & Hin)|intros (th & Hin & Hd)]; by exists th.
  - intros row Hrow. apply running_rows_daily in Hrow as [-> Hin].
    destruct (Hget _ Hin) as [-> Hpos]. by rewrite <- occurrences_map.
  - intros i row Hrow. rewrite (running_rows_cumulative _ _ _ _ _ Hrow). lia.
  - apply running_rows_monotone. intros k Hk. destruct (Hget k Hk). lia.
Qed.

(** The scenario: three rows, one thread a day, running totals 1, 2, 3. *)
Lemma threads_growth_cumulative_witness :
  ∃ r, Analytics.get_threads_growth growth_scenario_store growth_scenario_now 3 = Some r
    ∧ Analytics.g_data r
      = [Analytics.mkGrowthRow "2024-01-01" 1 1;
         Analytics.mkGrowthRow "2024-01-02" 1 2;
         Analytics.mkGrowthRow "2024-01-03" 1 3]
    ∧ StronglySorted Z.le (map Analytics.cumulative (Analytics.g_data r)).
Proof.
  destruct (threads_growth_cumulative growth_scenario_store growth_scenario_now 3
              (growth_scenario_now - 3 * Py.US_PER_DAY) growth_scenario_now eq_refl)
    as (r & Hr & _ & _ & _ & _ & Hmono).
  exists r. split; [done|]. split; [|done].
  vm_compute in Hr. by injection Hr as <-.
Defined.

(** ** Top threads *)

Lemma StronglySorted_take {A} (R : A → A → Prop) (n : nat) (l : list A) :
  StronglySorted R l → StronglySorted R (take n l).
Proof.
  intros Hs. revert n. induction Hs as [|x l Hl IH Hx]; intros [|n]; simpl;
    try constructor; [by apply IH|by apply Forall_take].
Qed.

Lemma filter_take_prefix {A} (f : A → bool) (n : nat) (l : list A) :
  List.filter f (take n l) `prefix_of` List.filter f l.
Proof.
  exists (List.filter f (drop n l)).
  by rewrite <- List.filter_app, take_drop.
Qed.

Lemma slice_to_take {A} (l : list A) (limit : Z) :
  ∃ n, Py.slice_to l limit = take n l.
Proof. unfold Py.slice_to. destruct (0 <=? limit); eauto. Qed.

Lemma slice_to_length {A} (l : list A) (limit : Z) :
  0 ≤ limit → Analytics.len (Py.slice_to l limit) ≤ limit.
Proof.
  intros Hl. unfold Py.slice_to, Analytics.len.
  apply Z.leb_le in Hl as Hl'. rewrite Hl', length_take. lia.
Qed.

Lemma slice_to_negative {A} (l : list A) (limit : Z) :
  limit < 0 →
  Py.slice_to l limit = take (length l - Z.to_nat (- limit)) l.
Proof.
  intros Hl. unfold Py.slice_to.
  apply Z.leb_gt in Hl as Hl'. rewrite Hl'. f_equal. lia.
Qed.

Lemma thread_row_message_count (st : Storage.InMemoryStorage) (th : Thread.t) :
  Analytics.message_count (Analytics.thread_row st th)
  = Analytics.len (List.filter (λ m, Message.thread_id m =? Thread.id th)
                               (Py.values (Storage.messages st))).
Proof.
  unfold Analytics.thread_row, Analytics.len. simpl. f_equal.
  apply Permutation_length. unfold Storage.get_thread_messages.
  apply (sorted_perm Message.created_at false).
Qed.

(** C4, as stated, fails for a negative limit, which the route accepts: with
[limit = -1] the slice drops the last row only, and two threads give one
row, more than the limit. *)
Lemma top_threads_counterexample :
  (λ r, Analytics.len (Analytics.tt_data r))
    <$> Analytics.get_top_threads two_threads_store (8 * Py.US_PER_DAY) (-1) 7
  = Some 1
  ∧ ¬ 1 ≤ -1.
Proof. split; [by vm_compute|lia]. Qed.

(** C4, amended: for every window Python accepts and every limit, the rows
are a prefix of the rows of the threads of the period sorted by
[message_count], which is the number of stored messages of the thread; they
are in descending order of [message_count], and the rows of one
[message_count] are an initial part of the rows of that count in the order
the threads were met. Their number is at most the limit when the limit is
not negative; for a negative limit the sorted list is returned without its
last [-limit] rows. *)
Theorem top_threads_sorted_stable (st : Storage.InMemoryStorage)
    (now limit days s e : Z) :
  Analytics.period now days = Some (s, e) →
  ∃ r, Analytics.get_top_threads st now limit days = Some r
    ∧ (0 ≤ limit → Analytics.len (Analytics.tt_data r) ≤ limit)
    ∧ (limit < 0 →
       Analytics.tt_data r
       = take (length (Storage.get_threads_in_period st s e) - Z.to_nat (- limit))
              (Py.sorted Analytics.message_count true
                 (map (Analytics.thread_row st) (Storage.get_threads_in_period st s e))))
    ∧ Analytics.tt_data r
      `prefix_of` Py.sorted Analytics.message_count true
                    (map (Analytics.thread_row st) (Storage.get_threads_in_period st s e))
    ∧ Permutation
        (Py.sorted Analytics.message_count true
           (map (Analytics.thread_row st) (Storage.get_threads_in_period st s e)))
        (map (Analytics.thread_row st) (Storage.get_threads_in_period st s e))
    ∧ StronglySorted (λ a b, Analytics.message_count b ≤ Analytics.message_count a)
                     (Analytics.tt_data r)
    ∧ (∀ k, List.filter (λ row, Analytics.message_count row =? k) (Analytics.tt_data r)
            `prefix_of`
            List.filter (λ row, Analytics.message_count row =? k)
              (map (Analytics.thread_row st) (Storage.get_threads_in_period st s e)))
    ∧ (∀ th, Analytics.message_count (Analytics.thread_row st th)
             = Analytics.len (List.filter (λ m, Message.thread_id m =? Thread.id th)
                                          (Py.values (Storage.messages st)))).
Proof.
  intros Hp. unfold Analytics.get_top_threads. rewrite Hp. simpl.
  eexists. split; [reflexivity|]. simpl. unfold Analytics.top_of.
  set (rows := map (Analytics.thread_row st) (Storage.get_threads_in_period st s e)).
  set (srt := Py.sorted Analytics.message_count true rows).
  destruct (slice_to_take srt limit) as [n Hn].
  assert (Hlen : length srt = length (Storage.get_threads_in_period st s e)).
  { unfold srt. rewrite (Permutation_length (sorted_perm _ true rows)).
    unfold rows. apply length_map. }
  split_and!.
  - apply slice_to_length.
  - intros Hneg. rewrite slice_to_negative by done. by rewrite Hlen.
  - rewrite Hn. apply prefix_take.
  - apply (sorted_perm Analytics.message_count true rows).
  - rewrite Hn. apply StronglySorted_take.
    eapply StronglySorted_weaken; [|apply (sorted_reverse_sorted Analytics.message_count)].
    intros a b. unfold flip, key_le. simpl. intros ?%Z.ltb_ge. done.
  - intros k. rewrite Hn.
    replace (List.filter (λ row, Analytics.message_count row =? k) rows)
      with (List.filter (λ row, Analytics.message_count row =? k) srt).
    { apply filter_take_prefix. }
    transitivity (List.filter (λ row, key_eqb (Analytics.message_count row) k) srt);
      [apply filter_ext; intros row; symmetry; apply key_eqb_int|].
    unfold srt. rewrite (sorted_stable Analytics.message_count true k rows).
    apply filter_ext. intros row. apply key_eqb_int.
  - apply thread_row_message_count.
Qed.

(** With [limit = 2] the two threads with two messages are returned, thread
2 before thread 3, as they were met. *)
Lemma top_threads_sorted_stable_witness :
  ∃ r, Analytics.get_top_threads three_threads_store (8 * Py.US_PER_DAY) 2 7 = Some r
    ∧ map (λ row, (Analytics.id row, Analytics.message_count row)) (Analytics.tt_data r)
      = [(2, 2); (3, 2)]
    ∧ Analytics.len (Analytics.tt_data r) ≤ 2.
Proof.
  destruct (top_threads_sorted_stable three_threads_store (8 * Py.US_PER_DAY) 2 7
              (1 * Py.US_PER_DAY) (8 * Py.US_PER_DAY) eq_refl)
    as (r & Hr & Hlen & _).
  exists r. split; [done|]. split; [|apply Hlen; lia].
  vm_compute in Hr. by injection Hr as <-.
Defined.

(** ** The response cache *)

Section CacheFacts.
Context {Any : Type}.
Variable json_dumps : list Any → option string.
Variable sha256_hexdigest : string → string.

#[local] Abbreviation get := (Cache.get json_dumps sha256_hexdigest).
#[local] Abbreviation set := (Cache.set json_dumps sha256_hexdigest).
#[local] Abbreviation _generate_key := (Cache._generate_key json_dumps sha256_hexdigest).

(** While the cache is disabled, [get] and [set] do nothing. *)
Lemma cache_disabled (self : Cache.CacheService Any) (now : datetime)
    (prefix : string) (value : Any) (ttl_hours : Z) (args : list Any) :
  Cache._enabled self = false →
  get self now prefix args = (self, None)
  ∧ set self now prefix value ttl_hours args = (self, false).
Proof. unfold Cache.get, Cache.set. by intros ->. Qed.

(** When [set] returns [True] it has stored the value under the key of the
arguments, with the expiry [now + ttl_hours]. *)
Lemma cache_set_true (self self' : Cache.CacheService Any) (now : datetime)
    (prefix : string) (value : Any) (ttl_hours : Z) (args : list Any) :
  set self now prefix value ttl_hours args = (self', true) →
  Cache._enabled self = true
  ∧ ∃ key, _generate_key prefix args = Some key
         ∧ Py.timedelta_in_range (ttl_hours * Py.US_PER_HOUR) = true
         ∧ Py.datetime_in_range (now + ttl_hours * Py.US_PER_HOUR) = true
         ∧ self' = Cache.with_cache
                     (<[key := (value, now + ttl_hours * Py.US_PER_HOUR)]>
                        (Cache._cache self)) self.
Proof.
  unfold Cache.set, Py.timedelta_of_hours, Py.datetime_add.
  destruct (Cache._enabled self); simpl; [|done].
  destruct (_generate_key prefix args) as [key|]; simpl; [|done].
  destruct (Py.timedelta_in_range _); simpl; [|done].
  destruct (Py.datetime_in_range _); simpl; [|done].
  intros [= <-]. split; [done|]. by exists key.
Qed.

(** While the cache is enabled, [set] returns [True] exactly when the key
derivation and the computation of the expiry succeed. *)
Lemma cache_set_succeeds (self : Cache.CacheService Any) (now : datetime)
    (prefix : string) (value : Any) (ttl_hours : Z) (args : list Any) :
  Cache._enabled self = true →
  (set self now prefix value ttl_hours args).2 = true ↔
  is_Some (json_dumps args)
  ∧ Py.timedelta_in_range (ttl_hours * Py.US_PER_HOUR) = true
  ∧ Py.datetime_in_range (now + ttl_hours * Py.US_PER_HOUR) = true.
Proof.
  intros He. unfold Cache.set, Cache._generate_key, Py.timedelta_of_hours, Py.datetime_add.
  rewrite He. simpl.
  destruct (json_dumps args) as [data|]; simpl; [|split; [done|by intros [[? ?] _]]].
  destruct (Py.timedelta_in_range _); simpl; [|split; [done|by intros (_ & ? & _)]].
  destruct (Py.datetime_in_range _); simpl; [|split; [done|by intros (_ & _ & ?)]].
  split; [by eauto|done].
Qed.

(** C3, amended: while the cache is disabled, [get] returns nothing and [set]
returns [False], whatever the arguments. While it is enabled, [set] returns
[True] exactly when the key derivation and the computation of the expiry
raise nothing; after a [set] that returned [True], a [get] with the same
prefix and arguments returns the value at any instant before
[now + ttl_hours], and returns nothing, removing the entry, at any instant
from [now + ttl_hours] on. After a [set] that returned [False] the cache is
as it was. *)
Theorem cache_set_then_get (self : Cache.CacheService Any) (now now' : datetime)
    (prefix : string) (value : Any) (ttl_hours : Z) (args : list Any) :
  (Cache._enabled self = false →
   get self now prefix args = (self, None)
   ∧ set self now prefix value ttl_hours args = (self, false))
  ∧ (Cache._enabled self = true →
     ((set self now prefix value ttl_hours args).2 = true ↔
      is_Some (json_dumps args)
      ∧ Py.timedelta_in_range (ttl_hours * Py.US_PER_HOUR) = true
      ∧ Py.datetime_in_range (now + ttl_hours * Py.US_PER_HOUR) = true))
  ∧ ((set self now prefix value ttl_hours args).2 = false →
     (set self now prefix value ttl_hours args).1 = self)
  ∧ (∀ self1,
       set self now prefix value ttl_hours args = (self1, true) →
       (now' < now + ttl_hours * Py.US_PER_HOUR →
        get self1 now' prefix args = (self1, Some value))
       ∧ (now + ttl_hours * Py.US_PER_HOUR ≤ now' →
          ∃ self2 key,
            get self1 now' prefix args = (self2, None)
            ∧ _generate_key prefix args = Some key
            ∧ Cache._cache self2 !! key = None)).
Proof.
  split_and!.
  - by apply cache_disabled.
  - by apply cache_set_succeeds.
  - unfold Cache.set. destruct (Cache._enabled self); simpl; [|done].
    by destruct (_ ≫= _).
  - intros self1 (He & key & Hkey & _ & _ & ->)%cache_set_true.
    unfold Cache.get. simpl. rewrite He, Hkey. simpl.
    rewrite lookup_insert_eq. split.
    + intros Hlt%Z.ltb_lt. by rewrite Hlt.
    + intros Hge%Z.ltb_ge. rewrite Hge. eexists _, key.
      split_and!; [done|done|]. simpl. apply lookup_delete_eq.
Qed.
End CacheFacts.

(** C3, as stated, fails for a TTL whose expiry Python cannot represent:
with [ttl_hours = 10 ** 10] the addition [datetime.now() + timedelta(...)]
raises [OverflowError], [set] catches it and returns [False] without
writing, and the [get] that follows returns nothing although the TTL has
not elapsed. *)
Lemma cache_set_then_get_counterexample :
  Cache._enabled enabled_cache = true
  ∧ Cache.set example_json_dumps example_digest enabled_cache growth_scenario_now
              "analysis" "result" (10 ^ 10) ["subject"%string]
    = (enabled_cache, false)
  ∧ Cache.get example_json_dumps example_digest enabled_cache growth_scenario_now
              "analysis" ["subject"%string]
    = (enabled_cache, None)
  ∧ growth_scenario_now < growth_scenario_now + 10 ^ 10 * Py.US_PER_HOUR.
Proof. split_and!; [done|by vm_compute|by vm_compute|by vm_compute]. Qed.

(** An analysis result cached for 24 hours is returned one hour later and
is gone 24 hours later. *)
Lemma cache_set_then_get_witness :
  let now := growth_scenario_now in
  let self1 :=
    (Cache.set example_json_dumps example_digest enabled_cache now
               "analysis" "result" 24 ["subject"%string]).1 in
  Cache.get example_json_dumps example_digest self1 (now + Py.US_PER_HOUR)
            "analysis" ["subject"%string]
  = (self1, Some "result"%string)
  ∧ (Cache.get example_json_dumps example_digest self1 (now + 24 * Py.US_PER_HOUR)
               "analysis" ["subject"%string]).2
    = None.
Proof.
  intros now self1.
  assert (Hset : Cache.set example_json_dumps example_digest enabled_cache now
                           "analysis" "result" 24 ["subject"%string]
                 = (self1, true)) by reflexivity.
  pose proof (cache_set_then_get example_json_dumps example_digest enabled_cache
                now (now + Py.US_PER_HOUR)
                "analysis" "result" 24 ["subject"%string]) as (_ & _ & _ & Hearly).
  pose proof (cache_set_then_get example_json_dumps example_digest enabled_cache
                now (now + 24 * Py.US_PER_HOUR)
                "analysis" "result" 24 ["subject"%string]) as (_ & _ & _ & Hlate).
  split.
  - apply (Hearly self1 Hset). by vm_compute.
  - destruct (Hlate self1 Hset) as [_ Hl].
    destruct Hl as (self2 & key & Heq & _); [by vm_compute|].
    by rewrite Heq.
Defined.

(** * Further properties of the code *)

(** ** The store: ids *)

Section KeyedBelow.
Context {V : Type} (ident : V → Z).
Implicit Types (d : dict Z V) (k c : Z) (v : V).

Lemma In_items_set d k v kv : In kv (Py.set d k v) → kv = (k, v) ∨ In kv d.
Proof.
  induction d as [|[k0 v0] d IH]; simpl.
  - intros [<-|[]]. by left.
  - destruct (decide (k0 = k)) as [->|Hne]; simpl.
    + intros [<-|Hin]; [by left|by right; right].
    + intros [<-|Hin]; [by right; left|].
      destruct (IH Hin) as [->|?]; [by left|by right; right].
Qed.

Lemma In_items_del d k kv : In kv (Py.del d k) → In kv d.
Proof.
  induction d as [|[k0 v0] d IH]; simpl; [done|].
  destruct (decide (k0 = k)) as [->|Hne]; simpl; [by right|].
  intros [<-|Hin]; [by left|right; by apply IH].
Qed.

Lemma keys_del_NoDup d k : List.NoDup (Py.keys d) → List.NoDup (Py.keys (Py.del d k)).
Proof.
  unfold Py.keys. induction d as [|[k0 v0] d IH]; simpl; [done|].
  intros Hnd. inversion_clear Hnd as [|? ? Hk0 Hd].
  destruct (decide (k0 = k)) as [->|Hne]; simpl; [done|].
  constructor; [|by apply IH].
  intros Hin. apply Hk0. apply in_map_iff in Hin as ([k1 v1] & <- & Hin).
  apply in_map_iff. exists (k1, v1). split; [done|by eapply In_items_del].
Qed.

Lemma keyed_below_fresh d c k : keyed_below ident c d → c ≤ k → Py.get d k = None.
Proof.
  intros [_ Hall] Hle. apply get_None_keys. intros Hin.
  apply in_map_iff in Hin as ([k1 v1] & Hk & Hin). simpl in Hk. subst k1.
  rewrite List.Forall_forall in Hall. specialize (Hall _ Hin). simpl in Hall. lia.
Qed.

Lemma keyed_below_weaken d c c' : keyed_below ident c d → c ≤ c' → keyed_below ident c' d.
Proof.
  intros [Hnd Hall] Hle. split; [done|].
  eapply Forall_impl; [exact Hall|]. intros kv [? ?]. split; [lia|done].
Qed.

Lemma keyed_below_set d c k v :
  keyed_below ident c d → k < c → ident v = k → keyed_below ident c (Py.set d k v).
Proof.
  intros [Hnd Hall] Hk Hid. split; [by apply keys_set_NoDup|].
  apply List.Forall_forall. intros kv [->|Hin]%In_items_set; [done|].
  rewrite List.Forall_forall in Hall. by apply Hall.
Qed.

Lemma keyed_below_del d c k : keyed_below ident c d → keyed_below ident c (Py.del d k).
Proof.
  intros [Hnd Hall]. split; [by apply keys_del_NoDup|].
  apply List.Forall_forall. intros kv Hin%In_items_del.
  rewrite List.Forall_forall in Hall. by apply Hall.
Qed.

Lemma keyed_below_get d c k v : keyed_below ident c d → Py.get d k = Some v → k < c ∧ ident v = k.
Proof.
  intros [_ Hall] Hin%get_Some_In.
  rewrite List.Forall_forall in Hall. by apply (Hall (k, v)).
Qed.

(** A new key goes to the end of the table. *)
Lemma values_set_fresh d k v :
  Py.get d k = None → Py.values (Py.set d k v) = Py.values d ++ [v].
Proof.
  unfold Py.values. induction d as [|[k0 v0] d IH]; simpl; [done|].
  destruct (decide (k0 = k)) as [->|Hne]; simpl; [done|].
  intros Hk. f_equal. by apply IH.
Qed.
End KeyedBelow.

Lemma store_ok_empty : store_ok Storage.empty.
Proof. repeat split; simpl; constructor. Qed.

(** Every operation keeps the tables well keyed and lowers no counter. *)
Lemma exec_ok (st : Storage.InMemoryStorage) (c : call) :
  store_ok st → store_ok (exec st c) ∧ counters_le st (exec st c).
Proof.
  intros (Hc & Ht & Hm). unfold store_ok, counters_le.
  destruct c as [n1 n2 name text description|now cid name text description|cid
                |n1 n2 subject cid ds p|now tid ds p|n1 n2 tid ty subject body sn sp g];
    simpl.
  - split_and!; try done; try lia.
    apply keyed_below_set; [|lia|done]. eapply keyed_below_weaken; [done|lia].
  - unfold Storage.update_context.
    destruct (Py.get (Storage.contexts st) cid) as [context|] eqn:Hget; simpl;
      [|split_and!; try done; lia].
    destruct (keyed_below_get _ _ _ _ _ Hc Hget) as [Hlt Hid].
    split_and!; try done; try lia.
    apply keyed_below_set; [done|done|]. by destruct name, text, description.
  - unfold Storage.delete_context.
    destruct (Py.contains (Storage.contexts st) cid); simpl;
      split_and!; try done; try lia.
    by apply keyed_below_del.
  - split_and!; try done; try lia.
    apply keyed_below_set; [|lia|done]. eapply keyed_below_weaken; [done|lia].
  - unfold Storage.update_thread_directives.
    destruct (Py.get (Storage.threads st) tid) as [thread|] eqn:Hget; simpl;
      [|split_and!; try done; lia].
    destruct (keyed_below_get _ _ _ _ _ Ht Hget) as [Hlt Hid].
    split_and!; try done; try lia.
    apply keyed_below_set; [done|done|]. by destruct ds, p.
  - split_and!; try done; try lia.
    + destruct (Py.get (Storage.threads st) tid) as [thread|] eqn:Hget; [|done].
      destruct (keyed_below_get _ _ _ _ _ Ht Hget) as [Hlt Hid].
      by apply keyed_below_set.
    + apply keyed_below_set; [|lia|done]. eapply keyed_below_weaken; [done|lia].
Qed.

Lemma run_ok (calls : list call) (st : Storage.InMemoryStorage) :
  store_ok st → store_ok (run calls st) ∧ counters_le st (run calls st).
Proof.
  revert st. induction calls as [|c calls IH]; intros st Hok; simpl.
  - split; [done|]. unfold counters_le. lia.
  - destruct (exec_ok st c Hok) as [Hok' Hle].
    destruct (IH _ Hok') as [Hok'' Hle'].
    split; [done|]. unfold counters_le in *. lia.
Qed.

(** X1: in every store reached from the empty store by any sequence of the
operations of [InMemoryStorage], the keys of each table are distinct, every
record is stored under its own id and every id is below the counter of its
table; and no further sequence of operations lowers a counter. An id that
was given once is therefore never given again, also after a deletion. *)
Theorem reachable_store_ids (calls calls' : list call) :
  store_ok (run calls Storage.empty)
  ∧ store_ok (run calls' (run calls Storage.empty))
  ∧ counters_le (run calls Storage.empty) (run calls' (run calls Storage.empty)).
Proof.
  destruct (run_ok calls Storage.empty store_ok_empty) as [Hok _].
  destruct (run_ok calls' _ Hok) as [Hok' Hle]. done.
Qed.

(** ** The store: creating and reading back *)

(** X2: on a well-keyed store, [create_context] gives the context the id of
the counter, which no context had; the context is read back by
[get_context], its text by [get_context_text]; every other id reads as
before, and the context is the last of the listing. *)
Theorem create_context_round_trip (st : Storage.InMemoryStorage) (n1 n2 : datetime)
    (name text : string) (description : option string) :
  store_ok st →
  let '(st', c) := Storage.create_context st n1 n2 name text description in
  Context.id c = Storage._context_counter st
  ∧ Storage.get_context st (Context.id c) = None
  ∧ Storage.get_context st' (Context.id c) = Some c
  ∧ ContextService.get_context_text st' (Context.id c) = Some text
  ∧ (∀ k, k ≠ Context.id c → Storage.get_context st' k = Storage.get_context st k)
  ∧ Py.values (Storage.contexts st') = Py.values (Storage.contexts st) ++ [c].
Proof.
  intros (Hc & _ & _). simpl.
  assert (Hfresh : Py.get (Storage.contexts st) (Storage._context_counter st) = None)
    by (eapply keyed_below_fresh; [exact Hc|lia]).
  unfold ContextService.get_context_text, Storage.get_context. simpl.
  rewrite get_set_eq. split_and!; try done.
  - intros k Hk. by apply get_set_ne.
  - by apply values_set_fresh.
Qed.

Lemma create_context_round_trip_witness :
  let '(st', c) :=
    Storage.create_context deleted_context_store 5 5 "HR" "people" None in
  Context.id c = 2
  ∧ Storage.get_context st' 2 = Some c
  ∧ ContextService.get_context_text st' 2 = Some "people"%string.
Proof.
  pose proof (create_context_round_trip deleted_context_store 5 5 "HR" "people" None)
    as H.
  simpl in H. simpl.
  destruct H as (Hid & _ & Hget & Htext & _).
  - apply (run_ok [CreateContext (7 * Py.US_PER_DAY) (7 * Py.US_PER_DAY) "IT" "text" None;
                   CreateThread (7 * Py.US_PER_DAY) (7 * Py.US_PER_DAY) "subject"
                                (Some 1) None None;
                   DeleteContext 1] Storage.empty store_ok_empty).
  - done.
Defined.

(** X3: on a well-keyed store, [create_thread] gives the thread the id of
the counter, which no thread had; [get_thread] reads the thread back with
the subject, context id and clock readings of the call, every other id
reads as before, and the contexts and messages are untouched. *)
Theorem create_thread_round_trip (st : Storage.InMemoryStorage) (n1 n2 : datetime)
    (subject : string) (cid : option Z) (ds : option (list string)) (p : option string) :
  store_ok st →
  let '(st', th) := Storage.create_thread st n1 n2 subject cid ds p in
  th = Thread.mk (Storage._thread_counter st) subject cid ds p n1 n2
  ∧ Storage.get_thread st (Thread.id th) = None
  ∧ Storage.get_thread st' (Thread.id th) = Some th
  ∧ (∀ k, k ≠ Thread.id th → Storage.get_thread st' k = Storage.get_thread st k)
  ∧ Py.values (Storage.threads st') = Py.values (Storage.threads st) ++ [th]
  ∧ Storage.contexts st' = Storage.contexts st
  ∧ Storage.messages st' = Storage.messages st.
Proof.
  intros (_ & Ht & _). simpl.
  assert (Hfresh : Py.get (Storage.threads st) (Storage._thread_counter st) = None)
    by (eapply keyed_below_fresh; [exact Ht|lia]).
  unfold Storage.get_thread. simpl. rewrite get_set_eq. split_and!; try done.
  - intros k Hk. by apply get_set_ne.
  - by apply values_set_fresh.
Qed.

Lemma create_thread_round_trip_witness :
  let '(st', th) := Storage.create_thread two_threads_store 9 9 "c" None None None in
  Thread.id th = 3 ∧ Storage.get_thread st' 3 = Some th.
Proof.
  pose proof (create_thread_round_trip two_threads_store 9 9 "c" None None None) as H.
  simpl in H. simpl.
  destruct H as (Hth & _ & Hget & _).
  - apply (run_ok [CreateThread (7 * Py.US_PER_DAY) (7 * Py.US_PER_DAY) "a" None None None;
                   CreateThread (7 * Py.US_PER_DAY) (7 * Py.US_PER_DAY) "b" None None None]
                  Storage.empty store_ok_empty).
  - done.
Defined.

(** ** The store: the history of a thread *)

Section SortAppend.
Context {A K : Type} `{Py.Ord K} (key : A → K).

Lemma insort_snoc (y x : A) (l : list A) :
  Py.lt (key x) (key y) = false →
  Py.insort key y (l ++ [x]) = Py.insort key y l ++ [x].
Proof.
  intros Hxy. induction l as [|z l IH]; simpl.
  - by rewrite Hxy.
  - destruct (Py.lt (key z) (key y)); [by rewrite IH|done].
Qed.

(** An element whose key is below no other key is sorted to the end. *)
Lemma list_sort_snoc (x : A) (l : list A) :
  (∀ y, In y l → Py.lt (key x) (key y) = false) →
  Py.list_sort key (l ++ [x]) = Py.list_sort key l ++ [x].
Proof.
  induction l as [|y l IH]; intros Hall; [done|].
  simpl. fold (Py.list_sort key (l ++ [x])) (Py.list_sort key l).
  rewrite IH by (intros z Hz; apply Hall; by right).
  apply insort_snoc. apply Hall. by left.
Qed.
End SortAppend.

(** X4: on a well-keyed store, [add_message] appends the message to the
table and changes no stored message; the history of every other thread is
as before, the history of the thread of the message is the old history with
the message added, and the message is its last entry when no message of the
thread has a later [created_at]. *)
Theorem add_message_history (st : Storage.InMemoryStorage)
    (n1 n2 : datetime) (tid : Z) (ty subject body : string)
    (sn sp : option string) (g : option float) :
  store_ok st →
  let '(st', msg) := Storage.add_message st n1 n2 tid ty subject body sn sp g in
  Py.values (Storage.messages st') = Py.values (Storage.messages st) ++ [msg]
  ∧ (∀ k m, Py.get (Storage.messages st) k = Some m →
            Py.get (Storage.messages st') k = Some m)
  ∧ (∀ tid', tid' ≠ tid →
       Storage.get_thread_messages st' tid' = Storage.get_thread_messages st tid')
  ∧ Permutation (Storage.get_thread_messages st' tid)
                (msg :: Storage.get_thread_messages st tid)
  ∧ ((∀ m, In m (Storage.get_thread_messages st tid) → Message.created_at m ≤ n1) →
     Storage.get_thread_messages st' tid = Storage.get_thread_messages st tid ++ [msg]).
Proof.
  intros (_ & _ & Hm). simpl.
  set (msg := Message.mk _ _ _ _ _ _ _ _ _).
  assert (Hfresh : Py.get (Storage.messages st) (Storage._message_counter st) = None)
    by (eapply keyed_below_fresh; [exact Hm|lia]).
  assert (Hvals : Py.values (Py.set (Storage.messages st) (Storage._message_counter st) msg)
                  = Py.values (Storage.messages st) ++ [msg])
    by (by apply values_set_fresh).
  unfold Storage.get_thread_messages. simpl. rewrite Hvals.
  split_and!.
  - done.
  - intros k m Hk. rewrite get_set_ne; [done|]. intros <-. congruence.
  - intros tid' Hne. rewrite List.filter_app. simpl.
    destruct (Z.eqb_spec tid tid') as [?|_]; [congruence|]. by rewrite app_nil_r.
  - rewrite List.filter_app. simpl. rewrite Z.eqb_refl.
    rewrite (list_sort_perm Message.created_at).
    rewrite <- Permutation_cons_append. constructor.
    symmetry. apply (list_sort_perm Message.created_at).
  - intros Hlast. rewrite List.filter_app. simpl. rewrite Z.eqb_refl.
    apply (list_sort_snoc Message.created_at). intros y Hy. simpl.
    apply Z.ltb_ge. apply Hlast.
    eapply Permutation_in; [symmetry; apply (list_sort_perm Message.created_at)|].
    exact Hy.
Qed.

Lemma add_message_history_witness :
  let '(st', msg) :=
    Storage.add_message scenario_store (8 * Py.US_PER_DAY) (8 * Py.US_PER_DAY)
                        1 "incoming" "s" "again" None None None in
  Storage.get_thread_messages st' 1 = Storage.get_thread_messages scenario_store 1 ++ [msg]
  ∧ Storage.get_thread_messages st' 2 = [].
Proof.
  pose proof (add_message_history scenario_store (8 * Py.US_PER_DAY) (8 * Py.US_PER_DAY)
                1 "incoming" "s" "again" None None None) as H.
  simpl in H. simpl.
  destruct H as (_ & _ & Hother & _ & Hlast).
  - apply (run_ok
             [AddMessage (7 * Py.US_PER_DAY) (7 * Py.US_PER_DAY) 1 "incoming" "s" "b"
                         None None None;
              AddMessage (7 * Py.US_PER_DAY + 1) (7 * Py.US_PER_DAY + 1) 1 "outgoing"
                         "s" "b" None None (Some 2%float);
              AddMessage (7 * Py.US_PER_DAY + 2) (7 * Py.US_PER_DAY + 2) 1 "outgoing"
                         "s" "b" None None (Some 4%float)]
             Storage.empty store_ok_empty).
  - split.
    + apply Hlast. intros m Hm. vm_compute in Hm.
      destruct Hm as [<-|[<-|[<-|[]]]]; by vm_compute.
    + by rewrite (Hother 2).
Defined.

(** ** The store: contexts *)

Lemma get_del_ne {K V : Type} `{EqDecision K} (d : dict K V) (k k' : K) :
  k ≠ k' → Py.get (Py.del d k) k' = Py.get d k'.
Proof.
  intros Hne. induction d as [|[k0 v0] d IH]; simpl; [done|].
  destruct (decide (k0 = k)) as [->|Hne0]; simpl.
  - by rewrite decide_False.
  - by rewrite IH.
Qed.

Lemma get_del_eq {K V : Type} `{EqDecision K} (d : dict K V) (k : K) :
  List.NoDup (Py.keys d) → Py.get (Py.del d k) k = None.
Proof.
  unfold Py.keys. induction d as [|[k0 v0] d IH]; simpl; [done|].
  intros Hnd. inversion_clear Hnd as [|? ? Hk0 Hd].
  destruct (decide (k0 = k)) as [->|Hne]; simpl.
  - by apply get_None_keys.
  - rewrite decide_False by done. by apply IH.
Qed.

Lemma contains_get {K V : Type} `{EqDecision K} (d : dict K V) (k : K) :
  Py.contains d k = match Py.get d k with Some _ => true | None => false end.
Proof.
  unfold Py.contains. destruct (Py.get d k) as [v|].
  - apply bool_decide_eq_true. by eexists.
  - apply bool_decide_eq_false. by intros [? ?].
Qed.

(** X5: [update_context] on an id that is not stored returns nothing and
leaves the store as it is. On a stored context it returns the updated
context and stores it under the same id at the same place of the listing;
each of [name], [context_text] and [description] takes the value passed and
keeps its value when nothing is passed, so a description that is set can be
replaced but never removed; [updated_at] is the clock reading; the id and
[created_at], every other context, the threads and the messages are
unchanged. *)
Theorem update_context_frame (st : Storage.InMemoryStorage) (now : datetime)
    (cid : Z) (name text description : option string) :
  match Storage.get_context st cid with
  | None => Storage.update_context st now cid name text description = (st, None)
  | Some c =>
      ∃ c',
        Storage.update_context st now cid name text description
        = (Storage.with_contexts (Py.set (Storage.contexts st) cid c') st, Some c')
        ∧ Py.get (Py.set (Storage.contexts st) cid c') cid = Some c'
        ∧ Context.name c' = default (Context.name c) name
        ∧ Context.context_text c' = default (Context.context_text c) text
        ∧ Context.description c'
          = match description with
            | Some v => Some v
            | None => Context.description c
            end
        ∧ (is_Some (Context.description c) → is_Some (Context.description c'))
        ∧ Context.updated_at c' = now
        ∧ Context.id c' = Context.id c
        ∧ Context.created_at c' = Context.created_at c
        ∧ (∀ k, k ≠ cid → Py.get (Py.set (Storage.contexts st) cid c') k
                         = Storage.get_context st k)
        ∧ Py.keys (Py.set (Storage.contexts st) cid c') = Py.keys (Storage.contexts st)
  end.
Proof.
  unfold Storage.update_context, Storage.get_context.
  destruct (Py.get (Storage.contexts st) cid) as [c|] eqn:Hget; [|done].
  eexists. split; [reflexivity|].
  split_and!.
  - apply get_set_eq.
  - by destruct name, text, description.
  - by destruct name, text, description.
  - by destruct name, text, description.
  - intros [v Hv]. destruct name, text, description; simpl; by eauto.
  - by destruct name, text, description.
  - by destruct name, text, description.
  - by destruct name, text, description.
  - intros k Hk. by apply get_set_ne.
  - apply keys_set_present. by rewrite Hget.
Qed.

(** X6: [delete_context] returns [False] and changes nothing when the id is
not stored. On a well-keyed store that holds the id it returns [True];
afterwards the id reads as absent and a second deletion returns [False],
every other context reads as before, and the threads and messages are
untouched, so a thread of the deleted context keeps its
[company_context_id]. *)
Theorem delete_context_effect (st : Storage.InMemoryStorage) (cid : Z) :
  store_ok st →
  match Storage.get_context st cid with
  | None => Storage.delete_context st cid = (st, false)
  | Some _ =>
      let st' := (Storage.delete_context st cid).1 in
      (Storage.delete_context st cid).2 = true
      ∧ Storage.get_context st' cid = None
      ∧ Storage.delete_context st' cid = (st', false)
      ∧ (∀ k, k ≠ cid → Storage.get_context st' k = Storage.get_context st k)
      ∧ Storage.threads st' = Storage.threads st
      ∧ Storage.messages st' = Storage.messages st
      ∧ Storage._context_counter st' = Storage._context_counter st
  end.
Proof.
  intros ([Hnd _] & _ & _). unfold Storage.delete_context, Storage.get_context.
  rewrite contains_get.
  destruct (Py.get (Storage.contexts st) cid) as [c|] eqn:Hget; [|done].
  simpl. rewrite contains_get, get_del_eq by done.
  split_and!; try done. intros k Hk. by apply get_del_ne.
Qed.

Lemma delete_context_effect_witness :
  let st := (Storage.create_thread
               (Storage.create_context Storage.empty 1 1 "IT" "text" None).1
               2 2 "subject" (Some 1) None None).1 in
  let st' := (Storage.delete_context st 1).1 in
  (Storage.delete_context st 1).2 = true
  ∧ Storage.get_context st' 1 = None
  ∧ Thread.company_context_id <$> Storage.get_thread st' 1 = Some (Some 1).
Proof.
  pose proof (delete_context_effect
                (Storage.create_thread
                   (Storage.create_context Storage.empty 1 1 "IT" "text" None).1
                   2 2 "subject" (Some 1) None None).1 1) as H.
  simpl in H. simpl.
  destruct H as (Hret & Hget & _).
  - apply (run_ok [CreateContext 1 1 "IT" "text" None;
                   CreateThread 2 2 "subject" (Some 1) None None]
                  Storage.empty store_ok_empty).
  - done.
Defined.

(** ** The store: listings *)

(** A slice with bounds that are not negative is a [take] of a [drop]. *)
Lemma slice_nonneg {A} (l : list A) (skip limit : Z) :
  0 ≤ skip → 0 ≤ limit →
  Py.slice l skip (skip + limit) = take (Z.to_nat limit) (drop (Z.to_nat skip) l).
Proof.
  intros Hs Hl. unfold Py.slice, Py.slice_bound.
  destruct (Z.ltb_spec skip 0) as [?|_]; [lia|].
  destruct (Z.ltb_spec (skip + limit) 0) as [?|_]; [lia|].
  destruct (Z.le_gt_cases skip (Z.of_nat (length l))) as [Hin|Hout].
  - rewrite (Z.min_l skip) by done.
    destruct (Z.le_gt_cases (skip + limit) (Z.of_nat (length l))) as [Hin'|Hout'].
    + rewrite Z.min_l by done. f_equal. lia.
    + rewrite Z.min_r by lia.
      rewrite (take_ge _ (Z.to_nat (Z.of_nat (length l) - skip)))
        by (rewrite length_drop; lia).
      by rewrite (take_ge _ (Z.to_nat limit)) by (rewrite length_drop; lia).
  - rewrite (Z.min_r skip), (Z.min_r (skip + limit)) by lia.
    rewrite Z.sub_diag. simpl.
    rewrite (drop_ge l (Z.to_nat skip)) by lia. by rewrite take_nil.
Qed.

(** X7: for a skip and a limit that are not negative, [get_all_contexts]
returns at most [limit] contexts: those that follow the first [skip]
contexts in the order of creation. It is empty when [skip] reaches the
number of contexts, and consecutive pages join to the page of the joined
range, so pages of any size cover the listing without gap or repetition. *)
Theorem get_all_contexts_pages (st : Storage.InMemoryStorage) (skip limit limit' : Z) :
  0 ≤ skip → 0 ≤ limit → 0 ≤ limit' →
  Storage.get_all_contexts st skip limit
  = take (Z.to_nat limit) (drop (Z.to_nat skip) (Py.values (Storage.contexts st)))
  ∧ Analytics.len (Storage.get_all_contexts st skip limit) ≤ limit
  ∧ (Analytics.len (Py.values (Storage.contexts st)) ≤ skip →
     Storage.get_all_contexts st skip limit = [])
  ∧ Storage.get_all_contexts st skip limit
      ++ Storage.get_all_contexts st (skip + limit) limit'
    = Storage.get_all_contexts st skip (limit + limit')
  ∧ Storage.get_all_contexts st 0 (Analytics.len (Py.values (Storage.contexts st)))
    = Py.values (Storage.contexts st).
Proof.
  intros Hs Hl Hl'. unfold Storage.get_all_contexts, Analytics.len.
  rewrite !slice_nonneg by lia.
  split_and!.
  - done.
  - rewrite length_take. lia.
  - intros Hlen. rewrite drop_ge by lia. apply take_nil.
  - replace (Z.to_nat (skip + limit)) with (Z.to_nat skip + Z.to_nat limit)%nat by lia.
    rewrite <- drop_drop, take_take_drop. f_equal. lia.
  - simpl. rewrite Nat2Z.id. apply take_ge. lia.
Qed.

Lemma get_all_contexts_pages_witness :
  let st := (Storage.create_context
               (Storage.create_context
                  (Storage.create_context Storage.empty 1 1 "A" "a" None).1
                  2 2 "B" "b" None).1
               3 3 "C" "c" None).1 in
  Context.name <$> Storage.get_all_contexts st 1 1 = ["B"%string]
  ∧ Storage.get_all_contexts st 1 1 ++ Storage.get_all_contexts st 2 5
    = Storage.get_all_contexts st 1 6.
Proof.
  intros st.
  destruct (get_all_contexts_pages st 1 1 5) as (Heq & _ & _ & Hjoin & _); try lia.
  split; [by rewrite Heq|exact Hjoin].
Defined.

Lemma StronglySorted_drop {A} (R : A → A → Prop) (n : nat) (l : list A) :
  StronglySorted R l → StronglySorted R (drop n l).
Proof.
  intros Hs. revert n. induction Hs as [|x l Hl IH Hx]; intros [|n]; simpl;
    try (by constructor). apply IH.
Qed.

(** X8: for a skip and a limit that are not negative, [get_all_threads]
returns at most [limit] threads: those that follow the first [skip] threads
of the list of all threads sorted by [updated_at], latest first, threads of
one [updated_at] in the order of the table. *)
Theorem get_all_threads_order (st : Storage.InMemoryStorage) (skip limit : Z) :
  0 ≤ skip → 0 ≤ limit →
  Storage.get_all_threads st skip limit
  = take (Z.to_nat limit)
         (drop (Z.to_nat skip)
               (Py.sorted Thread.updated_at true (Py.values (Storage.threads st))))
  ∧ Permutation (Py.sorted Thread.updated_at true (Py.values (Storage.threads st)))
                (Py.values (Storage.threads st))
  ∧ (∀ t, List.filter (λ th, Thread.updated_at th =? t)
                      (Py.sorted Thread.updated_at true (Py.values (Storage.threads st)))
          = List.filter (λ th, Thread.updated_at th =? t)
                        (Py.values (Storage.threads st)))
  ∧ StronglySorted (λ a b, Thread.updated_at b ≤ Thread.updated_at a)
                   (Storage.get_all_threads st skip limit)
  ∧ Analytics.len (Storage.get_all_threads st skip limit) ≤ limit.
Proof.
  intros Hs Hl. unfold Storage.get_all_threads.
  rewrite slice_nonneg by done.
  split_and!.
  - done.
  - apply (sorted_perm Thread.updated_at true).
  - intros t.
    transitivity (List.filter (λ th, key_eqb (Thread.updated_at th) t)
                    (Py.sorted Thread.updated_at true (Py.values (Storage.threads st))));
      [apply filter_ext; intros th; symmetry; apply key_eqb_int|].
    rewrite (sorted_stable Thread.updated_at true t).
    apply filter_ext. intros th. apply key_eqb_int.
  - apply StronglySorted_take, StronglySorted_drop.
    eapply StronglySorted_weaken; [|apply (sorted_reverse_sorted Thread.updated_at)].
    intros a b. unfold flip, key_le. simpl. intros ?%Z.ltb_ge. done.
  - unfold Analytics.len. rewrite length_take. lia.
Qed.

Lemma get_all_threads_order_witness :
  Thread.subject <$> Storage.get_all_threads growth_scenario_store 0 2
  = ["c"%string; "b"%string].
Proof.
  destruct (get_all_threads_order growth_scenario_store 0 2) as (Heq & _); try lia.
  by rewrite Heq.
Defined.

Section SortedHead.
Context {A K : Type} `{Py.Ord K} (key : A → K).

(** The element whose key is above every other key is the first of the
list sorted with [reverse=True]. *)
Lemma sorted_reverse_head (x : A) (l : list A) :
  In x l →
  (∀ y, In y l → y = x ∨ Py.lt (key y) (key x) = true) →
  ∃ rest, Py.sorted key true l = x :: rest.
Proof.
  intros Hx Hmax.
  pose proof (sorted_perm key true l) as Hperm.
  pose proof (sorted_reverse_sorted key l) as Hsorted.
  destruct (Py.sorted key true l) as [|h rest].
  { apply Permutation_nil in Hperm. by subst l. }
  exists rest. f_equal.
  destruct (Hmax h) as [->|Hlt]; [|done|].
  { eapply Permutation_in; [exact Hperm|by left]. }
  exfalso.
  assert (Hin : In x (h :: rest))
    by (eapply Permutation_in; [symmetry; exact Hperm|done]).
  destruct Hin as [->|Hin]; [by rewrite Py.lt_irrefl in Hlt|].
  inversion_clear Hsorted as [|? ? _ Hall].
  rewrite List.Forall_forall in Hall. specialize (Hall x Hin).
  unfold flip, key_le in Hall. congruence.
Qed.
End SortedHead.

Lemma In_values_set {V : Type} (d : dict Z V) (k : Z) (v v' : V) :
  In v' (Py.values (Py.set d k v)) → v' = v ∨ In v' (Py.values d).
Proof.
  unfold Py.values. intros ([k1 v1] & <- & Hin)%in_map_iff.
  apply In_items_set in Hin as [[= -> ->]|Hin]; [by left|].
  right. apply in_map_iff. by exists (k1, v1).
Qed.

Lemma In_values_get {K V : Type} `{EqDecision K} (d : dict K V) (k : K) (v : V) :
  Py.get d k = Some v → In v (Py.values d).
Proof.
  intros Hin%get_Some_In. unfold Py.values. apply in_map_iff. by exists (k, v).
Qed.

(** X9: when a message is added to a stored thread, or the directives of a
stored thread are updated, at a clock reading later than the [updated_at]
of every thread, that thread, with the new [updated_at], is the first entry
of every first page of [get_all_threads] that has room for an entry. *)
Theorem touched_thread_is_listed_first (st : Storage.InMemoryStorage)
    (now limit tid : Z) (th : Thread.t) :
  Storage.get_thread st tid = Some th →
  (∀ th0, In th0 (Py.values (Storage.threads st)) → Thread.updated_at th0 < now) →
  1 ≤ limit →
  (∀ n1 ty subject body sn sp g,
     ∃ rest,
       Storage.get_all_threads
         (Storage.add_message st n1 now tid ty subject body sn sp g).1 0 limit
       = Thread.set_updated_at now th :: rest)
  ∧ (∀ ds p,
       ∃ th' rest,
         (Storage.update_thread_directives st now tid ds p).2 = Some th'
         ∧ Thread.updated_at th' = now
         ∧ Storage.get_all_threads
             (Storage.update_thread_directives st now tid ds p).1 0 limit
           = th' :: rest).
Proof.
  intros Hget Hold Hlimit. unfold Storage.get_thread in Hget.
  assert (Hfirst : ∀ th', Thread.updated_at th' = now →
            ∃ rest, Py.slice (Py.sorted Thread.updated_at true
                                (Py.values (Py.set (Storage.threads st) tid th')))
                             0 (0 + limit)
                    = th' :: rest).
  { intros th' Hnow.
    destruct (sorted_reverse_head Thread.updated_at th'
                (Py.values (Py.set (Storage.threads st) tid th'))) as [rest Hrest].
    - eapply In_values_get. apply get_set_eq.
    - intros y [->|Hy]%In_values_set; [by left|]. right.
      simpl. apply Z.ltb_lt. rewrite Hnow. by apply Hold.
    - rewrite Hrest, slice_nonneg by lia. simpl.
      destruct (Z.to_nat limit) as [|n] eqn:Hn; [lia|]. simpl. by eexists. }
  split.
  - intros n1 ty subject body sn sp g.
    unfold Storage.get_all_threads, Storage.add_message. simpl. rewrite Hget.
    by apply Hfirst.
  - intros ds p. unfold Storage.get_all_threads, Storage.update_thread_directives.
    rewrite Hget. simpl.
    edestruct Hfirst as [rest Hrest]; [|eexists _, rest; split_and!; [done| |exact Hrest]];
      by destruct ds, p.
Qed.

Lemma touched_thread_is_listed_first_witness :
  ∃ rest,
    Storage.get_all_threads
      (Storage.add_message growth_scenario_store growth_scenario_now growth_scenario_now
                           1 "incoming" "s" "b" None None None).1 0 1
    = Thread.mk 1 "a" None None None (growth_scenario_now - 3 * Py.US_PER_DAY)
                growth_scenario_now :: rest.
Proof.
  destruct (touched_thread_is_listed_first growth_scenario_store growth_scenario_now 1 1
              (Thread.mk 1 "a" None None None (growth_scenario_now - 3 * Py.US_PER_DAY)
                         (growth_scenario_now - 3 * Py.US_PER_DAY)))
    as [Hadd _].
  - reflexivity.
  - intros th0 Hin. vm_compute in Hin. destruct Hin as [<-|[<-|[<-|[]]]]; by vm_compute.
  - lia.
  - destruct (Hadd growth_scenario_now "incoming"%string "s"%string "b"%string
                   None None None) as [rest Hrest].
    by exists rest.
Defined.

(** ** The store: what [update_thread_directives] stores *)

(** X10: [update_thread_directives] returns nothing exactly when the thread
is not stored. Otherwise a list of directives that was passed is stored as
it is unless it is empty, in which case the field is absent; a prompt that
was passed is stored without the whitespace characters at its two ends, and
the field is absent exactly when the prompt was empty or whitespace only:
the prompt read back by [get_thread_directives] is never empty, has no
whitespace character, of the ASCII range or beyond it, at its start or at
its end, and is the prompt passed but for whitespace at the two ends. *)
Theorem update_thread_directives_normal_form (st : Storage.InMemoryStorage)
    (now : datetime) (tid : Z) (ds : option (list string)) (p : option string) :
  match (Storage.update_thread_directives st now tid ds p).2 with
  | None => Storage.get_thread st tid = None
  | Some th' =>
      is_Some (Storage.get_thread st tid)
      ∧ Storage.get_thread (Storage.update_thread_directives st now tid ds p).1 tid
        = Some th'
      ∧ (∀ l, ds = Some l →
              (ThreadService.get_thread_directives th').1
              = if decide (l = []) then None else Some l)
      ∧ (∀ s, p = Some s →
              (ThreadService.get_thread_directives th').2
              = if decide (Py.strip s = EmptyString) then None else Some (Py.strip s))
      ∧ (∀ s, p = Some s →
              (ThreadService.get_thread_directives th').2 = None ↔ blank s)
      ∧ (∀ s q, p = Some s →
                (ThreadService.get_thread_directives th').2 = Some q →
                q ≠ EmptyString ∧ trimmed q
                ∧ ∃ l r, blank l ∧ blank r ∧ s = (l ++ q ++ r)%string)
  end.
Proof.
  unfold Storage.update_thread_directives, Storage.get_thread.
  destruct (Py.get (Storage.threads st) tid) as [th|] eqn:Hget; simpl; [|done].
  assert (Hp : ∀ s, (if Py.truthy_str s && Py.truthy_str (Py.strip s)
                     then Some (Py.strip s) else None)
                    = if decide (Py.strip s = EmptyString) then None else Some (Py.strip s)).
  { intros s. rewrite strip_truthy. destruct (Py.strip s); by simpl. }
  split_and!.
  - by eexists.
  - apply get_set_eq.
  - intros l ->. destruct p; simpl; by destruct l.
  - intros s ->. destruct ds; simpl; by rewrite Hp.
  - intros s ->. rewrite <- strip_blank.
    destruct ds; simpl; rewrite Hp;
      by destruct (decide (Py.strip s = EmptyString)).
  - intros s q -> Hq.
    assert (Hq' : (if decide (Py.strip s = EmptyString) then None else Some (Py.strip s))
                  = Some q) by (rewrite <- Hp, <- Hq; by destruct ds).
    destruct (decide (Py.strip s = EmptyString)) as [|Hne]; [done|].
    injection Hq' as <-.
    destruct (strip_spec s) as (l & r & Hl & Hr & Hs & Htrim).
    split_and!; [done|done|by exists l, r].
Qed.

(** ** Messages by day *)

Lemma bump_row_other (row : Analytics.DayRow) (m : Message.t) :
  other_type m = true → Analytics.bump_row row (Message.message_type m) = None.
Proof.
  unfold other_type, Analytics.has_type, Analytics.bump_row.
  by destruct (String.eqb _ "incoming"), (String.eqb _ "outgoing").
Qed.

Lemma bump_row_known (row : Analytics.DayRow) (m : Message.t) :
  other_type m = false →
  Analytics.bump_row row (Message.message_type m)
  = Some (Analytics.mkDayRow (Analytics.day_date row)
            (Analytics.day_incoming row
             + if Analytics.has_type "incoming" m then 1 else 0)
            (Analytics.day_outgoing row
             + if Analytics.has_type "outgoing" m then 1 else 0)).
Proof.
  unfold other_type, Analytics.has_type, Analytics.bump_row.
  destruct (String.eqb_spec (Message.message_type m) "incoming") as [Hi|Hi];
    destruct (String.eqb_spec (Message.message_type m) "outgoing") as [Ho|Ho];
    simpl; try done; try congruence;
    intros _; do 2 f_equal; lia.
Qed.

(** The table before the row of the message is bumped. *)
Lemma by_day_step_spec (d : dict string Analytics.DayRow) (m : Message.t) :
  Analytics.by_day_step d m
  = Analytics.bump_row
      (default (Analytics.mkDayRow (message_date m) 0 0) (Py.get d (message_date m)))
      (Message.message_type m)
    ≫= λ row,
        Some (Py.set (if Py.contains d (message_date m) then d
                      else Py.set d (message_date m)
                                  (Analytics.mkDayRow (message_date m) 0 0))
                     (message_date m) row).
Proof.
  unfold Analytics.by_day_step. fold (message_date m).
  rewrite contains_get.
  destruct (Py.get d (message_date m)) as [row|] eqn:Hget; simpl.
  - by rewrite Hget.
  - by rewrite get_set_eq.
Qed.

Lemma by_day_step_other (d : dict string Analytics.DayRow) (m : Message.t) :
  other_type m = true → Analytics.by_day_step d m = None.
Proof. intros Ho. by rewrite by_day_step_spec, bump_row_other. Qed.

Lemma count_on_cons (ty d : string) (m : Message.t) (l : list Message.t) :
  count_on ty d (m :: l)
  = (if Analytics.has_type ty m && bool_decide (message_date m = d) then 1 else 0)
    + count_on ty d l.
Proof.
  unfold count_on, Analytics.len. simpl.
  destruct (Analytics.has_type ty m && bool_decide (message_date m = d)); simpl; lia.
Qed.

Lemma by_day_step_known (d : dict string Analytics.DayRow) (m : Message.t) :
  other_type m = false →
  ∃ d', Analytics.by_day_step d m = Some d'
        ∧ (List.NoDup (Py.keys d) → List.NoDup (Py.keys d'))
        ∧ ∀ l k, row_after d' l k = row_after d (m :: l) k.
Proof.
  intros Hk. rewrite by_day_step_spec, (bump_row_known _ _ Hk). simpl.
  eexists. split; [reflexivity|]. split.
  - intros Hnd. apply keys_set_NoDup. destruct (Py.contains _ _); [done|].
    by apply keys_set_NoDup.
  - intros l k. unfold row_after. rewrite !count_on_cons.
    destruct (decide (message_date m = k)) as [<-|Hne].
    + rewrite get_set_eq, !bool_decide_true, !andb_true_r by done.
      destruct (Py.get d (message_date m)) as [row|] eqn:Hget; simpl.
      * do 2 f_equal; lia.
      * rewrite decide_True by (simpl; apply list_elem_of_here). do 2 f_equal; lia.
    + rewrite get_set_ne by done.
      rewrite !bool_decide_false, !andb_false_r by done.
      assert (Hsame : Py.get (if Py.contains d (message_date m) then d
                              else Py.set d (message_date m)
                                     (Analytics.mkDayRow (message_date m) 0 0)) k
                      = Py.get d k).
      { destruct (Py.contains _ _); [done|]. by apply get_set_ne. }
      rewrite Hsame. destruct (Py.get d k) as [row|]; [by simpl|].
      simpl. destruct (decide (k ∈ map message_date l)) as [Hin|Hnin].
      * rewrite decide_True by (by apply list_elem_of_further). done.
      * rewrite decide_False; [done|].
        intros [?|?]%elem_of_cons; done.
Qed.

Lemma row_after_nil (d : dict string Analytics.DayRow) (k : string) :
  row_after d [] k = Py.get d k.
Proof.
  unfold row_after, count_on, Analytics.len. simpl.
  destruct (Py.get d k) as [[date i o]|]; [simpl; do 2 f_equal; lia|].
  destruct (decide (k ∈ [])) as [Hin|]; [by apply not_elem_of_nil in Hin|done].
Qed.

(** The loop fails exactly on a message of another type; when it does not
fail its table is described by [row_after]. *)
Lemma by_day_loop_spec (messages : list Message.t) (d : dict string Analytics.DayRow) :
  match Analytics.by_day_loop d messages with
  | None => ∃ m, In m messages ∧ other_type m = true
  | Some d' =>
      (∀ m, In m messages → other_type m = false)
      ∧ (List.NoDup (Py.keys d) → List.NoDup (Py.keys d'))
      ∧ ∀ k, row_after d' [] k = row_after d messages k
  end.
Proof.
  revert d. induction messages as [|m l IH]; intros d; simpl.
  - split_and!; done.
  - destruct (other_type m) eqn:Hm.
    + rewrite by_day_step_other by done. simpl. exists m. split; [by left|done].
    + destruct (by_day_step_known d m Hm) as (d1 & -> & Hnd & Hrow). simpl.
      specialize (IH d1). destruct (Analytics.by_day_loop d1 l) as [d'|].
      * destruct IH as (Hall & Hnd' & Hrow'). split_and!.
        -- intros m' [<-|Hin]; [done|by apply Hall].
        -- intros H. by apply Hnd', Hnd.
        -- intros k. by rewrite Hrow', Hrow.
      * destruct IH as (m' & Hin & Ho). exists m'. split; [by right|done].
Qed.

Lemma rows_total_perm (l l' : list Analytics.DayRow) :
  Permutation l l' → rows_total l = rows_total l'.
Proof. induction 1; simpl; lia. Qed.

Lemma rows_total_set (d : dict string Analytics.DayRow) (k : string)
    (row : Analytics.DayRow) :
  rows_total (Py.values (Py.set d k row))
  = rows_total (Py.values d) - rows_total (option_list (Py.get d k)) + rows_total [row].
Proof.
  assert (Hcons : ∀ (kv : string * Analytics.DayRow) d0,
             Py.values (kv :: d0) = kv.2 :: Py.values d0) by done.
  assert (Htot : ∀ r l, rows_total (r :: l)
                        = Analytics.day_incoming r + Analytics.day_outgoing r
                          + rows_total l) by done.
  induction d as [|[k0 r0] d IH]; [simpl; lia|].
  cbn [Py.set Py.get]. destruct (decide (k0 = k)) as [->|Hne].
  - rewrite !Hcons. simpl. lia.
  - rewrite !Hcons, !Htot, IH, !Htot. lia.
Qed.

Lemma by_day_step_total (d d' : dict string Analytics.DayRow) (m : Message.t) :
  Analytics.by_day_step d m = Some d' →
  rows_total (Py.values d') = rows_total (Py.values d) + 1.
Proof.
  rewrite by_day_step_spec, contains_get.
  destruct (other_type m) eqn:Hm; [by rewrite bump_row_other|].
  rewrite (bump_row_known _ _ Hm). simpl. intros [= <-].
  assert (Hone : (if Analytics.has_type "incoming" m then 1 else 0)
                 + (if Analytics.has_type "outgoing" m then 1 else 0) = 1).
  { unfold other_type, Analytics.has_type in *.
    destruct (String.eqb_spec (Message.message_type m) "incoming") as [Hi|Hi];
      destruct (String.eqb_spec (Message.message_type m) "outgoing") as [Ho|Ho];
      simpl in *; try done; congruence. }
  destruct (Py.get d (message_date m)) as [row|] eqn:Hget; simpl.
  - rewrite rows_total_set, Hget. simpl. lia.
  - rewrite !rows_total_set, get_set_eq, Hget. simpl. lia.
Qed.

Lemma by_day_loop_total (messages : list Message.t) (d d' : dict string Analytics.DayRow) :
  Analytics.by_day_loop d messages = Some d' →
  rows_total (Py.values d') = rows_total (Py.values d) + Analytics.len messages.
Proof.
  revert d. induction messages as [|m l IH]; intros d; simpl.
  - intros [= <-]. unfold Analytics.len. simpl. lia.
  - destruct (Analytics.by_day_step d m) as [d1|] eqn:Hstep; simpl; [|done].
    intros Hloop. rewrite (IH _ Hloop), (by_day_step_total _ _ _ Hstep).
    unfold Analytics.len. simpl length. lia.
Qed.

Section SortedStrict.
Context {A K : Type} `{Py.Ord K} (key : A → K).

(** A sorted list with distinct keys is strictly ascending. *)
Lemma sorted_strict (l : list A) :
  List.NoDup (map key l) →
  StronglySorted (λ a b, Py.lt (key a) (key b) = true) (Py.sorted key false l).
Proof.
  intros Hnd.
  assert (Hnd' : List.NoDup (map key (Py.sorted key false l))).
  { apply NoDup_ListNoDup. rewrite (sorted_perm key false l). by apply NoDup_ListNoDup. }
  pose proof (list_sort_sorted key l) as Hs.
  change (Py.list_sort key l) with (Py.sorted key false l) in Hs.
  induction Hs as [|x l' Hl' IH Hx]; constructor.
  - apply IH. simpl in Hnd'. by inversion Hnd'.
  - simpl in Hnd'. inversion_clear Hnd' as [|? ? Hnx _].
    rewrite List.Forall_forall in Hx |- *. intros y Hy.
    specialize (Hx y Hy). unfold key_le in Hx.
    destruct (Py.lt (key x) (key y)) eqn:Hxy; [done|].
    exfalso. apply Hnx. rewrite (Py.lt_total _ _ Hxy Hx). by apply in_map.
Qed.
End SortedStrict.

Lemma count_on_nonneg (ty d : string) (l : list Message.t) : 0 ≤ count_on ty d l.
Proof. unfold count_on, Analytics.len. lia. Qed.

Lemma count_on_pos (m : Message.t) (l : list Message.t) :
  In m l → other_type m = false →
  1 ≤ count_on "incoming" (message_date m) l + count_on "outgoing" (message_date m) l.
Proof.
  intros Hin Hm. induction l as [|m' l IH]; [done|].
  rewrite !count_on_cons.
  pose proof (count_on_nonneg "incoming" (message_date m) l).
  pose proof (count_on_nonneg "outgoing" (message_date m) l).
  destruct Hin as [->|Hin].
  - rewrite !bool_decide_true, !andb_true_r by done.
    unfold other_type in Hm.
    destruct (Analytics.has_type "incoming" m), (Analytics.has_type "outgoing" m);
      simpl in Hm; try done; lia.
  - specialize (IH Hin).
    destruct (_ && _), (_ && _); lia.
Qed.

Lemma StronglySorted_map {A B} (R : B → B → Prop) (f : A → B) (l : list A) :
  StronglySorted (λ a b, R (f a) (f b)) l → StronglySorted R (map f l).
Proof.
  induction 1 as [|x l Hl IH Hx]; simpl; constructor; [done|].
  apply List.Forall_forall. intros y (a & <- & Ha)%in_map_iff.
  rewrite List.Forall_forall in Hx. by apply Hx.
Qed.

Lemma In_keys_is_Some {K V : Type} `{EqDecision K} (d : dict K V) (k : K) :
  In k (Py.keys d) ↔ is_Some (Py.get d k).
Proof.
  destruct (Py.get d k) as [v|] eqn:Hk.
  - split; [by eauto|]. intros _.
    apply get_Some_In in Hk. unfold Py.keys. apply in_map_iff. by exists (k, v).
  - split; [|by intros [? ?]]. intros Hin. by apply get_None_keys in Hk.
Qed.

Lemma map_values_keys {V : Type} (f : V → string) (d : dict string V) :
  (∀ k v, In (k, v) d → f v = k) → map f (Py.values d) = Py.keys d.
Proof.
  unfold Py.values, Py.keys. induction d as [|[k v] d IH]; intros Hall; [done|].
  simpl. rewrite (Hall k v) by (by left). f_equal.
  apply IH. intros k' v' Hin. apply Hall. by right.
Qed.

(** X11: for every window Python accepts, [get_messages_by_day] raises
exactly when some message of the period has a type other than [incoming]
and [outgoing]. Otherwise its rows have strictly ascending date strings,
there is a row for a date exactly when a message of the period was created
on it, the row counts the incoming and the outgoing messages of its date,
at least one in all, and the rows together count every message of the
period once. *)
Theorem messages_by_day_rows (st : Storage.InMemoryStorage) (now days s e : Z) :
  Analytics.period now days = Some (s, e) →
  match Analytics.get_messages_by_day st now days with
  | None =>
      ∃ m, In m (Storage.get_messages_in_period st s e) ∧ other_type m = true
  | Some r =>
      (∀ m, In m (Storage.get_messages_in_period st s e) → other_type m = false)
      ∧ StronglySorted (λ a b, String.ltb a b = true)
                       (map Analytics.day_date (Analytics.bd_data r))
      ∧ (∀ d, In d (map Analytics.day_date (Analytics.bd_data r)) ↔
              ∃ m, In m (Storage.get_messages_in_period st s e) ∧ message_date m = d)
      ∧ (∀ row, In row (Analytics.bd_data r) →
                Analytics.day_incoming row
                = count_on "incoming" (Analytics.day_date row)
                           (Storage.get_messages_in_period st s e)
                ∧ Analytics.day_outgoing row
                  = count_on "outgoing" (Analytics.day_date row)
                             (Storage.get_messages_in_period st s e)
                ∧ 1 ≤ Analytics.day_incoming row + Analytics.day_outgoing row)
      ∧ rows_total (Analytics.bd_data r)
        = Analytics.len (Storage.get_messages_in_period st s e)
  end.
Proof.
  intros Hp. unfold Analytics.get_messages_by_day, Analytics.by_day_of.
  rewrite Hp. simpl.
  set (msgs := Storage.get_messages_in_period st s e).
  pose proof (by_day_loop_spec msgs []) as Hspec.
  pose proof (by_day_loop_total msgs []) as Htotal.
  destruct (Analytics.by_day_loop [] msgs) as [d'|]; simpl; [|done].
  destruct Hspec as (Hall & Hnd & Hrow).
  specialize (Hnd (List.NoDup_nil _)). specialize (Htotal d' eq_refl).
  assert (Hget : ∀ k, Py.get d' k
                      = if decide (k ∈ map message_date msgs)
                        then Some (Analytics.mkDayRow k (count_on "incoming" k msgs)
                                                      (count_on "outgoing" k msgs))
                        else None).
  { intros k. by rewrite <- row_after_nil, Hrow. }
  assert (Hitem : ∀ k row, In (k, row) d' →
            row = Analytics.mkDayRow k (count_on "incoming" k msgs)
                                     (count_on "outgoing" k msgs)
            ∧ k ∈ map message_date msgs).
  { intros k row Hin. apply NoDup_keys_In_get in Hin; [|done].
    rewrite Hget in Hin. destruct (decide _); [|done]. by injection Hin as <-. }
  assert (Hdates : map Analytics.day_date (Py.values d') = Py.keys d').
  { apply map_values_keys. intros k row Hin. by destruct (Hitem k row Hin) as [-> _]. }
  assert (Hperm : Permutation (Py.sorted Analytics.day_date false (Py.values d'))
                              (Py.values d'))
    by apply (sorted_perm Analytics.day_date false).
  split_and!.
  - done.
  - apply StronglySorted_map.
    apply (sorted_strict (H := Py.Ord_str) Analytics.day_date). by rewrite Hdates.
  - intros k.
    transitivity (In k (Py.keys d')).
    { rewrite <- Hdates.
      split; apply Permutation_in, Permutation_map; [done|by symmetry]. }
    rewrite In_keys_is_Some, Hget.
    destruct (decide (k ∈ map message_date msgs)) as [Hin|Hnin].
    + split; [intros _|by eauto].
      apply list_elem_of_In, in_map_iff in Hin as (m & Hm & Hin). by exists m.
    + split; [by intros [? ?]|]. intros (m & Hin & Hm). exfalso. apply Hnin.
      apply list_elem_of_In, in_map_iff. by exists m.
  - intros row Hin. eapply Permutation_in in Hin; [|exact Hperm].
    unfold Py.values in Hin. apply in_map_iff in Hin as ([k row'] & <- & Hin).
    destruct (Hitem k row' Hin) as [-> Hk]. simpl. split_and!; [done|done|].
    apply list_elem_of_In, in_map_iff in Hk as (m & <- & Hm).
    apply count_on_pos; [done|by apply Hall].
  - erewrite rows_total_perm; [|exact Hperm]. rewrite Htotal. simpl. lia.
Qed.

Lemma messages_by_day_rows_witness :
  ∃ r, Analytics.get_messages_by_day scenario_store (8 * Py.US_PER_DAY) 7 = Some r
       ∧ Analytics.bd_data r = [Analytics.mkDayRow "0001-01-08" 1 2]
       ∧ rows_total (Analytics.bd_data r) = 3.
Proof.
  pose proof (messages_by_day_rows scenario_store (8 * Py.US_PER_DAY) 7
                (1 * Py.US_PER_DAY) (8 * Py.US_PER_DAY) eq_refl) as H.
  destruct (Analytics.get_messages_by_day scenario_store (8 * Py.US_PER_DAY) 7)
    as [r|] eqn:Hr; [|by vm_compute in Hr].
  destruct H as (_ & _ & _ & _ & Htotal).
  exists r. split; [done|]. split; [|by rewrite Htotal].
  vm_compute in Hr. by injection Hr as <-.
Defined.

(** ** Directives usage and the overview *)

Lemma len_filter_le {A} (f : A → bool) (l : list A) :
  0 ≤ Analytics.len (List.filter f l) ≤ Analytics.len l.
Proof.
  unfold Analytics.len. split; [lia|].
  apply inj_le. induction l as [|x l IH]; simpl; [done|].
  destruct (f x); simpl; lia.
Qed.

Lemma len_filter_mono {A} (f g : A → bool) (l : list A) :
  (∀ x, f x = true → g x = true) →
  Analytics.len (List.filter f l) ≤ Analytics.len (List.filter g l).
Proof.
  intros Hfg. unfold Analytics.len. apply inj_le.
  induction l as [|x l IH]; simpl; [done|].
  destruct (f x) eqn:Hf.
  - rewrite (Hfg x Hf). simpl. lia.
  - destruct (g x); simpl; lia.
Qed.

(** X12: for every window Python accepts, [get_directives_usage] and
[get_overview] agree on the number of threads and on the number of threads
with directives; a thread counts as having directives when the list is
present and not empty, and as having a custom prompt when the string is
present and not empty (a prompt of spaces counts); neither count exceeds
the number of threads; the percentage is the integer 0 when the period has
no thread and a float otherwise. *)
Theorem directives_usage_counts (st : Storage.InMemoryStorage) (now days s e : Z) :
  Analytics.period now days = Some (s, e) →
  ∃ u o,
    Analytics.get_directives_usage st now days = Some u
    ∧ Analytics.get_overview st now days = Some o
    ∧ Analytics.du_total_threads u = Analytics.total_threads o
    ∧ Analytics.du_threads_with_directives u = Analytics.threads_with_directives o
    ∧ Analytics.du_total_threads u
      = Analytics.len (Storage.get_threads_in_period st s e)
    ∧ Analytics.du_threads_with_directives u
      = Analytics.len
          (List.filter (λ t, match Thread.extra_directives t with
                             | Some (_ :: _) => true
                             | _ => false
                             end)
                       (Storage.get_threads_in_period st s e))
    ∧ Analytics.du_threads_with_custom_prompt u
      = Analytics.len
          (List.filter (λ t, match Thread.custom_prompt t with
                             | Some (String _ _) => true
                             | _ => false
                             end)
                       (Storage.get_threads_in_period st s e))
    ∧ 0 ≤ Analytics.du_threads_with_directives u ≤ Analytics.du_total_threads u
    ∧ 0 ≤ Analytics.du_threads_with_custom_prompt u ≤ Analytics.du_total_threads u
    ∧ match Analytics.directives_usage_percentage u with
      | Analytics.Int n => n = 0 ∧ Analytics.du_total_threads u = 0
      | Analytics.Float _ => 0 < Analytics.du_total_threads u
      end.
Proof.
  intros Hp. unfold Analytics.get_directives_usage. rewrite Hp. simpl.
  eexists _, _. split; [reflexivity|]. split; [by apply get_overview_Some|].
  simpl. do 3 (split; [done|]).
  split; [f_equal; apply filter_ext; intros t;
          by destruct (Thread.extra_directives t) as [[|]|]|].
  split; [f_equal; apply filter_ext; intros t;
          by destruct (Thread.custom_prompt t) as [[|]|]|].
  split; [apply len_filter_le|]. split; [apply len_filter_le|].
  destruct (Z.ltb_spec 0 (Analytics.len (Storage.get_threads_in_period st s e)));
    [done|]. split; [done|]. unfold Analytics.len in *. lia.
Qed.

(** The scenario of the specification: four threads, two of them with
directives, give 50.0. *)
Lemma directives_usage_counts_witness :
  let t := 7 * Py.US_PER_DAY in
  let st := (Storage.create_thread Storage.empty t t "a" None
               (Some ["formal"%string]) None).1 in
  let st := (Storage.create_thread st t t "b" None None None).1 in
  let st := (Storage.create_thread st t t "c" None (Some ["short"%string]) None).1 in
  let st := (Storage.create_thread st t t "d" None (Some []) (Some "   "%string)).1 in
  ∃ u, Analytics.get_directives_usage st (8 * Py.US_PER_DAY) 7 = Some u
       ∧ Analytics.du_total_threads u = 4
       ∧ Analytics.du_threads_with_directives u = 2
       ∧ Analytics.du_threads_with_custom_prompt u = 1
       ∧ Analytics.directives_usage_percentage u = Analytics.Float 50%float.
Proof.
  intros t st0 st1 st2 st.
  destruct (directives_usage_counts st (8 * Py.US_PER_DAY) 7
              (1 * Py.US_PER_DAY) (8 * Py.US_PER_DAY) eq_refl)
    as (u & o & Hu & _).
  exists u. split; [done|].
  vm_compute in Hu. injection Hu as <-. by vm_compute.
Defined.

(** X13: widening the window never lowers a count of the overview: for
two windows Python accepts at the same instant, the longer one has at least
as many threads, messages, incoming messages, outgoing messages and threads
with directives. *)
Theorem overview_monotone_in_days (st : Storage.InMemoryStorage)
    (now days days' s e s' e' : Z) :
  Analytics.period now days = Some (s, e) →
  Analytics.period now days' = Some (s', e') →
  days ≤ days' →
  ∃ o o',
    Analytics.get_overview st now days = Some o
    ∧ Analytics.get_overview st now days' = Some o'
    ∧ Analytics.total_threads o ≤ Analytics.total_threads o'
    ∧ Analytics.total_messages o ≤ Analytics.total_messages o'
    ∧ Analytics.incoming_messages o ≤ Analytics.incoming_messages o'
    ∧ Analytics.outgoing_messages o ≤ Analytics.outgoing_messages o'
    ∧ Analytics.threads_with_directives o ≤ Analytics.threads_with_directives o'.
Proof.
  intros Hp Hp' Hle.
  rewrite (get_overview_Some _ _ _ _ _ Hp), (get_overview_Some _ _ _ _ _ Hp').
  apply period_Some in Hp as (_ & _ & -> & ->).
  apply period_Some in Hp' as (_ & _ & -> & ->).
  assert (Hin : ∀ t, Storage.in_period (now - days * Py.US_PER_DAY) now t = true →
                     Storage.in_period (now - days' * Py.US_PER_DAY) now t = true).
  { intros t. unfold Storage.in_period, Py.US_PER_DAY.
    rewrite !andb_true_iff, !Z.leb_le. lia. }
  assert (Hand : ∀ {A} (f g h : A → bool) (l : list A),
            (∀ x, g x = true → h x = true) →
            Analytics.len (List.filter f (List.filter g l))
            ≤ Analytics.len (List.filter f (List.filter h l))).
  { intros A f g h l Hgh. rewrite !filter_filter_andb. apply len_filter_mono.
    intros x [Hf Hg]%andb_true_iff. rewrite Hf. simpl. by apply Hgh. }
  eexists _, _. split; [reflexivity|]. split; [reflexivity|]. simpl.
  unfold Storage.get_threads_in_period, Storage.get_messages_in_period.
  split; [apply len_filter_mono; intros x; apply Hin|].
  split; [apply len_filter_mono; intros x; apply Hin|].
  split; [apply Hand; intros x; apply Hin|].
  split; [apply Hand; intros x; apply Hin|].
  apply Hand; intros x; apply Hin.
Qed.

Lemma overview_monotone_in_days_witness :
  ∃ o o',
    Analytics.get_overview growth_scenario_store growth_scenario_now 1 = Some o
    ∧ Analytics.get_overview growth_scenario_store growth_scenario_now 3 = Some o'
    ∧ Analytics.total_threads o = 1
    ∧ Analytics.total_threads o' = 3.
Proof.
  destruct (overview_monotone_in_days growth_scenario_store growth_scenario_now 1 3
              (growth_scenario_now - 1 * Py.US_PER_DAY) growth_scenario_now
              (growth_scenario_now - 3 * Py.US_PER_DAY) growth_scenario_now
              eq_refl eq_refl)
    as (o & o' & Ho & Ho' & _); [lia|].
  exists o, o'. split; [done|]. split; [done|].
  vm_compute in Ho, Ho'. injection Ho as <-. injection Ho' as <-. by vm_compute.
Defined.

(** ** The response cache: eviction, overwriting, namespaces *)

Section MapDelete.
Context {V : Type}.
Implicit Types (m : gmap string V) (ks : list string) (k : string).

Lemma lookup_fold_delete ks m k :
  fold_left (λ cache key, delete key cache) ks m !! k
  = if decide (k ∈ ks) then None else m !! k.
Proof.
  revert m. induction ks as [|k0 ks IH]; intros m; simpl.
  - destruct (decide (k ∈ [])) as [Hin|]; [by apply not_elem_of_nil in Hin|done].
  - rewrite IH. destruct (decide (k ∈ ks)) as [Hin|Hnin].
    + by rewrite decide_True by (by apply list_elem_of_further).
    + destruct (decide (k = k0)) as [->|Hne].
      * rewrite decide_True by apply list_elem_of_here. apply lookup_delete_eq.
      * rewrite decide_False by (intros [?|?]%elem_of_cons; done).
        by apply lookup_delete_ne.
Qed.

Lemma size_fold_delete ks m :
  NoDup ks → (∀ k, k ∈ ks → is_Some (m !! k)) →
  (size (fold_left (λ cache key, delete key cache) ks m) + length ks)%nat = size m.
Proof.
  revert m. induction ks as [|k0 ks IH]; intros m Hnd Hall; simpl; [lia|].
  apply NoDup_cons in Hnd as [Hk0 Hnd].
  specialize (IH (delete k0 m) Hnd).
  rewrite map_size_delete_Some in IH by (apply Hall, list_elem_of_here).
  assert (size m ≠ 0%nat).
  { intros Hz%map_size_empty_inv. subst m.
    destruct (Hall k0) as [v Hv]; [apply list_elem_of_here|].
    by rewrite lookup_empty in Hv. }
  rewrite <- Nat.add_succ_comm. simpl. rewrite IH; [lia|].
  intros k Hk. rewrite lookup_delete_ne by (by intros <-).
  by apply Hall, list_elem_of_further.
Qed.

Lemma elem_of_filter_keys (P : string → bool) m k :
  k ∈ List.filter P (map_to_list m).*1 ↔ P k = true ∧ is_Some (m !! k).
Proof.
  rewrite list_elem_of_In, filter_In, <- list_elem_of_In, list_elem_of_fmap.
  split.
  - intros [([k' v] & -> & Hin%elem_of_map_to_list) HP]. split; [done|by eexists].
  - intros [HP [v Hv]]. split; [|done]. exists (k, v).
    split; [done|by apply elem_of_map_to_list].
Qed.

Lemma NoDup_filter_keys (P : string → bool) m : NoDup (List.filter P (map_to_list m).*1).
Proof.
  apply NoDup_ListNoDup, List.NoDup_filter, NoDup_ListNoDup, NoDup_fst_map_to_list.
Qed.
End MapDelete.

Lemma startswith_app (p s : string) : Py.startswith (p ++ s) p = true.
Proof.
  unfold Py.startswith. induction p as [|c p IH]; simpl.
  - by destruct s.
  - destruct (ascii_dec c c); [done|congruence].
Qed.

Lemma startswith_app_l (s r p : string) :
  Py.startswith s p = true → Py.startswith (s ++ r) p = true.
Proof.
  unfold Py.startswith. revert s. induction p as [|c p IH]; intros s; simpl.
  - by destruct (s ++ r)%string.
  - destruct s as [|c' s]; simpl; [done|].
    destruct (ascii_dec c c'); [apply IH|done].
Qed.

Lemma startswith_cancel (a s p : string) :
  Py.startswith (a ++ s) (a ++ p) = Py.startswith s p.
Proof.
  unfold Py.startswith. induction a as [|c a IH]; simpl; [done|].
  destruct (ascii_dec c c); [done|congruence].
Qed.

Section CacheMore.
Context {Any : Type}.
Variable json_dumps : list Any → option string.
Variable sha256_hexdigest : string → string.

#[local] Abbreviation get := (Cache.get json_dumps sha256_hexdigest).
#[local] Abbreviation set := (Cache.set json_dumps sha256_hexdigest).
#[local] Abbreviation _generate_key := (Cache._generate_key json_dumps sha256_hexdigest).

Lemma with_cache_same (self : Cache.CacheService Any) :
  Cache.with_cache (Cache._cache self) self = self.
Proof. by destruct self. Qed.

(** Every key of a namespace starts with the global prefix and the
namespace. *)
Lemma generate_key_prefix (prefix pattern key : string) (args : list Any) :
  _generate_key prefix args = Some key →
  Py.startswith prefix pattern = true →
  Py.startswith key ("bizmail:" ++ pattern) = true.
Proof.
  unfold Cache._generate_key. destruct (json_dumps args) as [data|]; simpl; [|done].
  intros [= <-] Hp. rewrite (startswith_cancel "bizmail:"). by apply startswith_app_l.
Qed.

(** While the cache is enabled, [clear_pattern] keeps it enabled, removes
the entries whose key starts with the global prefix and the pattern, keeps
the others and returns the number of entries removed. *)
Lemma clear_pattern_enabled (self : Cache.CacheService Any) (pattern : string) :
  Cache._enabled self = true →
  Cache._enabled (Cache.clear_pattern self pattern).1 = true
  ∧ (∀ k, Cache._cache (Cache.clear_pattern self pattern).1 !! k
          = if Py.startswith k ("bizmail:" ++ pattern) then None
            else Cache._cache self !! k)
  ∧ (Cache.clear_pattern self pattern).2
    = Z.of_nat (size (Cache._cache self))
      - Z.of_nat (size (Cache._cache (Cache.clear_pattern self pattern).1))
  ∧ 0 ≤ (Cache.clear_pattern self pattern).2.
Proof.
  unfold Cache.clear_pattern. intros He. rewrite He. simpl.
  set (P := λ k, Py.startswith k ("bizmail:" ++ pattern)).
  set (ks := List.filter P (map_to_list (Cache._cache self)).*1).
  assert (Hsize : (size (fold_left (λ cache key, delete key cache) ks (Cache._cache self))
                   + length ks)%nat = size (Cache._cache self)).
  { apply size_fold_delete; [apply NoDup_filter_keys|].
    intros k Hk. by apply elem_of_filter_keys in Hk as [_ ?]. }
  split_and!; [done| |lia|lia].
  intros k. change (Py.startswith k ("bizmail:" ++ pattern)) with (P k).
  rewrite lookup_fold_delete. unfold ks.
  destruct (decide (k ∈ _)) as [Hin|Hnin].
  - apply elem_of_filter_keys in Hin as [-> _]. done.
  - destruct (P k) eqn:HP; [|done].
    destruct (Cache._cache self !! k) as [v|] eqn:Hk; [|done].
    exfalso. apply Hnin, elem_of_filter_keys. split; [done|by eexists].
Qed.

(** X14: while the cache is disabled [clear_pattern] returns 0 and changes
nothing. While it is enabled it removes exactly the entries whose key
starts with the global prefix followed by the pattern and keeps every other
entry; the number it returns is the number of entries removed; a second
call with the same pattern finds nothing and returns 0. *)
Theorem clear_pattern_effect (self : Cache.CacheService Any) (pattern : string) :
  (Cache._enabled self = false → Cache.clear_pattern self pattern = (self, 0))
  ∧ (Cache._enabled self = true →
     let self' := (Cache.clear_pattern self pattern).1 in
     (∀ k, Cache._cache self' !! k
           = if Py.startswith k ("bizmail:" ++ pattern) then None
             else Cache._cache self !! k)
     ∧ (Cache.clear_pattern self pattern).2
       = Z.of_nat (size (Cache._cache self)) - Z.of_nat (size (Cache._cache self'))
     ∧ 0 ≤ (Cache.clear_pattern self pattern).2
     ∧ Cache._enabled self' = true
     ∧ Cache.clear_pattern self' pattern = (self', 0)).
Proof.
  split; [unfold Cache.clear_pattern; by intros ->|]. intros He self'.
  destruct (clear_pattern_enabled self pattern He) as (He' & Hlookup & Hcount & Hpos).
  fold self' in He', Hlookup, Hcount.
  split_and!; try done.
  unfold Cache.clear_pattern at 1. rewrite He'. simpl.
  assert (Hnone : List.filter (λ k, Py.startswith k ("bizmail:" ++ pattern))
                    (map_to_list (Cache._cache self')).*1 = []).
  { apply elem_of_nil_inv. intros k [HP [v Hv]]%elem_of_filter_keys.
    by rewrite Hlookup, HP in Hv. }
  rewrite Hnone. simpl. by rewrite with_cache_same.
Qed.

(** X15: while the cache is enabled, what a [set] stored under a namespace
is removed by [clear_pattern] with that namespace, or with any string the
namespace starts with, as pattern: the call counts at least one entry and
the [get] that follows misses, whatever the TTL. *)
Theorem clear_pattern_evicts_set (self self1 : Cache.CacheService Any)
    (now now' : datetime) (prefix pattern : string) (value : Any) (ttl_hours : Z)
    (args : list Any) :
  set self now prefix value ttl_hours args = (self1, true) →
  Py.startswith prefix pattern = true →
  1 ≤ (Cache.clear_pattern self1 pattern).2
  ∧ (get (Cache.clear_pattern self1 pattern).1 now' prefix args).2 = None.
Proof.
  intros (He & key & Hkey & _ & _ & ->)%cache_set_true Hpat.
  pose proof (generate_key_prefix _ _ _ _ Hkey Hpat) as Hstarts.
  destruct (clear_pattern_enabled
              (Cache.with_cache
                 (<[key:=(value, now + ttl_hours * Py.US_PER_HOUR)]> (Cache._cache self))
                 self) pattern He) as (He' & Hlookup & Hcount & _).
  split.
  - rewrite Hcount.
    set (X := Cache.with_cache _ self) in *.
    assert (size (Cache._cache (Cache.clear_pattern X pattern).1)
            < size (Cache._cache X))%nat; [|lia].
    apply (map_subset_size (M := gmap string)). apply map_subset_alt.
    split.
    + apply map_subseteq_spec. intros k v Hk. rewrite Hlookup in Hk.
      by destruct (Py.startswith k _).
    + exists key. split; [by rewrite Hlookup, Hstarts|].
      unfold X. simpl. rewrite lookup_insert_eq. by eexists.
  - unfold Cache.get. rewrite He', Hkey. simpl. by rewrite Hlookup, Hstarts.
Qed.

(** The answer of [get] depends on the entry of its key alone. *)
Lemma get_value_lookup (self self' : Cache.CacheService Any) (now : datetime)
    (prefix : string) (args : list Any) :
  Cache._enabled self' = Cache._enabled self →
  (∀ key, _generate_key prefix args = Some key →
          Cache._cache self' !! key = Cache._cache self !! key) →
  (get self' now prefix args).2 = (get self now prefix args).2.
Proof.
  intros He Hsame. unfold Cache.get. rewrite He.
  destruct (Cache._enabled self); simpl; [|done].
  destruct (_generate_key prefix args) as [key|]; [|done].
  rewrite (Hsame key eq_refl).
  destruct (Cache._cache self !! key) as [[v expiry]|]; [|done].
  by destruct (now <? expiry).
Qed.

Lemma set_enabled (self : Cache.CacheService Any) (now : datetime)
    (prefix : string) (value : Any) (ttl_hours : Z) (args : list Any) :
  Cache._enabled (set self now prefix value ttl_hours args).1 = Cache._enabled self.
Proof.
  unfold Cache.set. destruct (Cache._enabled self) eqn:He; simpl; [|done].
  destruct (_generate_key prefix args) as [key|]; simpl; [|done].
  destruct (Py.timedelta_of_hours ttl_hours) as [delta|]; simpl; [|done].
  by destruct (Py.datetime_add now delta).
Qed.

(** A [set] changes the entry of its own key at most. *)
Lemma set_other_key (self : Cache.CacheService Any) (now : datetime)
    (prefix : string) (value : Any) (ttl_hours : Z) (args : list Any) (key' : string) :
  (∀ key, _generate_key prefix args = Some key → key ≠ key') →
  Cache._enabled (set self now prefix value ttl_hours args).1 = Cache._enabled self
  ∧ Cache._cache (set self now prefix value ttl_hours args).1 !! key'
    = Cache._cache self !! key'.
Proof.
  intros Hne. unfold Cache.set.
  destruct (Cache._enabled self) eqn:He; simpl; [|done].
  destruct (_generate_key prefix args) as [key|]; simpl; [|by rewrite He].
  destruct (Py.timedelta_of_hours ttl_hours) as [delta|]; simpl; [|by rewrite He].
  destruct (Py.datetime_add now delta) as [expiry|]; simpl; [|by rewrite He].
  split; [done|]. apply lookup_insert_ne. by apply Hne.
Qed.

(** X16: while the cache is enabled, the last [set] of a key wins: after two
[set]s with the same prefix and arguments that both returned [True], a [get]
before the expiry of the second returns the second value, whatever the TTL
of the first was. A [set] never changes the answer of a [get] whose key is
another one. *)
Theorem cache_last_write_wins (self self1 self2 : Cache.CacheService Any)
    (now1 now2 now3 : datetime) (prefix : string) (v1 v2 : Any) (ttl1 ttl2 : Z)
    (args : list Any) :
  set self now1 prefix v1 ttl1 args = (self1, true) →
  set self1 now2 prefix v2 ttl2 args = (self2, true) →
  (now3 < now2 + ttl2 * Py.US_PER_HOUR →
   get self2 now3 prefix args = (self2, Some v2))
  ∧ (∀ prefix' args' key key',
       _generate_key prefix args = Some key →
       _generate_key prefix' args' = Some key' →
       key ≠ key' →
       (get self2 now3 prefix' args').2 = (get self now3 prefix' args').2).
Proof.
  intros (He & key & Hkey & _ & _ & ->)%cache_set_true.
  intros (He1 & key1 & Hkey1 & _ & _ & ->)%cache_set_true.
  rewrite Hkey in Hkey1. injection Hkey1 as <-.
  split.
  - intros Hlt%Z.ltb_lt. unfold Cache.get. simpl. rewrite He, Hkey. simpl.
    by rewrite lookup_insert_eq, Hlt.
  - intros prefix' args' k k' Hk Hk' Hne.
    rewrite Hkey in Hk. injection Hk as <-.
    apply get_value_lookup; [by simpl|].
    intros k'' Hk''. rewrite Hk' in Hk''. injection Hk'' as <-.
    simpl. by rewrite !lookup_insert_ne.
Qed.

(** X17: [get] only reads, but for the eviction of the entry it was asked
for: it never adds or changes an entry and never touches the entry of
another key, and it leaves the cache exactly as it was when it returns a
value or when the cache is disabled. *)
Theorem cache_get_read_only (self : Cache.CacheService Any) (now : datetime)
    (prefix : string) (args : list Any) :
  Cache._cache (get self now prefix args).1 ⊆ Cache._cache self
  ∧ Cache._enabled (get self now prefix args).1 = Cache._enabled self
  ∧ (∀ key k, _generate_key prefix args = Some key → k ≠ key →
              Cache._cache (get self now prefix args).1 !! k = Cache._cache self !! k)
  ∧ (is_Some (get self now prefix args).2 → (get self now prefix args).1 = self)
  ∧ (Cache._enabled self = false → get self now prefix args = (self, None)).
Proof.
  unfold Cache.get. destruct (Cache._enabled self) eqn:He; simpl;
    [|split_and!; try done; by rewrite He].
  destruct (_generate_key prefix args) as [key|]; simpl;
    [|split_and!; try done; by rewrite He].
  destruct (Cache._cache self !! key) as [[v expiry]|] eqn:Hk;
    [|split_and!; try done; by rewrite He].
  destruct (now <? expiry); simpl; [split_and!; try done; by rewrite He|].
  split_and!; try done;
    try apply delete_subseteq;
    try (intros ? k [= <-] Hne; by apply lookup_delete_ne);
    try (by intros [? ?]).
Qed.
End CacheMore.

(** An analysis stored under the namespace [analysis] is gone after
[clear_pattern] was called with the pattern [ana]. *)
Lemma clear_pattern_evicts_set_witness :
  let now := growth_scenario_now in
  let self1 :=
    (Cache.set example_json_dumps example_digest enabled_cache now
               "analysis" "result" 24 ["subject"%string]).1 in
  1 ≤ (Cache.clear_pattern self1 "ana").2
  ∧ (Cache.get example_json_dumps example_digest (Cache.clear_pattern self1 "ana").1
               (now + Py.US_PER_HOUR) "analysis" ["subject"%string]).2
    = None.
Proof.
  intros now self1.
  apply (clear_pattern_evicts_set example_json_dumps example_digest enabled_cache self1
           now (now + Py.US_PER_HOUR) "analysis" "ana" "result" 24 ["subject"%string]);
    reflexivity.
Defined.

(** A result stored for one hour and stored again for a day is answered
with the second value two hours after the first call. *)
Lemma cache_last_write_wins_witness :
  let now := growth_scenario_now in
  let self1 :=
    (Cache.set example_json_dumps example_digest enabled_cache now
               "analysis" "first" 1 ["subject"%string]).1 in
  let self2 :=
    (Cache.set example_json_dumps example_digest self1 now
               "analysis" "second" 24 ["subject"%string]).1 in
  Cache.get example_json_dumps example_digest self2 (now + 2 * Py.US_PER_HOUR)
            "analysis" ["subject"%string]
  = (self2, Some "second"%string).
Proof.
  intros now self1 self2.
  apply (cache_last_write_wins example_json_dumps example_digest enabled_cache self1 self2
           now now (now + 2 * Py.US_PER_HOUR) "analysis" "first" "second" 1 24
           ["subject"%string]); [reflexivity|reflexivity|by vm_compute].
Defined.

(** ** The response cache: the wrappers *)

Section WrapperFacts.
Context {Any : Type}.
Variable json_dumps : list Any → option string.
Variable sha256_hexdigest : string → string.
Variable of_str : string → Any.
Variable json_dumps_sorted : list Any → option string.

#[local] Abbreviation get_analysis := (Cache.get_analysis json_dumps sha256_hexdigest of_str).
#[local] Abbreviation set_analysis := (Cache.set_analysis json_dumps sha256_hexdigest of_str).
#[local] Abbreviation get_generation :=
  (Cache.get_generation json_dumps sha256_hexdigest of_str json_dumps_sorted).
#[local] Abbreviation set_generation :=
  (Cache.set_generation json_dumps sha256_hexdigest of_str json_dumps_sorted).
#[local] Abbreviation generation_args := (Cache.generation_args of_str json_dumps_sorted).

(** The keys of the two namespaces differ, whatever the digest. *)
Lemma analysis_generation_keys (args args' : list Any) (key key' : string) :
  Cache._generate_key json_dumps sha256_hexdigest "analysis" args = Some key →
  Cache._generate_key json_dumps sha256_hexdigest "generation" args' = Some key' →
  key ≠ key'.
Proof.
  unfold Cache._generate_key.
  destruct (json_dumps args), (json_dumps args'); simpl; try done.
  intros [= <-] [= <-]. simpl. intros [=].
Qed.

Lemma or_empty_str_idempotent (x : option string) :
  Cache.or_empty_str (Some (Cache.or_empty_str x)) = Cache.or_empty_str x.
Proof. by destruct x as [[|]|]. Qed.

Lemma or_empty_list_idempotent (x : option (list Any)) :
  Cache.or_empty_list (Some (Cache.or_empty_list x)) = Cache.or_empty_list x.
Proof. by destruct x as [[|]|]. Qed.

(** X18: the two namespaces do not mix: storing an analysis never changes
what [get_generation] answers, and storing a generation never changes what
[get_analysis] answers, for any arguments and at any instant. *)
Theorem analysis_generation_isolated (self : Cache.CacheService Any)
    (now now' : datetime) (subject body company_context : string) (result : Any)
    (source_subject source_body context parameters_hash : string)
    (thread_history : option string) (extra_directives : option (list Any))
    (custom_prompt : option string) :
  (λ r, r.2) <$> get_generation
                   (set_analysis self now subject body company_context result).1 now'
                   source_subject source_body context parameters_hash
                   thread_history extra_directives custom_prompt
  = (λ r, r.2) <$> get_generation self now'
                     source_subject source_body context parameters_hash
                     thread_history extra_directives custom_prompt
  ∧ match set_generation self now source_subject source_body context parameters_hash
                         result thread_history extra_directives custom_prompt with
    | Some (self1, _) =>
        (get_analysis self1 now' subject body company_context).2
        = (get_analysis self now' subject body company_context).2
    | None => True
    end.
Proof.
  split.
  - unfold Cache.get_generation.
    destruct (generation_args _ _ _ _ _ _ _) as [args|]; simpl; [|done].
    f_equal. unfold Cache.set_analysis.
    apply get_value_lookup.
    + apply set_enabled.
    + intros key' Hkey'. eapply set_other_key.
      intros key Hkey. by eapply analysis_generation_keys.
  - unfold Cache.set_generation.
    destruct (generation_args _ _ _ _ _ _ _) as [args|]; simpl; [|done].
    destruct (Cache.set _ _ _ _ _ _ _ _) as [self1 ok] eqn:Hset.
    unfold Cache.get_analysis.
    replace self1 with (Cache.set json_dumps sha256_hexdigest self now "generation"
                          result (Cache._ttl_generation self) args).1
      by (by rewrite Hset).
    apply get_value_lookup.
    + apply set_enabled.
    + intros key' Hkey'. eapply set_other_key.
      intros key Hkey Heq. by eapply analysis_generation_keys.
Qed.

(** X19: [get_generation] and [set_generation] raise exactly when the
directives cannot be serialised, also while the cache is disabled, because
the serialisation happens before the call that is guarded. An absent thread
history, list of directives or custom prompt addresses the same entry as an
empty one. A result that [set_generation] stored (it returned [True]) is
returned by [get_generation] for the same arguments, absent or empty, at
any instant before [_ttl_generation] hours have passed. *)
Theorem generation_wrappers (self : Cache.CacheService Any) (now now' : datetime)
    (source_subject source_body context parameters_hash : string) (result : Any)
    (thread_history : option string) (extra_directives : option (list Any))
    (custom_prompt : option string) :
  (get_generation self now source_subject source_body context parameters_hash
                  thread_history extra_directives custom_prompt = None
   ↔ json_dumps_sorted (Cache.or_empty_list extra_directives) = None)
  ∧ (set_generation self now source_subject source_body context parameters_hash result
                    thread_history extra_directives custom_prompt = None
     ↔ json_dumps_sorted (Cache.or_empty_list extra_directives) = None)
  ∧ get_generation self now source_subject source_body context parameters_hash
                   thread_history extra_directives custom_prompt
    = get_generation self now source_subject source_body context parameters_hash
                     (Some (Cache.or_empty_str thread_history))
                     (Some (Cache.or_empty_list extra_directives))
                     (Some (Cache.or_empty_str custom_prompt))
  ∧ set_generation self now source_subject source_body context parameters_hash result
                   thread_history extra_directives custom_prompt
    = set_generation self now source_subject source_body context parameters_hash result
                     (Some (Cache.or_empty_str thread_history))
                     (Some (Cache.or_empty_list extra_directives))
                     (Some (Cache.or_empty_str custom_prompt))
  ∧ (∀ self1,
       set_generation self now source_subject source_body context parameters_hash result
                      thread_history extra_directives custom_prompt
       = Some (self1, true) →
       now' < now + Cache._ttl_generation self * Py.US_PER_HOUR →
       get_generation self1 now' source_subject source_body context parameters_hash
                      (Some (Cache.or_empty_str thread_history))
                      (Some (Cache.or_empty_list extra_directives))
                      (Some (Cache.or_empty_str custom_prompt))
       = Some (self1, Some result)).
Proof.
  assert (Hargs : generation_args source_subject source_body context parameters_hash
                    (Some (Cache.or_empty_str thread_history))
                    (Some (Cache.or_empty_list extra_directives))
                    (Some (Cache.or_empty_str custom_prompt))
                  = generation_args source_subject source_body context parameters_hash
                      thread_history extra_directives custom_prompt).
  { unfold Cache.generation_args.
    by rewrite !or_empty_str_idempotent, or_empty_list_idempotent. }
  unfold Cache.get_generation, Cache.set_generation. rewrite Hargs.
  unfold Cache.generation_args.
  destruct (json_dumps_sorted (Cache.or_empty_list extra_directives)) as [ds|]; simpl;
    [|by split_and!].
  split_and!; try done.
  intros self1 [= Hset] Hlt.
  apply cache_set_true in Hset as (He & key & Hkey & _ & _ & ->).
  f_equal. unfold Cache.get. simpl. rewrite He, Hkey. simpl.
  rewrite lookup_insert_eq. apply Z.ltb_lt in Hlt. by rewrite Hlt.
Qed.

(** X20: an analysis that [set_analysis] stored (it returned [True]) is
returned by [get_analysis] for the same subject, body and company context
at any instant before [_ttl_analysis] hours have passed, and is evicted and
missed from then on; the result that was stored plays no part in the key,
so a second [set_analysis] for the same three strings replaces the first
result. *)
Theorem analysis_round_trip (self self1 : Cache.CacheService Any) (now now' : datetime)
    (subject body company_context : string) (result : Any) :
  set_analysis self now subject body company_context result = (self1, true) →
  (now' < now + Cache._ttl_analysis self * Py.US_PER_HOUR →
   get_analysis self1 now' subject body company_context = (self1, Some result))
  ∧ (now + Cache._ttl_analysis self * Py.US_PER_HOUR ≤ now' →
     (get_analysis self1 now' subject body company_context).2 = None)
  ∧ (∀ result' self2,
       set_analysis self1 now subject body company_context result' = (self2, true) →
       now' < now + Cache._ttl_analysis self * Py.US_PER_HOUR →
       get_analysis self2 now' subject body company_context = (self2, Some result')).
Proof.
  unfold Cache.set_analysis, Cache.get_analysis.
  intros (He & key & Hkey & _ & _ & ->)%cache_set_true.
  split_and!.
  - intros Hlt%Z.ltb_lt. unfold Cache.get. simpl. rewrite He, Hkey. simpl.
    by rewrite lookup_insert_eq, Hlt.
  - intros Hge%Z.ltb_ge. unfold Cache.get. simpl. rewrite He, Hkey. simpl.
    by rewrite lookup_insert_eq, Hge.
  - intros result' self2 (_ & key' & Hkey' & _ & _ & ->)%cache_set_true Hlt%Z.ltb_lt.
    rewrite Hkey in Hkey'. injection Hkey' as <-.
    unfold Cache.get. simpl. rewrite He, Hkey. simpl.
    by rewrite lookup_insert_eq, Hlt.
Qed.
End WrapperFacts.

(** An analysis stored with the default TTL of 24 hours is returned one hour
later and is missed a day later. *)
Lemma analysis_round_trip_witness :
  let now := growth_scenario_now in
  let self1 :=
    (Cache.set_analysis example_json_dumps example_digest id enabled_cache now
                        "subject" "body" "bank" "result").1 in
  Cache.get_analysis example_json_dumps example_digest id self1 (now + Py.US_PER_HOUR)
                     "subject" "body" "bank"
  = (self1, Some "result"%string)
  ∧ (Cache.get_analysis example_json_dumps example_digest id self1
                        (now + 24 * Py.US_PER_HOUR) "subject" "body" "bank").2
    = None.
Proof.
  intros now self1.
  assert (Hset : Cache.set_analysis example_json_dumps example_digest id enabled_cache now
                                    "subject" "body" "bank" "result"
                 = (self1, true)) by reflexivity.
  pose proof (analysis_round_trip example_json_dumps example_digest id enabled_cache self1
                now (now + Py.US_PER_HOUR) "subject" "body" "bank" "result" Hset)
    as (Hearly & _ & _).
  pose proof (analysis_round_trip example_json_dumps example_digest id enabled_cache self1
                now (now + 24 * Py.US_PER_HOUR) "subject" "body" "bank" "result" Hset)
    as (_ & Hlate & _).
  split; [apply Hearly|apply Hlate]; by vm_compute.
Defined.

(** ** The transcript of a thread *)

Lemma join_app (sep : string) (l1 l2 : list string) :
  l1 ≠ [] → l2 ≠ [] →
  Py.join sep (l1 ++ l2) = (Py.join sep l1 ++ sep ++ Py.join sep l2)%string.
Proof.
  unfold Py.join. intros H1 H2. induction l1 as [|x l1 IH]; [done|].
  destruct l1 as [|y l1].
  - simpl. destruct l2; [done|]. done.
  - specialize (IH ltac:(done)).
    change (String.concat sep ((x :: y :: l1) ++ l2))
      with (x ++ sep ++ String.concat sep ((y :: l1) ++ l2))%string.
    change (String.concat sep (x :: y :: l1))
      with (x ++ sep ++ String.concat sep (y :: l1))%string.
    rewrite IH. by rewrite !string_app_assoc.
Qed.

Lemma history_lines_spec (messages : list Message.t) (init : list string) :
  fold_left (λ lines msg, lines ++ ThreadService.message_lines msg) messages init
  = init ++ flat_map ThreadService.message_lines messages.
Proof.
  revert init. induction messages as [|m l IH]; intros init; simpl.
  - by rewrite app_nil_r.
  - by rewrite IH, <- app_assoc.
Qed.

Lemma format_thread_history_spec (m : Message.t) (l : list Message.t) :
  ThreadService.format_thread_history (m :: l)
  = Py.join Py.newline (history_header :: flat_map ThreadService.message_lines (m :: l)).
Proof.
  unfold ThreadService.format_thread_history.
  cbn [Py.truthy_list negb]. by rewrite history_lines_spec.
Qed.

(** X21: [format_thread_history] returns the empty string exactly for the
empty history; every other transcript starts with the header line. Adding a
message at the end of a history that is not empty appends a line break and
the four lines of the message, so the transcript of a history is the start
of the transcript of every longer one. A message whose type is not
[incoming] is written as an outgoing one, and a position is written only
when the sender has a name. *)
Theorem format_thread_history_extends (messages : list Message.t) (m : Message.t) :
  (ThreadService.format_thread_history messages = EmptyString ↔ messages = [])
  ∧ (messages ≠ [] →
     Py.startswith (ThreadService.format_thread_history messages) history_header = true
     ∧ ThreadService.format_thread_history (messages ++ [m])
       = (ThreadService.format_thread_history messages ++ Py.newline
            ++ Py.join Py.newline (ThreadService.message_lines m))%string)
  ∧ ThreadService.format_thread_history [m]
    = (history_header ++ Py.newline
         ++ Py.join Py.newline (ThreadService.message_lines m))%string
  ∧ (Message.message_type m ≠ "incoming"%string →
     ThreadService.message_lines m
     = ThreadService.message_lines (with_type "outgoing" m))
  ∧ (Py.truthy_opt Py.truthy_str (Message.sender_name m) = false →
     ThreadService.message_lines m
     = ThreadService.message_lines (without_position m)).
Proof.
  split_and!.
  - split; [|by intros ->]. destruct messages as [|m0 l]; [done|].
    rewrite format_thread_history_spec. unfold Py.join. simpl.
    destruct (Message.sender_name m0); simpl; discriminate.
  - intros Hne. destruct messages as [|m0 l]; [done|]. split.
    + rewrite format_thread_history_spec.
      change (history_header :: flat_map ThreadService.message_lines (m0 :: l))
        with ([history_header] ++ flat_map ThreadService.message_lines (m0 :: l)).
      rewrite join_app by done.
      change (Py.join Py.newline [history_header]) with history_header.
      apply startswith_app.
    + change ((m0 :: l) ++ [m]) with (m0 :: (l ++ [m])).
      rewrite !format_thread_history_spec.
      change (m0 :: l ++ [m]) with ((m0 :: l) ++ [m]).
      rewrite flat_map_app.
      change (flat_map ThreadService.message_lines [m])
        with (ThreadService.message_lines m ++ []).
      rewrite app_nil_r.
      change (history_header :: ?x ++ ?y) with ((history_header :: x) ++ y).
      rewrite (join_app _ (history_header :: flat_map _ (m0 :: l))) by done.
      done.
  - rewrite format_thread_history_spec.
    change (flat_map ThreadService.message_lines [m])
      with (ThreadService.message_lines m ++ []).
    rewrite app_nil_r.
    change (history_header :: ThreadService.message_lines m)
      with ([history_header] ++ ThreadService.message_lines m).
    by rewrite join_app.
  - intros Hty. unfold ThreadService.message_lines, with_type. simpl.
    destruct (String.eqb_spec (Message.message_type m) "incoming"); [done|]. done.
  - intros Hname. unfold ThreadService.message_lines, without_position. simpl.
    destruct (Message.sender_name m) as [name|]; [|done].
    simpl in Hname. by rewrite Hname.
Qed.
